(** * FX volatility surface: flat-forward daily grid, smile-fit cache, pricing facade

    A shallow embedding of [frm/market_data/fx_volatility_surface.py]
    (class [FXVolatilitySurface]) and the properties of its
    specification that concern the numeric kernel
    ([forward_volatility], [flat_forward_interp]), the daily grid built in
    [__post_init__], the per-date smile-fit cache of [interp_σ_surface],
    the pricing facade [price_fx_vanilla_european] and the dispatch of
    [simulate_fx_rate_path].

    Modelling conventions.
    - A numpy [float64] is a value of [float64] below: a finite value is a
      real number (rounding and overflow are abstracted away), and the
      special values [nan], [+inf], [-inf] follow IEEE 754 as numpy applies
      them (division by zero yields [inf] or [nan] with a RuntimeWarning,
      the square root of a negative number is [nan], every comparison with
      [nan] is false except [!=]).  What is proved on this reading is
      stated on the values the code computes (which formula, which branch,
      which exception); identities of exact arithmetic are marked as such,
      and the module [Binary64] evaluates the kernel on IEEE 754 doubles
      to show where rounding breaks them.
    - A plain Python [float] argument of [forward_volatility] is not an
      array: its [**] and [/] raise OverflowError and ZeroDivisionError
      where numpy returns [inf] or [nan] ([forward_volatility_float]).
    - A [pd.Timestamp] of a calendar day is the day's ordinal, a [Z].
    - A two-dimensional [np.ndarray] is the list of its rows; a column
      vector ([x[:, np.newaxis]]) has rows of length one and is broadcast
      along the columns of its partner.
    - A Python exception is a value of [exn]; a function that may raise
      returns a [result].  [warnings.warn] appends to a log of warnings and
      does not interrupt the call (Python's default filter).
    - The collaborators imported from other modules (day counter, zero
      curves, forward-curve interpolation, Garman-Kohlhagen and Heston
      routines, random numbers) are fields of the record [Collaborators];
      they are pure functions of their arguments.  The two spline
      constructors of scipy validate their arguments and may raise. *)

From Stdlib Require Import Reals Lra ZArith Sorted.
From Stdlib Require PrimFloat DecimalString.
From stdpp Require Import gmap strings list.

Open Scope string_scope.
Open Scope list_scope.

(** ** numpy float64, idealised *)

Inductive float64 : Type :=
| Fin (x : R)
| Inf (negative : bool)
| NaN.

Definition Rltb (x y : R) : bool := if Rlt_dec x y then true else false.
Definition Reqb (x y : R) : bool := if Req_dec_T x y then true else false.

Definition fzero : float64 := Fin 0%R.

Definition fadd (a b : float64) : float64 :=
  match a, b with
  | Fin x, Fin y => Fin (x + y)%R
  | Fin _, Inf s => Inf s
  | Inf s, Fin _ => Inf s
  | Inf s, Inf s' => if Bool.eqb s s' then Inf s else NaN
  | _, _ => NaN
  end.

Definition fsub (a b : float64) : float64 :=
  match a, b with
  | Fin x, Fin y => Fin (x - y)%R
  | Fin _, Inf s => Inf (negb s)
  | Inf s, Fin _ => Inf s
  | Inf s, Inf s' => if Bool.eqb s s' then NaN else Inf s
  | _, _ => NaN
  end.

Definition fmul (a b : float64) : float64 :=
  match a, b with
  | Fin x, Fin y => Fin (x * y)%R
  | Fin x, Inf s | Inf s, Fin x =>
      if Reqb x 0 then NaN else Inf (xorb s (Rltb x 0))
  | Inf s, Inf s' => Inf (xorb s s')
  | _, _ => NaN
  end.

Definition fdiv (a b : float64) : float64 :=
  match a, b with
  | Fin x, Fin y =>
      if Reqb y 0 then
        if Reqb x 0 then NaN else Inf (Rltb x 0)
      else Fin (x / y)%R
  | Fin _, Inf _ => Fin 0%R
  | Inf s, Fin y => Inf (xorb s (Rltb y 0))
  | Inf _, Inf _ => NaN
  | _, _ => NaN
  end.

(** [x ** 2] on a float64 array is numpy's [square]. *)
Definition fsquare (a : float64) : float64 := fmul a a.

Definition fsqrt (a : float64) : float64 :=
  match a with
  | Fin x => if Rltb x 0 then NaN else Fin (sqrt x)
  | Inf false => Inf false
  | Inf true => NaN
  | NaN => NaN
  end.

Definition flt (a b : float64) : bool :=
  match a, b with
  | Fin x, Fin y => Rltb x y
  | Fin _, Inf s => negb s
  | Inf s, Fin _ => s
  | Inf s, Inf s' => s && negb s'
  | _, _ => false
  end.

Definition feq (a b : float64) : bool :=
  match a, b with
  | Fin x, Fin y => Reqb x y
  | Inf s, Inf s' => Bool.eqb s s'
  | _, _ => false
  end.

Definition fne (a b : float64) : bool := negb (feq a b).

(** ** Exceptions and warnings *)

Inductive exn : Type :=
| AssertionError
| ValueError (msg : string)
| NameError (name : string)
| KeyError
| UnboundLocalError (name : string)
| TypeError
| IndexError
| ZeroDivisionError
| OverflowError
(** [scipy.interpolate.dfitpack.error], raised by the FITPACK wrappers *)
| DfitpackError (msg : string)
(** [ValueError('SSE is a large value, ', round(SSE,4), ' heston fit at ',
    date, ' is likely poor')] *)
| PoorHestonFit (sse : float64) (date : Z).

Inductive result (A : Type) : Type :=
| Ok (a : A)
| Raise (e : exn).
Arguments Ok {A} a.
Arguments Raise {A} e.

(** A computation that may warn and may raise: the warnings issued so
    far, and the outcome. *)
Definition warned (A : Type) : Type := (list string * result A)%type.

Definition wret {A} (a : A) : warned A := ([], Ok a).
Definition wraise {A} (e : exn) : warned A := ([], Raise e).
Definition wwarn (msg : string) : warned unit := ([msg], Ok tt).
Definition wbind {A B} (c : warned A) (k : A -> warned B) : warned B :=
  match c with
  | (w, Ok a) => let '(w', r) := k a in (w ++ w', r)
  | (w, Raise e) => (w, Raise e)
  end.

Notation "'do' x <- c ;; k" := (wbind c (fun x => k))
  (at level 10, x name, c at level 99, k at level 200, only parsing).

(** ** Arrays *)

Definition ndarray : Type := list (list float64).

Definition bc_row (f : float64 -> float64 -> float64) (r1 r2 : list float64)
  : list float64 :=
  match r1, r2 with
  | [a], _ => map (f a) r2
  | _, [b] => map (fun a => f a b) r1
  | _, _ => zip_with f r1 r2
  end.

(** Element-wise binary operation with numpy broadcasting along the
    columns.  Every call site below combines arrays with the same number
    of rows, of shapes (n,1) with (n,1), (n,1) with (n,k) or (n,k) with
    (n,k); a one-dimensional array of length n is the single row of a
    (1,n) array, a numpy scalar is a (1,1) array.  Plain Python floats
    are not arrays: see [forward_volatility_float]. *)
Definition broadcast (f : float64 -> float64 -> float64) (A B : ndarray)
  : ndarray :=
  zip_with (bc_row f) A B.

Definition np_map (f : float64 -> float64) (A : ndarray) : ndarray :=
  map (map f) A.

Definition np_any (p : float64 -> bool) (A : ndarray) : bool :=
  existsb (existsb p) A.

Definition np_sub := broadcast fsub.
Definition np_add := broadcast fadd.
Definition np_mul := broadcast fmul.
Definition np_div := broadcast fdiv.
Definition np_square := np_map fsquare.
Definition np_sqrt := np_map fsqrt.

(** ** The numeric kernel *)

Definition warn_tau_zero : string := "t2 and t1 are equal. NaN will be returned.".
Definition msg_negative_sqrt : string := "Negative value encountered under square root.".

(** [forward_volatility]: the branch for [tau < 0] evaluates the name
    [ValueErwarnings], which is not defined, so Python raises a
    NameError there; it is an [elif], reached only when no [tau] is zero. *)
Definition forward_volatility (t1 σ_t1 t2 σ_t2 : ndarray) : warned ndarray :=
  let tau := np_sub t2 t1 in
  do _ <- (if np_any (fun x => feq x fzero) tau then wwarn warn_tau_zero
         else if np_any (fun x => flt x fzero) tau
              then wraise (NameError "ValueErwarnings")
              else wret tt) ;;
  let result :=
    np_div (np_sub (np_mul (np_square σ_t2) t2) (np_mul (np_square σ_t1) t1)) tau in
  if np_any (fun x => flt x fzero) result
  then wraise (ValueError msg_negative_sqrt)
  else wret (np_sqrt result).

Definition flat_forward_interp (t1 σ_t1 t2 σ_t2 t : ndarray) : warned ndarray :=
  do σ_t12 <- forward_volatility t1 σ_t1 t2 σ_t2 ;;
  wret (np_sqrt (np_div (np_add (np_mul (np_square σ_t1) t1)
                                (np_mul (np_square σ_t12) (np_sub t t1))) t)).



(** ** The kernel on plain Python floats *)





(** ** The kernel on IEEE 754 doubles *)

(** The two functions of the kernel on one entry of numpy [float64]
    arrays, with the arithmetic of the machine: every operation rounds to
    the nearest double ([x ** 2] on an array is numpy's [square],
    [x * x]).  Used to evaluate the code bit for bit on concrete
    inputs. *)
Module Binary64.

Definition forward_volatility (t1 σ_t1 t2 σ_t2 : PrimFloat.float)
  : warned PrimFloat.float :=
  let tau := PrimFloat.sub t2 t1 in
  do _ <- (if PrimFloat.eqb tau PrimFloat.zero then wwarn warn_tau_zero
         else if PrimFloat.ltb tau PrimFloat.zero
              then wraise (NameError "ValueErwarnings")
              else wret tt) ;;
  let result :=
    PrimFloat.div
      (PrimFloat.sub (PrimFloat.mul (PrimFloat.mul σ_t2 σ_t2) t2)
                     (PrimFloat.mul (PrimFloat.mul σ_t1 σ_t1) t1)) tau in
  if PrimFloat.ltb result PrimFloat.zero
  then wraise (ValueError msg_negative_sqrt)
  else wret (PrimFloat.sqrt result).

Definition flat_forward_interp (t1 σ_t1 t2 σ_t2 t : PrimFloat.float)
  : warned PrimFloat.float :=
  do σ_t12 <- forward_volatility t1 σ_t1 t2 σ_t2 ;;
  wret (PrimFloat.sqrt
          (PrimFloat.div
             (PrimFloat.add (PrimFloat.mul (PrimFloat.mul σ_t1 σ_t1) t1)
                            (PrimFloat.mul (PrimFloat.mul σ_t12 σ_t12)
                                           (PrimFloat.sub t t1))) t)).

(** Doubles for the examples: 1, 2 and 4 are exact; [d0_2] and [d0_4] are
    the doubles nearest to 0.2 and 0.4, which is what the literals [0.2]
    and [0.4] denote in Python; [d0_4_up2] is the second double above
    [d0_4], printed 0.40000000000000013. *)
Import PrimFloat.
Definition d1 : float := 1.
Definition d2 : float := 2.
Definition d4 : float := 4.
Definition d0_2 : float := 0x1.999999999999ap-3.
Definition d0_4 : float := 0x1.999999999999ap-2.
Definition d0_4_up2 : float := 0x1.999999999999cp-2.

End Binary64.

(** ** Tables of the surface *)

(** A row of [σ_pillar] (index [tenor_date]).  [p_σ] holds the columns
    [cols = ['σ_25Δput', 'σ_atmΔneutral', 'σ_25Δcall']] in that order. *)
Record pillar_row : Type := {
  p_tenor_date : Z;
  p_tenor_name : string;
  p_tenor_years : float64;
  p_Δ_convention : string;
  p_σ : list float64;
  p_foreign_ccy_continuously_compounded_zero_rate : float64;
  p_domestic_ccy_continuously_compounded_zero_rate : float64;
  p_fx_forward_rate : float64
}.

(** A row of [Δ_σ_daily] (index [tenor_date]), same layout of [d_σ]. *)
Record daily_row : Type := {
  d_tenor_date : Z;
  d_tenor_years : float64;
  d_σ : list float64;
  d_Δ_convention : string;
  d_foreign_ccy_continuously_compounded_zero_rate : float64;
  d_domestic_ccy_continuously_compounded_zero_rate : float64;
  d_fx_forward_rate : float64
}.

(** [df.loc[date]] on a table indexed by date. *)
Definition daily_loc (df : list daily_row) (date : Z) : option daily_row :=
  find (fun r => Z.eqb (d_tenor_date r) date) df.

(** [min(index)], [max(index)]: Python raises ValueError on an empty index. *)
Definition index_min (idx : list Z) : option Z :=
  match idx with
  | [] => None
  | d :: ds => Some (fold_right Z.min d ds)
  end.

Definition index_max (idx : list Z) : option Z :=
  match idx with
  | [] => None
  | d :: ds => Some (fold_right Z.max d ds)
  end.

(** [pd.date_range(lo, hi, freq='d')]. *)
Definition date_range (lo hi : Z) : list Z :=
  map (fun i => (lo + Z.of_nat i)%Z) (seq 0 (Z.to_nat (hi - lo + 1))).

(** [pd.merge_asof] requires the keys of the right table in increasing
    order (equal keys allowed) and raises ValueError otherwise. *)
Fixpoint keys_sorted (ks : list Z) : bool :=
  match ks with
  | [] => true
  | k :: ks' =>
      match ks' with
      | [] => true
      | k' :: _ => Z.leb k k' && keys_sorted ks'
      end
  end.

(** [direction='backward']: the last row whose key is at most [date];
    [direction='forward']: the first row whose key is at least [date]. *)
Definition asof_backward (df : list pillar_row) (date : Z) : option pillar_row :=
  last (filter (fun p => (p_tenor_date p <= date)%Z) df).

Definition asof_forward (df : list pillar_row) (date : Z) : option pillar_row :=
  head (filter (fun p => (date <= p_tenor_date p)%Z) df).

(** A column of the merged frame: not-a-number where no row matched. *)
Definition merged_years (o : option pillar_row) : float64 :=
  match o with Some p => p_tenor_years p | None => NaN end.

Definition merged_σ (o : option pillar_row) : list float64 :=
  match o with Some p => p_σ p | None => [NaN; NaN; NaN] end.

(** [x[:, np.newaxis]] *)
Definition newaxis (x : list float64) : ndarray := map (fun v => [v]) x.

(** [np.where(mask, a, b)] with [mask] of shape (n,1) and [a], [b] of
    shape (n,k): both [a] and [b] are evaluated by the caller first. *)
Fixpoint np_where (mask : list bool) (a b : ndarray) : ndarray :=
  match mask, a, b with
  | m :: mask', ra :: a', rb :: b' =>
      (if m then ra else rb) :: np_where mask' a' b'
  | _, _, _ => []
  end.

Definition regular_forward_Δ : string := "regular_forward_Δ".

Definition msg_empty_index : string := "min() arg is an empty sequence".
Definition msg_right_keys : string := "right keys must be sorted".

(** The block of [__post_init__] that builds [Δ_σ_daily] from [σ_pillar]
    (from [dates = pd.date_range(...)] to the call of
    [__interp_daily_FXF_and_IR_rates]).  [daycounter d] is
    [self.daycounter.year_fraction(self.curve_date, d)], strictly
    increasing in [d], so [sort_values('tenor_years')] keeps the rows in
    date order and [merge_asof] finds its left keys sorted (for a day
    counter that is not, pandas reorders the rows and [merge_asof]
    raises; that case is outside the model);
    [zero_rate_f], [zero_rate_d], [fx_forward] are the three columns that
    [__interp_daily_FXF_and_IR_rates] fills in from the curves. *)
Definition post_init_Δ_σ_daily
    (daycounter zero_rate_f zero_rate_d fx_forward : Z -> float64)
    (σ_pillar : list pillar_row) : warned (list daily_row) :=
  let index := map p_tenor_date σ_pillar in
  match index_min index, index_max index with
  | Some lo, Some hi =>
      let dates := date_range lo hi in
      let tenor_years := map daycounter dates in
      if negb (keys_sorted index) then wraise (ValueError msg_right_keys)
      else
        let df_lower_pillar := map (asof_backward σ_pillar) dates in
        let df_upper_pillar := map (asof_forward σ_pillar) dates in
        let t1 := map merged_years df_lower_pillar in
        let t2 := map merged_years df_upper_pillar in
        let t := tenor_years in
        let σ_t1 := map merged_σ df_lower_pillar in
        let σ_t2 := map merged_σ df_upper_pillar in
        let mask := zip_with fne t1 t2 in
        do interp <- flat_forward_interp (newaxis t1) σ_t1 (newaxis t2) σ_t2
                                         (newaxis t) ;;
        let σ_t := np_where mask interp σ_t1 in
        wret (zip_with
                (fun '(date, years) σ =>
                   {| d_tenor_date := date;
                      d_tenor_years := years;
                      d_σ := σ;
                      d_Δ_convention := regular_forward_Δ;
                      d_foreign_ccy_continuously_compounded_zero_rate := zero_rate_f date;
                      d_domestic_ccy_continuously_compounded_zero_rate := zero_rate_d date;
                      d_fx_forward_rate := fx_forward date |})
                (zip dates tenor_years) σ_t)
  | _, _ => wraise (ValueError msg_empty_index)
  end.

(** ** The surface and its collaborators *)

(** An entry of the cache [K_σ_daily_smile_func]: a spline object built on
    strikes [x] and volatilities [y], or the tuple
    [(v0, vv, kappa, theta, rho, lambda_, IV, SSE)] of a Heston fit. *)
Record heston_tuple : Type := {
  v0 : float64;
  vv : float64;
  kappa : float64;
  theta : float64;
  rho : float64;
  lambda_ : float64;
  IV : list float64;
  SSE : float64
}.

Inductive smile_fit : Type :=
| InterpolatedUnivariateSpline (x y : list float64)
| CubicSpline (x y : list float64)
| HestonTuple (h : heston_tuple).

(** What scipy's spline constructors raise when they reject the points:
    a [ValueError] (for [CubicSpline], strikes that are not strictly
    increasing) or FITPACK's [dfitpack.error] (for
    [InterpolatedUnivariateSpline], no more points than the degree). *)
Inductive scipy_error : Type :=
| ScipyValueError (msg : string)
| ScipyDfitpackError (msg : string).

Definition raise_scipy (err : scipy_error) : exn :=
  match err with
  | ScipyValueError msg => ValueError msg
  | ScipyDfitpackError msg => DfitpackError msg
  end.

(** Values stored in the dictionaries that the facade returns. *)
Inductive py_value : Type :=
| PyArray (a : ndarray)
| PyFrame (dates : list Z) (columns : list (string * list float64)).

Record Collaborators : Type := {
  gk_solve_strike :
    float64 -> float64 -> float64 -> float64 -> list float64 -> list float64 ->
    string -> float64 -> list float64;
  (** [InterpolatedUnivariateSpline(x=K, y=σ)] and [CubicSpline(x=K, y=σ)]:
      [None] when scipy builds the object, the error when it rejects the
      points *)
  univariate_spline_init : list float64 -> list float64 -> option scipy_error;
  cubic_spline_init : list float64 -> list float64 -> option scipy_error;
  (** the call of a spline object built on [x], [y] *)
  univariate_spline_call : list float64 -> list float64 -> float64 -> float64;
  cubic_spline_call : list float64 -> list float64 -> float64 -> float64;
  heston_fit_vanilla_fx_smile :
    list float64 -> string -> list float64 -> float64 -> float64 -> float64 ->
    float64 -> list float64 -> string -> heston_tuple;
  (** [...(S, tau, r_f, r_d, cp, K, v0, vv, kappa, theta, rho, lambda_)['option_value']] *)
  heston1993_price_fx_vanilla_european :
    float64 -> float64 -> float64 -> float64 -> float64 -> float64 ->
    float64 -> float64 -> float64 -> float64 -> float64 -> float64 -> float64;
  (** [...(S, tau, r_f, r_d, cp, K, v0, vv, kappa, theta, rho, integration_method)['option_value']] *)
  heston_carr_madan_fx_vanilla_european :
    float64 -> float64 -> float64 -> float64 -> float64 -> float64 ->
    float64 -> float64 -> float64 -> float64 -> float64 -> Z -> float64;
  gk_solve_implied_σ :
    float64 -> float64 -> float64 -> float64 -> float64 -> float64 ->
    float64 -> float64 -> float64;
  gk_price :
    float64 -> list float64 -> list float64 -> list float64 -> list float64 ->
    list float64 -> list float64 -> list float64 -> bool -> bool ->
    gmap string py_value;
  interp_fx_forward_curve :
    list (Z * float64) -> list Z -> bool -> list float64;
  generate_rand_nbs : nat -> option nat -> option bool -> ndarray;
  simulate_gbm_path :
    float64 -> list float64 -> list float64 -> list float64 -> ndarray ->
    ndarray;
  (** the order in which Python iterates over [set(dates)] *)
  set_iter : list Z -> list Z
}.

(** What Python guarantees of [set(dates)]: each date once. *)
Definition set_iter_spec (E : Collaborators) : Prop :=
  forall dates : list Z,
    NoDup (set_iter E dates) /\ (forall d, In d (set_iter E dates) <-> In d dates).

Record FXVolatilitySurface : Type := {
  curve_date : Z;
  curve_ccy : string;
  fx_forward_curve : list (Z * float64);
  (** [zero_rate(dates, compounding_frequency='continuously')] of each curve *)
  domestic_zero_curve : Z -> float64;
  foreign_zero_curve : Z -> float64;
  (** [daycounter.year_fraction] *)
  daycounter : Z -> Z -> float64;
  spot_date : Z;
  fx_spot_rate : float64;
  domestic_ccy : string;
  foreign_ccy : string;
  Δ_σ_daily : list daily_row;
  σ_pillar : list pillar_row;
  K_pillar : list (Z * list float64);
  K_σ_daily_smile_func : gmap Z smile_fit;
  smile_interpolation_method : string
}.

(** [self.K_σ_daily_smile_func[date] = fit]: the one assignment to a field
    of [self] after construction. *)
Definition set_smile_func (self : FXVolatilitySurface) (date : Z) (fit : smile_fit)
  : FXVolatilitySurface :=
  {| curve_date := curve_date self;
     curve_ccy := curve_ccy self;
     fx_forward_curve := fx_forward_curve self;
     domestic_zero_curve := domestic_zero_curve self;
     foreign_zero_curve := foreign_zero_curve self;
     daycounter := daycounter self;
     spot_date := spot_date self;
     fx_spot_rate := fx_spot_rate self;
     domestic_ccy := domestic_ccy self;
     foreign_ccy := foreign_ccy self;
     Δ_σ_daily := Δ_σ_daily self;
     σ_pillar := σ_pillar self;
     K_pillar := K_pillar self;
     K_σ_daily_smile_func := <[date := fit]> (K_σ_daily_smile_func self);
     smile_interpolation_method := smile_interpolation_method self |}.

(** A method call on a surface: the surface afterwards, the dates at which
    a smile fit was computed during the call (in order; a record of the
    calls to the fitting routines, not a field of the object), and the
    outcome. *)
Record call (A : Type) : Type := Call {
  self_after : FXVolatilitySurface;
  fits_computed : list Z;
  outcome_of : result A
}.
Arguments Call {A} _ _ _.
Arguments self_after {A} _.
Arguments fits_computed {A} _.
Arguments outcome_of {A} _.

Definition method_univariate_spline : string := "univariate_spline".
Definition method_cubic_spline : string := "cubic_spline".
Definition method_heston_analytical_1993 : string := "heston_analytical_1993".
Definition method_heston_carr_madan_gauss_kronrod_quadrature : string :=
  "heston_carr_madan_gauss_kronrod_quadrature".
Definition method_heston_carr_madan_fft_w_simpsons : string :=
  "heston_carr_madan_fft_w_simpsons".

(** [smile_interpolation_method[:6] == 'heston'] *)
Definition is_heston (method : string) : bool :=
  String.eqb (String.substring 0 6 method) "heston".

(** The acceptance threshold of a Heston fit, [0.001]. *)
Definition SSE_threshold : float64 := Fin (1 / 1000)%R.

(** [cp] and [Δ] of the three buckets [k_25Δput], [k_atmΔneutral],
    [k_25Δcall], as the two list comprehensions of [interp_σ_surface]
    compute them from the column names. *)
Definition bucket_cp : list float64 := [Fin (-1)%R; Fin 1%R; Fin 1%R].
Definition bucket_Δ : list float64 :=
  [Fin (-1 * 25 / 100)%R; Fin (1 / 2)%R; Fin (1 * 25 / 100)%R].

(** ** [interp_σ_surface] *)

(** [self.Δ_σ_daily.loc[pd.DatetimeIndex(dates), :]]: KeyError when a date
    is not in the index. *)
Fixpoint daily_loc_all (df : list daily_row) (dates : list Z)
  : result (list daily_row) :=
  match dates with
  | [] => Ok []
  | d :: ds =>
      match daily_loc df d with
      | None => Raise KeyError
      | Some row =>
          match daily_loc_all df ds with
          | Ok rows => Ok (row :: rows)
          | Raise e => Raise e
          end
      end
  end.

(** The body of the first loop for one row of [df_unique_dates].  The
    right-hand side of [self.K_σ_daily_smile_func[date] = ...] is evaluated
    before the assignment: when the constructor raises, nothing is
    stored. *)
Definition fit_smile (E : Collaborators) (self : FXVolatilitySurface)
    (row : daily_row) : call unit :=
  let date := d_tenor_date row in
  match K_σ_daily_smile_func self !! date with
  | Some _ => Call self [] (Ok tt)
  | None =>
      let S := fx_spot_rate self in
      let r_f := d_foreign_ccy_continuously_compounded_zero_rate row in
      let r_d := d_domestic_ccy_continuously_compounded_zero_rate row in
      let tau := d_tenor_years row in
      let Δ_convention := d_Δ_convention row in
      let F := d_fx_forward_rate row in
      let cp := bucket_cp in
      let Δ := bucket_Δ in
      (* [self.Δ_σ_daily.loc[date, dict_K_σ.values()].values]: [row] was
         read from that table at [date], so the row is there *)
      let σ := match daily_loc (Δ_σ_daily self) date with
               | Some r => d_σ r
               | None => d_σ row
               end in
      let method := smile_interpolation_method self in
      if String.eqb method method_univariate_spline then
        let K := gk_solve_strike E S tau r_f r_d σ Δ Δ_convention F in
        match univariate_spline_init E K σ with
        | Some err => Call self [date] (Raise (raise_scipy err))
        | None =>
            Call (set_smile_func self date (InterpolatedUnivariateSpline K σ))
                 [date] (Ok tt)
        end
      else if String.eqb method method_cubic_spline then
        let K := gk_solve_strike E S tau r_f r_d σ Δ Δ_convention F in
        match cubic_spline_init E K σ with
        | Some err => Call self [date] (Raise (raise_scipy err))
        | None =>
            Call (set_smile_func self date (CubicSpline K σ)) [date] (Ok tt)
        end
      else if is_heston method then
        let h := heston_fit_vanilla_fx_smile E Δ Δ_convention σ S r_f r_d tau cp
                   method in
        if flt (SSE h) SSE_threshold
        then Call (set_smile_func self date (HestonTuple h)) [date] (Ok tt)
        else Call self [date] (Raise (PoorHestonFit (SSE h) date))
      else Call self [] (Ok tt)
  end.

(** [for date, row in df_unique_dates.iterrows(): ...] *)
Fixpoint fit_loop (E : Collaborators) (self : FXVolatilitySurface)
    (rows : list daily_row) : call unit :=
  match rows with
  | [] => Call self [] (Ok tt)
  | row :: rows' =>
      let c := fit_smile E self row in
      match outcome_of c with
      | Raise e => c
      | Ok _ =>
          let c' := fit_loop E (self_after c) rows' in
          Call (self_after c') (fits_computed c ++ fits_computed c')
               (outcome_of c')
      end
  end.

(** The body of the second loop for one row of [df]: the value appended
    to [result], if any. *)
Definition smile_σ (E : Collaborators) (self : FXVolatilitySurface)
    (row : daily_row) (K_target call_put : float64) : result (option float64) :=
  let date := d_tenor_date row in
  let method := smile_interpolation_method self in
  if String.eqb method method_univariate_spline
     || String.eqb method method_cubic_spline then
    match K_σ_daily_smile_func self !! date with
    | None => Raise KeyError
    | Some (InterpolatedUnivariateSpline x y) =>
        Ok (Some (univariate_spline_call E x y K_target))
    | Some (CubicSpline x y) => Ok (Some (cubic_spline_call E x y K_target))
    | Some (HestonTuple _) => Raise TypeError
    end
  else if is_heston method then
    let S := fx_spot_rate self in
    let r_f := d_foreign_ccy_continuously_compounded_zero_rate row in
    let r_d := d_domestic_ccy_continuously_compounded_zero_rate row in
    let tau := d_tenor_years row in
    let cp := call_put in
    match K_σ_daily_smile_func self !! date with
    | None => Raise KeyError
    | Some (HestonTuple h) =>
        let X :=
          if String.eqb method method_heston_analytical_1993 then
            Ok (heston1993_price_fx_vanilla_european E S tau r_f r_d cp K_target
                  (v0 h) (vv h) (kappa h) (theta h) (rho h) (lambda_ h))
          else if String.eqb method
                    method_heston_carr_madan_gauss_kronrod_quadrature then
            Ok (heston_carr_madan_fx_vanilla_european E S tau r_f r_d cp K_target
                  (v0 h) (vv h) (kappa h) (theta h) (rho h) 0%Z)
          else if String.eqb method method_heston_carr_madan_fft_w_simpsons then
            Ok (heston_carr_madan_fx_vanilla_european E S tau r_f r_d cp K_target
                  (v0 h) (vv h) (kappa h) (theta h) (rho h) 1%Z)
          else Raise (UnboundLocalError "X") in
        match X with
        | Ok X => Ok (Some (gk_solve_implied_σ E S tau r_f r_d cp K_target X (v0 h)))
        | Raise e => Raise e
        end
    | Some _ => Raise TypeError
    end
  else Ok None.

(** [for date, row in df.iterrows(): ...]; [rows] are the rows of [df]
    with their columns [K] and [call_put]. *)
Fixpoint smile_loop (E : Collaborators) (self : FXVolatilitySurface)
    (rows : list (daily_row * (float64 * float64))) : result (list float64) :=
  match rows with
  | [] => Ok []
  | (row, (K_target, call_put)) :: rows' =>
      match smile_σ E self row K_target call_put with
      | Raise e => Raise e
      | Ok o =>
          match smile_loop E self rows' with
          | Raise e => Raise e
          | Ok result => Ok (match o with Some σ => σ :: result | None => result end)
          end
      end
  end.

Definition interp_σ_surface (E : Collaborators) (self : FXVolatilitySurface)
    (dates : list Z) (K cp : list float64) : call (list float64) :=
  if negb (Nat.eqb (length dates) (length K)) then Call self [] (Raise AssertionError)
  else if negb (Nat.eqb (length dates) (length cp)) then
    Call self [] (Raise AssertionError)
  else
    match daily_loc_all (Δ_σ_daily self) dates with
    | Raise e => Call self [] (Raise e)
    | Ok df =>
        match daily_loc_all (Δ_σ_daily self) (set_iter E dates) with
        | Raise e => Call self [] (Raise e)
        | Ok df_unique_dates =>
            let c := fit_loop E self df_unique_dates in
            match outcome_of c with
            | Raise e => Call (self_after c) (fits_computed c) (Raise e)
            | Ok _ =>
                Call (self_after c) (fits_computed c)
                     (smile_loop E (self_after c) (zip df (zip K cp)))
            end
        end
    end.

(** ** [price_fx_vanilla_european] *)

(** [index >= σ_pillar.index.min()] and [index <= σ_pillar.index.max()];
    on an empty index pandas gives not-a-time and every comparison is
    false. *)
Definition in_pillar_range (self : FXVolatilitySurface) (d : Z) : bool :=
  let index := map p_tenor_date (σ_pillar self) in
  match index_min index, index_max index with
  | Some lo, Some hi => Z.leb lo d && Z.leb d hi
  | _, _ => false
  end.

(** [x[mask]] *)
Fixpoint select {A : Type} (mask : list bool) (x : list A) : list A :=
  match mask, x with
  | m :: mask', v :: x' => if m then v :: select mask' x' else select mask' x'
  | _, _ => []
  end.

Fixpoint fill (mask : list bool) (x values : list float64) : list float64 :=
  match mask, x with
  | m :: mask', v :: x' =>
      if m then
        match values with
        | w :: values' => w :: fill mask' x' values'
        | [] => v :: fill mask' x' []
        end
      else v :: fill mask' x' values
  | _, _ => x
  end.

(** [np.count_nonzero(mask)] *)
Fixpoint count_true (mask : list bool) : nat :=
  match mask with
  | [] => 0%nat
  | m :: mask' => if m then S (count_true mask') else count_true mask'
  end.

(** numpy's message when [n_values] values are assigned to the
    [n_selected] entries that the mask selects. *)
Definition msg_mask_assign (n_values n_selected : nat) : string :=
  String.append "NumPy boolean array indexing assignment cannot assign "
    (String.append (DecimalString.NilEmpty.string_of_uint (Nat.to_uint n_values))
       (String.append " input values to the "
          (String.append
             (DecimalString.NilEmpty.string_of_uint (Nat.to_uint n_selected))
             " output values where the mask is true"))).

(** [x[mask] = values]: numpy accepts as many values as the mask selects,
    or one value, which it broadcasts, and raises ValueError otherwise. *)
Definition mask_assign (mask : list bool) (x values : list float64)
  : result (list float64) :=
  if Nat.eqb (length values) (count_true mask) then Ok (fill mask x values)
  else match values with
       | [w] => Ok (fill mask x (repeat w (count_true mask)))
       | _ => Raise (ValueError
                       (msg_mask_assign (length values) (count_true mask)))
       end.

Definition price_fx_vanilla_european (E : Collaborators)
    (self : FXVolatilitySurface) (expiry_datetimeindex : list Z)
    (K cp : list float64)
    (analytical_greeks_flag intrinsic_time_split_flag : bool)
  : call (gmap string py_value) :=
  if negb (Nat.eqb (length expiry_datetimeindex) (length K)) then
    Call self [] (Raise AssertionError)
  else if negb (Nat.eqb (length expiry_datetimeindex) (length cp)) then
    Call self [] (Raise AssertionError)
  else
    let mask := map (in_pillar_range self) expiry_datetimeindex in
    let σ := repeat NaN (length expiry_datetimeindex) in
    let c :=
      if existsb (fun m => m) mask then
        let c := interp_σ_surface E self (select mask expiry_datetimeindex) K cp in
        Call (self_after c) (fits_computed c)
             (match outcome_of c with
              | Raise e => Raise e
              | Ok values => mask_assign mask σ values
              end)
      else Call self [] (Ok σ) in
    match outcome_of c with
    | Raise e => Call (self_after c) (fits_computed c) (Raise e)
    | Ok σ =>
        let self := self_after c in
        let r_f := map (foreign_zero_curve self) expiry_datetimeindex in
        let r_d := map (domestic_zero_curve self) expiry_datetimeindex in
        let F := interp_fx_forward_curve E (fx_forward_curve self)
                   expiry_datetimeindex true in
        let results :=
          gk_price E (fx_spot_rate self)
            (map (daycounter self (curve_date self)) expiry_datetimeindex)
            r_f r_d cp K σ F analytical_greeks_flag intrinsic_time_split_flag in
        Call self (fits_computed c)
             (Ok (<["market_data_inputs" :=
                      PyFrame [] [("σ", σ); ("r_f", r_f); ("r_d", r_d); ("F", F)]]>
                    results))
    end.

(** ** [simulate_fx_rate_path] *)

(** [np.log] *)
Definition flog (a : float64) : float64 :=
  match a with
  | Fin x => if Reqb x 0 then Inf true
             else if Rltb x 0 then NaN else Fin (ln x)
  | Inf false => Inf false
  | Inf true => NaN
  | NaN => NaN
  end.

Definition method_geometric_brownian_motion : string := "geometric_brownian_motion".

(** [self.Δ_σ_daily['σ_atmΔneutral'][dates]]: the second column of [cols]. *)
Definition σ_atmΔneutral (row : daily_row) : float64 := nth 1 (d_σ row) NaN.

(** The method has no [return] outside the branch of
    ['geometric_brownian_motion']: for any other [method] the call falls
    off the end of the body and returns [None]. *)
Definition simulate_fx_rate_path (E : Collaborators) (self : FXVolatilitySurface)
    (date_grid : option (list Z)) (nb_of_simulations : option nat)
    (flag_apply_antithetic_variates : option bool) (method : string)
  : warned (option (gmap string py_value)) :=
  let results : gmap string py_value := ∅ in
  if String.eqb method method_geometric_brownian_motion then
    let date_grid :=
      match date_grid with
      | None => map p_tenor_date (σ_pillar self)
      | Some g => g
      end in
    let tau := map (daycounter self (curve_date self)) date_grid in
    let tau := Fin 0%R :: tau in
    let dt := zip_with fsub (tail tau) (removelast tau) in
    let fx_forward_rates_t2 :=
      interp_fx_forward_curve E (fx_forward_curve self) date_grid true in
    match fx_forward_rates_t2 with
    | [] => wraise IndexError
    | _ :: _ =>
        let fx_forward_rates_t1 := fx_spot_rate self :: removelast fx_forward_rates_t2 in
        let period_drift :=
          zip_with fdiv
            (map flog (zip_with fdiv fx_forward_rates_t2 fx_forward_rates_t1)) dt in
        let mask := map (in_pillar_range self) date_grid in
        let σ_atm := repeat NaN (length date_grid) in
        do σ_atm <-
          (if existsb (fun m => m) mask then
             match daily_loc_all (Δ_σ_daily self) (select mask date_grid) with
             | Raise e => wraise e
             | Ok rows =>
                 match mask_assign mask σ_atm (map σ_atmΔneutral rows) with
                 | Raise e => wraise e
                 | Ok σ_atm => wret σ_atm
                 end
             end
           else wret σ_atm) ;;
        match σ_atm with
        | [] => wraise IndexError
        | σ_atm_0 :: _ =>
            let t1 := removelast tau in
            let t2 := tail tau in
            let σ_atm_t1 := σ_atm_0 :: removelast σ_atm in
            let σ_atm_t2 := σ_atm in
            do σ_forward <- forward_volatility [t1] [σ_atm_t1] [t2] [σ_atm_t2] ;;
            match σ_forward with
            | (_ :: σ_forward_tail) :: _ =>
                let σ_forward := σ_atm_0 :: σ_forward_tail in
                let df_gbm_monte_carlo_market_data_inputs :=
                  PyFrame (curve_date self :: date_grid)
                    [("tau", tau);
                     ("dt", Fin 0%R :: dt);
                     ("fx_forward_rates", fx_spot_rate self :: fx_forward_rates_t2);
                     ("drift", NaN :: period_drift);
                     ("atm_volatility", σ_atm_0 :: σ_atm);
                     ("forward_atm_volatility", NaN :: σ_forward)] in
                let results :=
                  <["gbm_monte_carlo_market_data_inputs" :=
                      df_gbm_monte_carlo_market_data_inputs]> results in
                let nb_of_periods := length date_grid in
                let rand_nbs :=
                  generate_rand_nbs E nb_of_periods nb_of_simulations
                    flag_apply_antithetic_variates in
                let fx_rate_simulation_paths :=
                  simulate_gbm_path E (fx_spot_rate self) period_drift σ_forward dt
                    rand_nbs in
                let results :=
                  <["fx_rate_simulation_paths" := PyArray fx_rate_simulation_paths]>
                    results in
                wret (Some results)
            | _ => wraise IndexError
            end
        end
    end
  else wret None.

(** ** Reading the formulas on real numbers and on one row *)

(** The forward variance between [(t1, s1)] and [(t2, s2)]. *)
Definition forward_variance (t1 s1 t2 s2 : R) : R :=
  ((s2 * s2 * t2 - s1 * s1 * t1) / (t2 - t1))%R.

(** The variance interpolated at [t]. *)
Definition interp_variance (t1 s1 t2 s2 t : R) : R :=
  ((s1 * s1 * t1 + forward_variance t1 s1 t2 s2 * (t - t1)) / t)%R.

(** One row of the array [result] of [forward_volatility], for the bracket
    times [a], [b] (entries of column vectors) and the rows [r1], [r2] of
    volatilities. *)
Definition forward_variance_row (a : float64) (r1 : list float64) (b : float64)
    (r2 : list float64) : list float64 :=
  bc_row fdiv
    (bc_row fsub (bc_row fmul (map fsquare r2) [b]) (bc_row fmul (map fsquare r1) [a]))
    (bc_row fsub [b] [a]).

(** One row of the array returned by [flat_forward_interp]. *)
Definition flat_forward_interp_row (a : float64) (r1 : list float64) (b : float64)
    (r2 : list float64) (c : float64) : list float64 :=
  map fsqrt
    (bc_row fdiv
       (bc_row fadd (bc_row fmul (map fsquare r1) [a])
          (bc_row fmul (map fsquare (map fsqrt (forward_variance_row a r1 b r2)))
             (bc_row fsub [c] [a])))
       [c]).

(** A well-formed pillar table: one row per tenor date, a finite year
    fraction on every row, and the three columns [cols] on every row. *)
Definition pillars_wf (σ_pillar : list pillar_row) : Prop :=
  NoDup (map p_tenor_date σ_pillar)
  /\ Forall (fun p => exists x : R, p_tenor_years p = Fin x) σ_pillar
  /\ Forall (fun p => length (p_σ p) = 3%nat) σ_pillar.

(** The row of [Δ_σ_daily] at date [d], read off the two merged frames. *)
Definition daily_row_of
    (daycounter zero_rate_f zero_rate_d fx_forward : Z -> float64)
    (σ_pillar : list pillar_row) (d : Z) : daily_row :=
  let lower := asof_backward σ_pillar d in
  let upper := asof_forward σ_pillar d in
  {| d_tenor_date := d;
     d_tenor_years := daycounter d;
     d_σ := if fne (merged_years lower) (merged_years upper)
            then flat_forward_interp_row (merged_years lower) (merged_σ lower)
                   (merged_years upper) (merged_σ upper) (daycounter d)
            else merged_σ lower;
     d_Δ_convention := regular_forward_Δ;
     d_foreign_ccy_continuously_compounded_zero_rate := zero_rate_f d;
     d_domestic_ccy_continuously_compounded_zero_rate := zero_rate_d d;
     d_fx_forward_rate := fx_forward d |}.

(** ** A small surface for examples *)

(** Time in the examples is the ordinal of the day itself. *)
Definition example_daycounter (d : Z) : float64 := Fin (IZR d).
Definition example_rate (d : Z) : float64 := Fin 0%R.

Definition example_pillar (date : Z) (σ : R) : pillar_row :=
  {| p_tenor_date := date;
     p_tenor_name := "";
     p_tenor_years := example_daycounter date;
     p_Δ_convention := regular_forward_Δ;
     p_σ := [Fin σ; Fin σ; Fin σ];
     p_foreign_ccy_continuously_compounded_zero_rate := example_rate date;
     p_domestic_ccy_continuously_compounded_zero_rate := example_rate date;
     p_fx_forward_rate := Fin 1%R |}.

(** Two pillars, on days 1 and 3, with a flat volatility of 20%. *)
Definition example_σ_pillar : list pillar_row :=
  [example_pillar 1 (2/10); example_pillar 3 (2/10)].

(** Two pillars whose volatilities, 50% then 10%, imply a negative forward
    variance between day 1 and day 3. *)
Definition arbitrage_σ_pillar : list pillar_row :=
  [example_pillar 1 (5/10); example_pillar 3 (1/10)].

Definition example_Δ_σ_daily : list daily_row :=
  map (daily_row_of example_daycounter example_rate example_rate
         (fun _ => Fin 1%R) example_σ_pillar) (date_range 1 3).

(** [np.all(np.diff(x) > 0)] *)
Fixpoint strictly_increasing (x : list float64) : bool :=
  match x with
  | a :: x' =>
      match x' with
      | b :: _ => flt a b && strictly_increasing x'
      | [] => true
      end
  | [] => true
  end.

(** The two constructors as scipy has them on the points of a smile:
    [CubicSpline] rejects strikes that are not strictly increasing, and
    [InterpolatedUnivariateSpline], of degree 3, needs more than three
    points. *)
Definition example_cubic_spline_init (x y : list float64) : option scipy_error :=
  if strictly_increasing x then None
  else Some (ScipyValueError "`x` must be strictly increasing sequence.").

Definition example_univariate_spline_init (x y : list float64)
  : option scipy_error :=
  if negb (Nat.eqb (length x) (length y))
  then Some (ScipyValueError "x and y should have a same length")
  else if Nat.leb (length x) 3
       then Some (ScipyDfitpackError "(m>k) failed for hidden m: fpcurf0:m=3")
       else None.

(** Strikes of the three buckets in the examples: 0.9, 1.0 and 1.1. *)
Definition example_strikes : list float64 :=
  [Fin (9/10)%R; Fin 1%R; Fin (11/10)%R].

(** Collaborators for the examples: the strike solver returns
    [example_strikes], the other routines return a constant, the Heston
    calibration reports the sum of squared errors [sse], and [set(dates)]
    is iterated in the order of the last occurrences. *)
Definition example_collaborators (sse : float64) : Collaborators :=
  {| gk_solve_strike := fun _ _ _ _ _ _ _ _ => example_strikes;
     univariate_spline_init := example_univariate_spline_init;
     cubic_spline_init := example_cubic_spline_init;
     univariate_spline_call := fun _ _ _ => Fin (2/10)%R;
     cubic_spline_call := fun _ _ _ => Fin (2/10)%R;
     heston_fit_vanilla_fx_smile := fun _ _ σ _ _ _ _ _ _ =>
       {| v0 := Fin (4/100)%R; vv := Fin 1%R; kappa := Fin 1%R;
          theta := Fin (4/100)%R; rho := Fin 0%R; lambda_ := Fin 0%R;
          IV := σ; SSE := sse |};
     heston1993_price_fx_vanilla_european :=
       fun _ _ _ _ _ _ _ _ _ _ _ _ => Fin (1/100)%R;
     heston_carr_madan_fx_vanilla_european :=
       fun _ _ _ _ _ _ _ _ _ _ _ _ => Fin (1/100)%R;
     gk_solve_implied_σ := fun _ _ _ _ _ _ _ _ => Fin (2/10)%R;
     gk_price := fun _ _ _ _ _ _ σ _ _ _ => {["option_value" := PyArray [σ]]};
     interp_fx_forward_curve := fun _ dates _ => map (fun _ => Fin 1%R) dates;
     generate_rand_nbs := fun _ _ _ => [];
     simulate_gbm_path := fun _ _ _ _ _ => [];
     set_iter := remove_dups |}.

Definition example_surface (method : string) : FXVolatilitySurface :=
  {| curve_date := 0;
     curve_ccy := "audusd";
     fx_forward_curve := [(0%Z, Fin 1%R); (3%Z, Fin 1%R)];
     domestic_zero_curve := example_rate;
     foreign_zero_curve := example_rate;
     daycounter := fun _ d => example_daycounter d;
     spot_date := 0;
     fx_spot_rate := Fin 1%R;
     domestic_ccy := "usd";
     foreign_ccy := "aud";
     Δ_σ_daily := example_Δ_σ_daily;
     σ_pillar := example_σ_pillar;
     K_pillar := [];
     K_σ_daily_smile_func := ∅;
     smile_interpolation_method := method |}.

(** ** Reading the query methods *)

(** The Heston calibration that [interp_σ_surface] requests for a row of
    the daily grid. *)
Definition calibration (E : Collaborators) (self : FXVolatilitySurface)
    (row : daily_row) : heston_tuple :=
  heston_fit_vanilla_fx_smile E bucket_Δ (d_Δ_convention row) (d_σ row)
    (fx_spot_rate self)
    (d_foreign_ccy_continuously_compounded_zero_rate row)
    (d_domestic_ccy_continuously_compounded_zero_rate row)
    (d_tenor_years row) bucket_cp (smile_interpolation_method self).

(** The strikes that [interp_σ_surface] solves for a row of the daily
    grid, on a surface with spot rate [S]. *)
Definition strikes (E : Collaborators) (S : float64) (row : daily_row)
  : list float64 :=
  gk_solve_strike E S (d_tenor_years row)
    (d_foreign_ccy_continuously_compounded_zero_rate row)
    (d_domestic_ccy_continuously_compounded_zero_rate row)
    (d_σ row) bucket_Δ (d_Δ_convention row) (d_fx_forward_rate row).

(** The errors with which the fit of the date [d] stops a query: the
    error of a poor Heston fit, which names the date and a sum of squared
    errors that is not below the threshold, or the error of a spline
    constructor. *)
Definition fit_error (e : exn) (d : Z) : Prop :=
  (exists s, e = PoorHestonFit s d /\ flt s SSE_threshold = false)
  \/ (exists err, e = raise_scipy err).

(** [self'] differs from [self] at most by new entries of the cache. *)
Definition only_cache_grows (self self' : FXVolatilitySurface) : Prop :=
  curve_date self' = curve_date self
  /\ curve_ccy self' = curve_ccy self
  /\ fx_forward_curve self' = fx_forward_curve self
  /\ domestic_zero_curve self' = domestic_zero_curve self
  /\ foreign_zero_curve self' = foreign_zero_curve self
  /\ daycounter self' = daycounter self
  /\ spot_date self' = spot_date self
  /\ fx_spot_rate self' = fx_spot_rate self
  /\ domestic_ccy self' = domestic_ccy self
  /\ foreign_ccy self' = foreign_ccy self
  /\ Δ_σ_daily self' = Δ_σ_daily self
  /\ σ_pillar self' = σ_pillar self
  /\ K_pillar self' = K_pillar self
  /\ smile_interpolation_method self' = smile_interpolation_method self
  /\ (forall date fit,
        K_σ_daily_smile_func self !! date = Some fit ->
        K_σ_daily_smile_func self' !! date = Some fit).

(** One implied-volatility query. *)
Record query : Type := {
  q_dates : list Z;
  q_K : list float64;
  q_cp : list float64
}.

(** Queries on one surface, one after the other, whatever each returns
    or raises. *)
Fixpoint run_queries (E : Collaborators) (self : FXVolatilitySurface)
    (qs : list query) : list (call (list float64)) :=
  match qs with
  | [] => []
  | q :: qs' =>
      let c := interp_σ_surface E self (q_dates q) (q_K q) (q_cp q) in
      c :: run_queries E (self_after c) qs'
  end.

(** The dates at which a smile fit was computed over a run of queries. *)
Definition all_fits (calls : list (call (list float64))) : list Z :=
  concat (map fits_computed calls).

(** ** Reading the surface *)

(** A smile method for which [interp_σ_surface] has no branch: it is
    neither of the two spline methods and does not start with ['heston']
    (['vanna_volga'], ['sabr'] and ['svi_sabr'] among the valid ones). *)
Definition method_without_fit (method : string) : Prop :=
  String.eqb method method_univariate_spline = false
  /\ String.eqb method method_cubic_spline = false
  /\ is_heston method = false.

Definition spline_method (method : string) : Prop :=
  method = method_univariate_spline \/ method = method_cubic_spline.

(** [InterpolatedUnivariateSpline] has degree 3, and scipy builds it only
    on more points than the degree, as many strikes as volatilities: on
    three volatilities or fewer it raises. *)
Definition univariate_needs_four_points (E : Collaborators) : Prop :=
  forall x y : list float64,
    (length y <= 3)%nat -> univariate_spline_init E x y <> None.

(** Every entry of the cache is a spline object, which can be called. *)
Definition cache_of_splines (self : FXVolatilitySurface) : Prop :=
  forall date fit,
    K_σ_daily_smile_func self !! date = Some fit ->
    exists x y, fit = InterpolatedUnivariateSpline x y \/ fit = CubicSpline x y.

(** The daily grid of the surface is the one that [__post_init__] builds
    from the pillars, the day counter and the zero curves of the surface,
    with some column of interpolated forward rates. *)
Definition grid_of_pillars (self : FXVolatilitySurface) : Prop :=
  exists w fx_forward,
    post_init_Δ_σ_daily (daycounter self (curve_date self))
      (foreign_zero_curve self) (domestic_zero_curve self) fx_forward
      (σ_pillar self)
    = (w, Ok (Δ_σ_daily self)).

(** Collaborators for an example in which the quality of the Heston
    calibration depends on the expiry: the sum of squared errors is
    [0.0004] times the year fraction. *)
Definition sloped_collaborators : Collaborators :=
  {| gk_solve_strike := fun _ _ _ _ _ _ _ _ => example_strikes;
     univariate_spline_init := example_univariate_spline_init;
     cubic_spline_init := example_cubic_spline_init;
     univariate_spline_call := fun _ _ _ => Fin (2/10)%R;
     cubic_spline_call := fun _ _ _ => Fin (2/10)%R;
     heston_fit_vanilla_fx_smile := fun _ _ σ _ _ _ tau _ _ =>
       {| v0 := Fin (4/100)%R; vv := Fin 1%R; kappa := Fin 1%R;
          theta := Fin (4/100)%R; rho := Fin 0%R; lambda_ := Fin 0%R;
          IV := σ; SSE := fmul tau (Fin (4/10000)%R) |};
     heston1993_price_fx_vanilla_european :=
       fun _ _ _ _ _ _ _ _ _ _ _ _ => Fin (1/100)%R;
     heston_carr_madan_fx_vanilla_european :=
       fun _ _ _ _ _ _ _ _ _ _ _ _ => Fin (1/100)%R;
     gk_solve_implied_σ := fun _ _ _ _ _ _ _ _ => Fin (2/10)%R;
     gk_price := fun _ _ _ _ _ _ σ _ _ _ => {["option_value" := PyArray [σ]]};
     interp_fx_forward_curve := fun _ dates _ => map (fun _ => Fin 1%R) dates;
     generate_rand_nbs := fun _ _ _ => [];
     simulate_gbm_path := fun _ _ _ _ _ => [];
     set_iter := remove_dups |}.

(** * Properties *)

(** ** Comparisons of reals *)

Lemma Rltb_true (x y : R) : (x < y)%R -> Rltb x y = true.
Proof. intros H. unfold Rltb. destruct (Rlt_dec x y); [reflexivity | contradiction]. Qed.

Lemma Rltb_false (x y : R) : (y <= x)%R -> Rltb x y = false.
Proof. intros H. unfold Rltb. destruct (Rlt_dec x y); [lra | reflexivity]. Qed.

Lemma Reqb_true (x y : R) : x = y -> Reqb x y = true.
Proof. intros H. unfold Reqb. destruct (Req_dec_T x y); [reflexivity | contradiction]. Qed.

Lemma Reqb_false (x y : R) : x <> y -> Reqb x y = false.
Proof. intros H. unfold Reqb. destruct (Req_dec_T x y); [contradiction | reflexivity]. Qed.

(** Decide every comparison of reals in the goal by linear arithmetic. *)
Ltac Rbool :=
  repeat match goal with
    | |- context [Rltb ?x ?y] =>
        first [ rewrite (Rltb_true x y) by lra | rewrite (Rltb_false x y) by lra ]
    | |- context [Reqb ?x ?y] =>
        first [ rewrite (Reqb_true x y) by lra | rewrite (Reqb_false x y) by lra ]
    end.

Ltac np_unfold :=
  unfold forward_volatility, flat_forward_interp, wbind, wret, wraise, wwarn,
    np_sub, np_add, np_mul, np_div, np_square, np_sqrt, np_map, np_any,
    broadcast, fsquare, fzero;
  cbn [bc_row zip_with map existsb orb negb fadd fsub fmul fdiv fsqrt flt
       feq app fst snd].

(** ** The scalar kernel on finite values *)

Lemma forward_volatility_scalar (t1 s1 t2 s2 : R) :
  (t1 < t2)%R ->
  (0 <= forward_variance t1 s1 t2 s2)%R ->
  forward_volatility [[Fin t1]] [[Fin s1]] [[Fin t2]] [[Fin s2]]
  = ([], Ok [[Fin (sqrt (forward_variance t1 s1 t2 s2))]]).
Proof.
  intros Ht Hv. unfold forward_variance in *.
  np_unfold. Rbool. np_unfold. Rbool. np_unfold. Rbool. reflexivity.
Qed.

Lemma flat_forward_interp_scalar (t1 s1 t2 s2 t : R) :
  (t1 < t2)%R -> (0 < t)%R ->
  (0 <= forward_variance t1 s1 t2 s2)%R ->
  (0 <= interp_variance t1 s1 t2 s2 t)%R ->
  flat_forward_interp [[Fin t1]] [[Fin s1]] [[Fin t2]] [[Fin s2]] [[Fin t]]
  = ([], Ok [[Fin (sqrt (interp_variance t1 s1 t2 s2 t))]]).
Proof.
  intros Ht Hpos Hv Hi.
  unfold flat_forward_interp. rewrite forward_volatility_scalar by assumption.
  np_unfold. Rbool.
  rewrite sqrt_sqrt by assumption.
  change ((s1 * s1 * t1 + forward_variance t1 s1 t2 s2 * (t - t1)) / t)%R
    with (interp_variance t1 s1 t2 s2 t).
  np_unfold. Rbool. reflexivity.
Qed.

Lemma interp_variance_nonneg (t1 s1 t2 s2 t : R) :
  (0 <= t1)%R -> (t1 <= t)%R -> (0 < t)%R ->
  (0 <= forward_variance t1 s1 t2 s2)%R ->
  (0 <= interp_variance t1 s1 t2 s2 t)%R.
Proof.
  intros H1 H2 H3 Hv. unfold interp_variance.
  apply Rmult_le_pos; [ | left; apply Rinv_0_lt_compat; assumption ].
  assert (0 <= s1 * s1)%R by nra.
  assert (0 <= forward_variance t1 s1 t2 s2 * (t - t1))%R
    by (apply Rmult_le_pos; lra).
  nra.
Qed.

Lemma forward_variance_nonneg (t1 s1 t2 s2 : R) :
  (t1 < t2)%R -> (0 <= s2 * s2 * t2 - s1 * s1 * t1)%R ->
  (0 <= forward_variance t1 s1 t2 s2)%R.
Proof.
  intros Ht Hn. unfold forward_variance.
  apply Rmult_le_pos; [assumption | left; apply Rinv_0_lt_compat; lra].
Qed.

(** Interpolating at [t] and then taking [(t, σ(t))] as the upper bracket
    leaves the forward variance unchanged. *)
Lemma forward_variance_rebracket (t1 s1 t2 s2 t st : R) :
  (t1 < t)%R -> (0 < t)%R ->
  (st * st = interp_variance t1 s1 t2 s2 t)%R ->
  forward_variance t1 s1 t st = forward_variance t1 s1 t2 s2.
Proof.
  intros Ht Hpos Hst.
  unfold forward_variance at 1. rewrite Hst. unfold interp_variance.
  set (V := forward_variance t1 s1 t2 s2). field. lra.
Qed.

Lemma interp_variance_upper (t1 s1 t2 s2 : R) :
  (t1 < t2)%R -> (0 < t2)%R ->
  interp_variance t1 s1 t2 s2 t2 = (s2 * s2)%R.
Proof.
  intros Ht Hpos. unfold interp_variance, forward_variance. field. lra.
Qed.

(** C7, in exact arithmetic.  For times [0 <= t1 < t < t2] and
    volatilities [s1], [s2 >= 0] with non-negative forward variance
    [s2² t2 - s1² t1], the formulas of the flat-forward interpolation,
    evaluated on real numbers, return a volatility [st] at [t], and
    evaluated again from the brackets [(t1, s1)], [(t, st)] at the query
    time [t2] they return [s2]: the decomposition of the variance is
    invertible.  The doubles that the code computes satisfy the identity
    only up to rounding, as the evaluation on doubles after the example
    shows. *)
Theorem flat_forward_interp_round_trip (t1 t t2 s1 s2 : R) :
  (0 <= t1)%R -> (t1 < t)%R -> (t < t2)%R -> (0 <= s2)%R ->
  (0 <= s2 * s2 * t2 - s1 * s1 * t1)%R ->
  exists st : R,
    flat_forward_interp [[Fin t1]] [[Fin s1]] [[Fin t2]] [[Fin s2]] [[Fin t]]
    = ([], Ok [[Fin st]])
    /\ flat_forward_interp [[Fin t1]] [[Fin s1]] [[Fin t]] [[Fin st]] [[Fin t2]]
       = ([], Ok [[Fin s2]]).
Proof.
  intros H0 H1 H2 Hs Hn.
  assert (Hv : (0 <= forward_variance t1 s1 t2 s2)%R)
    by (apply forward_variance_nonneg; lra).
  assert (Hi : (0 <= interp_variance t1 s1 t2 s2 t)%R)
    by (apply interp_variance_nonneg; lra).
  exists (sqrt (interp_variance t1 s1 t2 s2 t)). split.
  - apply flat_forward_interp_scalar; lra.
  - set (st := sqrt (interp_variance t1 s1 t2 s2 t)).
    assert (Hst : (st * st = interp_variance t1 s1 t2 s2 t)%R)
      by (apply sqrt_sqrt; assumption).
    assert (Hv' : forward_variance t1 s1 t st = forward_variance t1 s1 t2 s2)
      by (apply forward_variance_rebracket; lra).
    assert (Hi' : interp_variance t1 s1 t st t2 = (s2 * s2)%R).
    { unfold interp_variance. rewrite Hv'.
      apply (interp_variance_upper t1 s1 t2 s2); lra. }
    rewrite flat_forward_interp_scalar.
    + rewrite Hi'. rewrite sqrt_square by assumption. reflexivity.
    + assumption.
    + lra.
    + rewrite Hv'. assumption.
    + rewrite Hi'. nra.
Qed.

(** The round trip on the brackets (1, 0.2) and (4, 0.4), queried at 2. *)
Lemma flat_forward_interp_round_trip_witness :
  exists st : R,
    flat_forward_interp [[Fin 1]] [[Fin (2/10)]] [[Fin 4]] [[Fin (4/10)]] [[Fin 2]]
    = ([], Ok [[Fin st]])
    /\ flat_forward_interp [[Fin 1]] [[Fin (2/10)]] [[Fin 2]] [[Fin st]] [[Fin 4]]
       = ([], Ok [[Fin (4/10)]]).
Proof. apply (flat_forward_interp_round_trip 1 2 4 (2/10) (4/10)); lra. Defined.

(** C7 as stated fails on the doubles that the code computes: on the same
    brackets (1, 0.2) and (4, 0.4), queried at 2, the round trip returns
    0.40000000000000013, the second double above 0.4. *)
Lemma flat_forward_interp_round_trip_rounds :
  exists st,
    Binary64.flat_forward_interp Binary64.d1 Binary64.d0_2 Binary64.d4
      Binary64.d0_4 Binary64.d2 = ([], Ok st)
    /\ Binary64.flat_forward_interp Binary64.d1 Binary64.d0_2 Binary64.d2 st
         Binary64.d4 = ([], Ok Binary64.d0_4_up2)
    /\ Binary64.d0_4_up2 <> Binary64.d0_4
    /\ PrimFloat.next_up (PrimFloat.next_up Binary64.d0_4) = Binary64.d0_4_up2.
Proof.
  eexists. split; [vm_compute; reflexivity|].
  split; [vm_compute; reflexivity|]. split; [ | vm_compute; reflexivity ].
  intros H.
  assert (Hne : PrimFloat.eqb Binary64.d0_4_up2 Binary64.d0_4 = false)
    by (vm_compute; reflexivity).
  rewrite H in Hne. vm_compute in Hne. discriminate.
Qed.

(** ** Arrays whose rows are indexed by the same list *)

Section RowWise.
Context {D : Type}.
Implicit Types (ds : list D) (F G : D -> list float64).

Lemma broadcast_map f F G ds :
  broadcast f (map F ds) (map G ds) = map (fun d => bc_row f (F d) (G d)) ds.
Proof.
  unfold broadcast. induction ds as [|d ds IH]; cbn; [reflexivity | now rewrite IH].
Qed.

Lemma np_map_map f F ds :
  np_map f (map F ds) = map (fun d => map f (F d)) ds.
Proof. unfold np_map. apply map_map. Qed.

Lemma np_any_map p F ds :
  np_any p (map F ds) = existsb (fun d => existsb p (F d)) ds.
Proof.
  unfold np_any. induction ds as [|d ds IH]; cbn; [reflexivity | now rewrite IH].
Qed.

Lemma zip_with_map {A B C : Type} (f : A -> B -> C) (a : D -> A) (b : D -> B) ds :
  zip_with f (map a ds) (map b ds) = map (fun d => f (a d) (b d)) ds.
Proof. induction ds as [|d ds IH]; cbn; [reflexivity | now rewrite IH]. Qed.

Lemma np_where_map (m : D -> bool) F G ds :
  np_where (map m ds) (map F ds) (map G ds)
  = map (fun d => if m d then F d else G d) ds.
Proof. induction ds as [|d ds IH]; cbn; [reflexivity | now rewrite IH]. Qed.

Lemma newaxis_map (a : D -> float64) ds :
  newaxis (map a ds) = map (fun d => [a d]) ds.
Proof. unfold newaxis. apply map_map. Qed.

Variables (a b c : D -> float64) (r1 r2 : D -> list float64).

(** [forward_volatility] on column vectors of times and arrays of
    volatilities, row by row. *)
Lemma forward_volatility_rows ds :
  forward_volatility (map (fun d => [a d]) ds) (map r1 ds)
                     (map (fun d => [b d]) ds) (map r2 ds)
  = (do _ <- (if existsb (fun d => feq (fsub (b d) (a d)) fzero) ds
              then wwarn warn_tau_zero
              else if existsb (fun d => flt (fsub (b d) (a d)) fzero) ds
                   then wraise (NameError "ValueErwarnings")
                   else wret tt) ;;
     if existsb (fun d => existsb (fun x => flt x fzero)
                            (forward_variance_row (a d) (r1 d) (b d) (r2 d))) ds
     then wraise (ValueError msg_negative_sqrt)
     else wret (map (fun d => map fsqrt
                                (forward_variance_row (a d) (r1 d) (b d) (r2 d))) ds)).
Proof.
  unfold forward_volatility, np_sub, np_mul, np_div, np_square, np_sqrt.
  rewrite !np_map_map, !broadcast_map, !np_map_map, !np_any_map.
  assert (Hz : forall p, existsb (fun d => existsb p (bc_row fsub [b d] [a d])) ds
                         = existsb (fun d => p (fsub (b d) (a d))) ds).
  { intros p. induction ds as [|d ds' IH]; [reflexivity|].
    cbn [existsb]. rewrite IH. cbn [bc_row map existsb].
    now rewrite orb_false_r. }
  rewrite !Hz. reflexivity.
Qed.

Lemma flat_forward_interp_rows ds w S :
  flat_forward_interp (map (fun d => [a d]) ds) (map r1 ds)
                      (map (fun d => [b d]) ds) (map r2 ds)
                      (map (fun d => [c d]) ds) = (w, Ok S) ->
  S = map (fun d => flat_forward_interp_row (a d) (r1 d) (b d) (r2 d) (c d)) ds
  /\ existsb (fun d => existsb (fun x => flt x fzero)
                         (forward_variance_row (a d) (r1 d) (b d) (r2 d))) ds = false.
Proof.
  unfold flat_forward_interp. rewrite forward_volatility_rows.
  destruct (existsb (fun d => feq (fsub (b d) (a d)) fzero) ds);
    [ | destruct (existsb (fun d => flt (fsub (b d) (a d)) fzero) ds) ];
    cbn [wbind wwarn wret wraise];
    try discriminate;
    destruct (existsb _ ds); cbn [wbind wwarn wret wraise]; try discriminate;
    intros H; injection H as _ <-;
    unfold np_sqrt, np_div, np_add, np_mul, np_sub, np_square;
    rewrite !np_map_map, !broadcast_map, !np_map_map; auto.
Qed.
End RowWise.

(** ** Dates, indexes and as-of lookups *)

Lemma index_min_spec (idx : list Z) (lo : Z) :
  index_min idx = Some lo -> In lo idx /\ forall d, In d idx -> (lo <= d)%Z.
Proof.
  destruct idx as [|d0 ds]; [discriminate|]. cbn [index_min].
  intros H. injection H as <-.
  induction ds as [|d ds [IHin IHle]]; cbn [fold_right].
  - split; [now left | intros d [<-|[]]; lia].
  - split.
    + destruct (Z.min_spec d (fold_right Z.min d0 ds)) as [[_ ->]|[_ ->]].
      * right; now left.
      * destruct IHin as [<-|Hin]; [now left | right; now right].
    + intros d' Hd.
      assert (Hc : d' = d \/ In d' (d0 :: ds)).
      { destruct Hd as [Hd|[Hd|Hd]];
          [right; left; exact Hd | left; symmetry; exact Hd | right; right; exact Hd]. }
      destruct Hc as [->|Hin]; [lia | specialize (IHle d' Hin); lia].
Qed.

Lemma index_max_spec (idx : list Z) (hi : Z) :
  index_max idx = Some hi -> In hi idx /\ forall d, In d idx -> (d <= hi)%Z.
Proof.
  destruct idx as [|d0 ds]; [discriminate|]. cbn [index_max].
  intros H. injection H as <-.
  induction ds as [|d ds [IHin IHle]]; cbn [fold_right].
  - split; [now left | intros d [<-|[]]; lia].
  - split.
    + destruct (Z.max_spec d (fold_right Z.max d0 ds)) as [[_ ->]|[_ ->]].
      * destruct IHin as [<-|Hin]; [now left | right; now right].
      * right; now left.
    + intros d' Hd.
      assert (Hc : d' = d \/ In d' (d0 :: ds)).
      { destruct Hd as [Hd|[Hd|Hd]];
          [right; left; exact Hd | left; symmetry; exact Hd | right; right; exact Hd]. }
      destruct Hc as [->|Hin]; [lia | specialize (IHle d' Hin); lia].
Qed.

Lemma In_date_range (lo hi d : Z) :
  In d (date_range lo hi) <-> (lo <= d <= hi)%Z.
Proof.
  unfold date_range. rewrite in_map_iff. split.
  - intros [i [<- Hi]]. apply in_seq in Hi. lia.
  - intros H. exists (Z.to_nat (d - lo)). split; [lia|]. apply in_seq. lia.
Qed.

Lemma keys_sorted_strict (ks : list Z) :
  keys_sorted ks = true -> NoDup ks -> StronglySorted Z.lt ks.
Proof.
  induction ks as [|k ks IH]; intros Hs Hnd; [constructor|].
  apply NoDup_cons in Hnd as [Hk Hnd].
  assert (Hs' : keys_sorted ks = true /\ forall k', In k' ks -> (k <= k')%Z).
  { clear IH Hk Hnd. revert k Hs. induction ks as [|k1 ks IH]; intros k Hs.
    - split; [reflexivity | intros k' []].
    - cbn [keys_sorted] in Hs. fold (keys_sorted (k1 :: ks)) in Hs.
      apply andb_true_iff in Hs as [Hle Hs]. apply Z.leb_le in Hle.
      split; [exact Hs|]. intros k' [<-|Hin]; [lia|].
      destruct (IH k1 Hs) as [_ Hall]. specialize (Hall k' Hin). lia. }
  destruct Hs' as [Hs' Hall]. constructor; [now apply IH|].
  apply Forall_forall. intros k' Hin.
  assert (k <> k') by (intros ->; apply Hk; now apply list_elem_of_In).
  specialize (Hall k' (proj1 (list_elem_of_In _ _) Hin)). lia.
Qed.

Lemma asof_backward_Some (df : list pillar_row) (d : Z) (p : pillar_row) :
  asof_backward df d = Some p -> In p df /\ (p_tenor_date p <= d)%Z.
Proof.
  unfold asof_backward. intros H. apply last_Some_elem_of in H.
  apply list_elem_of_filter in H as [Hle Hin]. split; [now apply list_elem_of_In | exact Hle].
Qed.

Lemma asof_forward_Some (df : list pillar_row) (d : Z) (p : pillar_row) :
  asof_forward df d = Some p -> In p df /\ (d <= p_tenor_date p)%Z.
Proof.
  unfold asof_forward. intros H. apply head_Some_elem_of in H.
  apply list_elem_of_filter in H as [Hle Hin]. split; [now apply list_elem_of_In | exact Hle].
Qed.

(** At the date of a pillar both merges find that pillar. *)
Lemma asof_at_pillar (df : list pillar_row) (p : pillar_row) :
  StronglySorted Z.lt (map p_tenor_date df) -> In p df ->
  asof_backward df (p_tenor_date p) = Some p
  /\ asof_forward df (p_tenor_date p) = Some p.
Proof.
  unfold asof_backward, asof_forward.
  induction df as [|q df IH]; intros Hs Hin; [destruct Hin|].
  cbn [map] in Hs. apply StronglySorted_inv in Hs as [Hs Hall].
  rewrite Forall_forall in Hall.
  assert (Hgt : forall q', In q' df -> (p_tenor_date q < p_tenor_date q')%Z).
  { intros q' Hq'. apply Hall. apply list_elem_of_In. now apply in_map. }
  destruct Hin as [->|Hin].
  - rewrite !filter_cons_True by lia. split; [ | reflexivity ].
    assert (Hnil : filter (fun q' => (p_tenor_date q' <= p_tenor_date p)%Z) df = []).
    { clear IH Hs Hall. induction df as [|q' df IH]; [reflexivity|].
      rewrite filter_cons_False.
      - apply IH. intros q'' Hq''. apply Hgt. now right.
      - specialize (Hgt q' (or_introl eq_refl)). lia. }
    rewrite Hnil. reflexivity.
  - specialize (Hgt p Hin). destruct (IH Hs Hin) as [IHb IHf].
    rewrite filter_cons_True by lia. rewrite filter_cons_False by lia.
    split; [ | exact IHf ].
    rewrite last_cons, IHb. reflexivity.
Qed.

Lemma daily_loc_map (g : Z -> daily_row) (ds : list Z) (d : Z) :
  (forall d', d_tenor_date (g d') = d') -> In d ds ->
  daily_loc (map g ds) d = Some (g d).
Proof.
  intros Hg. unfold daily_loc.
  induction ds as [|d0 ds IH]; intros Hin; [destruct Hin|].
  cbn [map find]. rewrite Hg.
  destruct (Z.eqb_spec d0 d) as [->|Hne]; [reflexivity|].
  destruct Hin as [Heq|Hin]; [contradiction | now apply IH].
Qed.

(** ** The daily grid, row by row *)

Section DailyGrid.
Variables (daycounter zero_rate_f zero_rate_d fx_forward : Z -> float64).
Variable σ_pillar : list pillar_row.

Let lower (d : Z) := asof_backward σ_pillar d.
Let upper (d : Z) := asof_forward σ_pillar d.
Let index := map p_tenor_date σ_pillar.
Let build :=
  post_init_Δ_σ_daily daycounter zero_rate_f zero_rate_d fx_forward σ_pillar.
Let variance_row (d : Z) :=
  forward_variance_row (merged_years (lower d)) (merged_σ (lower d))
                       (merged_years (upper d)) (merged_σ (upper d)).

Lemma zip_rows {A : Type} (mk : Z * float64 -> list float64 -> A)
    (F : Z -> list float64) (ds : list Z) :
  zip_with mk (zip ds (map daycounter ds)) (map F ds)
  = map (fun d => mk (d, daycounter d) (F d)) ds.
Proof. induction ds as [|d ds IH]; cbn; [reflexivity | now rewrite IH]. Qed.

(** A construction that succeeds has sorted keys, no negative forward
    variance on any row, and the rows [daily_row_of]. *)
Lemma post_init_Δ_σ_daily_Ok w grid :
  build = (w, Ok grid) ->
  exists lo hi,
    index_min index = Some lo /\ index_max index = Some hi
    /\ keys_sorted index = true
    /\ grid = map (daily_row_of daycounter zero_rate_f zero_rate_d fx_forward
                     σ_pillar) (date_range lo hi)
    /\ existsb (fun d => existsb (fun x => flt x fzero) (variance_row d))
               (date_range lo hi) = false.
Proof.
  unfold build, post_init_Δ_σ_daily. fold index.
  destruct (index_min index) as [lo|] eqn:Hlo; [ | discriminate ].
  destruct (index_max index) as [hi|] eqn:Hhi; [ | discriminate ].
  destruct (keys_sorted index) eqn:Hs; cbn [negb]; [ | discriminate ].
  unfold newaxis. rewrite !map_map.
  destruct (flat_forward_interp _ _ _ _ _) as [w' [S|e]] eqn:Hffi;
    cbn [wbind wret]; [ | discriminate ].
  apply (flat_forward_interp_rows
           (fun d => merged_years (asof_backward σ_pillar d))
           (fun d => merged_years (asof_forward σ_pillar d))
           daycounter
           (fun d => merged_σ (asof_backward σ_pillar d))
           (fun d => merged_σ (asof_forward σ_pillar d))) in Hffi.
  destruct Hffi as [-> Hneg].
  intros H. injection H as _ <-.
  exists lo, hi. repeat split; try reflexivity; try assumption.
  rewrite zip_with_map, np_where_map, zip_rows. reflexivity.
Qed.

(** The first date of the grid is the date of a pillar: there the two
    brackets coincide, [tau] is zero, and [forward_volatility] warns. *)
Lemma tau_zero_on_grid lo hi :
  pillars_wf σ_pillar ->
  index_min index = Some lo -> index_max index = Some hi ->
  keys_sorted index = true ->
  existsb (fun d => feq (fsub (merged_years (upper d)) (merged_years (lower d)))
                        fzero) (date_range lo hi) = true.
Proof.
  intros (Hnd & Hfin & _) Hlo Hhi Hs.
  apply index_min_spec in Hlo as [Hin Hle].
  apply index_max_spec in Hhi as [_ Hge].
  apply in_map_iff in Hin as [p [<- Hp]].
  apply existsb_exists. exists (p_tenor_date p). split.
  - apply In_date_range. split; [lia | apply Hge; now apply in_map].
  - unfold upper, lower.
    destruct (asof_at_pillar σ_pillar p) as [-> ->];
      [now apply keys_sorted_strict | assumption | ].
    rewrite Forall_forall in Hfin.
    destruct (Hfin p (proj2 (list_elem_of_In _ _) Hp)) as [x Hx].
    cbn [merged_years]. rewrite Hx. cbn [fsub feq fzero].
    apply Reqb_true. lra.
Qed.

(** The outcome of the construction on a well-formed, sorted table. *)
Lemma post_init_Δ_σ_daily_outcome lo hi :
  pillars_wf σ_pillar ->
  index_min index = Some lo -> index_max index = Some hi ->
  keys_sorted index = true ->
  build =
  ([warn_tau_zero],
   if existsb (fun d => existsb (fun x => flt x fzero) (variance_row d))
              (date_range lo hi)
   then Raise (ValueError msg_negative_sqrt)
   else Ok (map (daily_row_of daycounter zero_rate_f zero_rate_d fx_forward
                   σ_pillar) (date_range lo hi))).
Proof.
  intros Hwf Hlo Hhi Hs.
  pose proof (tau_zero_on_grid lo hi Hwf Hlo Hhi Hs) as Hz.
  unfold build, post_init_Δ_σ_daily. fold index.
  rewrite Hlo, Hhi, Hs. cbn [negb].
  unfold newaxis. rewrite !map_map.
  unfold flat_forward_interp.
  rewrite (forward_volatility_rows
             (fun d => merged_years (asof_backward σ_pillar d))
             (fun d => merged_years (asof_forward σ_pillar d))
             (fun d => merged_σ (asof_backward σ_pillar d))
             (fun d => merged_σ (asof_forward σ_pillar d))).
  unfold upper, lower in Hz. rewrite Hz. clear Hz.
  unfold variance_row, lower, upper.
  destruct (existsb _ (date_range lo hi)); cbn [wbind wwarn wret wraise app];
    [reflexivity|].
  unfold np_sqrt, np_div, np_add, np_mul, np_sub, np_square.
  rewrite !np_map_map, !broadcast_map, !np_map_map.
  rewrite zip_with_map, np_where_map, zip_rows. reflexivity.
Qed.
End DailyGrid.

(** ** One bucket of one row *)

Lemma existsb_false_In {A : Type} (p : A -> bool) (l : list A) (x : A) :
  existsb p l = false -> In x l -> p x = false.
Proof.
  intros H Hin. destruct (p x) eqn:Hp; [ | reflexivity ].
  assert (existsb p l = true) by (apply existsb_exists; eauto). congruence.
Qed.

Ltac three_columns r1 r2 j :=
  destruct r1 as [|? [|? [|? [|? ?]]]]; try discriminate;
  destruct r2 as [|? [|? [|? [|? ?]]]]; try discriminate;
  destruct j as [|[|[|?]]]; try discriminate.

Lemma forward_variance_row_entry (a b : R) (r1 r2 : list float64) (j : nat)
    (s1 s2 : R) :
  length r1 = 3%nat -> length r2 = 3%nat ->
  r1 !! j = Some (Fin s1) -> r2 !! j = Some (Fin s2) -> (a < b)%R ->
  forward_variance_row (Fin a) r1 (Fin b) r2 !! j
  = Some (Fin (forward_variance a s1 b s2)).
Proof.
  intros L1 L2 H1 H2 Hab. three_columns r1 r2 j;
    cbn in H1, H2; injection H1 as ->; injection H2 as ->;
    unfold forward_variance_row, forward_variance, fsquare;
    cbn [bc_row map zip_with fmul fsub fdiv lookup list_lookup];
    Rbool; reflexivity.
Qed.

Lemma flat_forward_interp_row_entry (a b c : R) (r1 r2 : list float64) (j : nat)
    (s1 s2 : R) :
  length r1 = 3%nat -> length r2 = 3%nat ->
  r1 !! j = Some (Fin s1) -> r2 !! j = Some (Fin s2) -> (a < b)%R ->
  (0 <= forward_variance a s1 b s2)%R -> c <> 0%R ->
  flat_forward_interp_row (Fin a) r1 (Fin b) r2 (Fin c) !! j
  = Some (fsqrt (Fin (interp_variance a s1 b s2 c))).
Proof.
  intros L1 L2 H1 H2 Hab Hv Hc.
  pose proof (sqrt_sqrt _ Hv) as Hsq. unfold forward_variance in Hv, Hsq.
  three_columns r1 r2 j;
    cbn in H1, H2; injection H1 as ->; injection H2 as ->;
    unfold flat_forward_interp_row, forward_variance_row, interp_variance,
      forward_variance, fsquare;
    cbn [bc_row map zip_with fmul fsub fadd fdiv lookup list_lookup];
    Rbool; cbn [fsqrt fmul map bc_row zip_with fadd fdiv lookup list_lookup];
    Rbool; cbn [fsqrt fmul map bc_row zip_with fadd fdiv lookup list_lookup];
    rewrite Hsq; Rbool; reflexivity.
Qed.

(** ** The daily grid: claims C2, C4, C5 *)

Section DailyGridClaims.
Variables (daycounter zero_rate_f zero_rate_d fx_forward : Z -> float64).
Variable σ_pillar : list pillar_row.
Hypothesis Hwf : pillars_wf σ_pillar.

Let build :=
  post_init_Δ_σ_daily daycounter zero_rate_f zero_rate_d fx_forward σ_pillar.

Lemma bracket_on_grid lo hi d p1 p2 :
  index_min (map p_tenor_date σ_pillar) = Some lo ->
  index_max (map p_tenor_date σ_pillar) = Some hi ->
  asof_backward σ_pillar d = Some p1 -> asof_forward σ_pillar d = Some p2 ->
  In d (date_range lo hi) /\ length (p_σ p1) = 3%nat /\ length (p_σ p2) = 3%nat.
Proof.
  intros Hlo Hhi H1 H2.
  apply index_min_spec in Hlo as [_ Hle]. apply index_max_spec in Hhi as [_ Hge].
  apply asof_backward_Some in H1 as [Hin1 Hd1].
  apply asof_forward_Some in H2 as [Hin2 Hd2].
  destruct Hwf as (_ & _ & Hlen). rewrite Forall_forall in Hlen.
  repeat split.
  - apply In_date_range.
    specialize (Hle _ (in_map p_tenor_date _ _ Hin1)).
    specialize (Hge _ (in_map p_tenor_date _ _ Hin2)). lia.
  - apply Hlen. now apply list_elem_of_In.
  - apply Hlen. now apply list_elem_of_In.
Qed.

(** C2. On a grid date [d] bracketed by pillars at times [a < b], every
    bucket [j] with bracket volatilities [s1], [s2] holds the square root
    of [(s1² a + V (c - a)) / c], where [c] is the time of [d] and
    [V = (s2² b - s1² a) / (b - a)] is the forward variance, which
    [forward_volatility] returns as [sqrt V]; the bucket depends on no
    other bucket. *)
Theorem daily_grid_flat_forward_formula w grid d p1 p2 (a b c : R) (j : nat)
    (s1 s2 : R) :
  build = (w, Ok grid) ->
  asof_backward σ_pillar d = Some p1 -> asof_forward σ_pillar d = Some p2 ->
  p_tenor_years p1 = Fin a -> p_tenor_years p2 = Fin b -> (a < b)%R ->
  daycounter d = Fin c -> c <> 0%R ->
  p_σ p1 !! j = Some (Fin s1) -> p_σ p2 !! j = Some (Fin s2) ->
  let V := forward_variance a s1 b s2 in
  let v := interp_variance a s1 b s2 c in
  (0 <= V)%R
  /\ forward_volatility [[Fin a]] [[Fin s1]] [[Fin b]] [[Fin s2]]
     = ([], Ok [[Fin (sqrt V)]])
  /\ (sqrt V * sqrt V = V)%R
  /\ exists row,
       daily_loc grid d = Some row
       /\ d_σ row !! j = Some (fsqrt (Fin v))
       /\ ((0 <= v)%R ->
           d_σ row !! j = Some (Fin (sqrt v)) /\ (sqrt v * sqrt v = v)%R).
Proof.
  intros Hb H1 H2 Ha Hbb Hab Hc Hc0 Hs1 Hs2 V v.
  apply post_init_Δ_σ_daily_Ok in Hb as (lo & hi & Hlo & Hhi & Hs & -> & Hneg).
  destruct (bracket_on_grid lo hi d p1 p2 Hlo Hhi H1 H2) as (Hin & L1 & L2).
  assert (HV : (0 <= V)%R).
  { pose proof (existsb_false_In _ _ d Hneg Hin) as Hrow. cbn beta in Hrow.
    rewrite H1, H2 in Hrow. cbn [merged_years merged_σ] in Hrow.
    rewrite Ha, Hbb in Hrow.
    pose proof (forward_variance_row_entry a b _ _ j s1 s2 L1 L2 Hs1 Hs2 Hab) as He.
    apply list_elem_of_lookup_2, list_elem_of_In in He.
    pose proof (existsb_false_In _ _ _ Hrow He) as Hlt. cbn [flt fzero] in Hlt.
    unfold Rltb in Hlt. destruct (Rlt_dec (forward_variance a s1 b s2) 0);
      [discriminate | unfold V; lra]. }
  split; [exact HV|]. split; [now apply forward_volatility_scalar|].
  split; [now apply sqrt_sqrt|].
  exists (daily_row_of daycounter zero_rate_f zero_rate_d fx_forward σ_pillar d).
  split; [now apply daily_loc_map|].
  assert (Hrow : d_σ (daily_row_of daycounter zero_rate_f zero_rate_d fx_forward
                        σ_pillar d) !! j = Some (fsqrt (Fin v))).
  { unfold daily_row_of. cbn [d_σ]. rewrite H1, H2. cbn [merged_years merged_σ].
    rewrite Ha, Hbb, Hc. unfold fne. cbn [feq]. rewrite Reqb_false by lra.
    cbn [negb]. now apply flat_forward_interp_row_entry. }
  split; [exact Hrow|].
  intros Hv. rewrite Hrow. cbn [fsqrt]. rewrite Rltb_false by exact Hv.
  split; [reflexivity | now apply sqrt_sqrt].
Qed.

(** C4. On a grid that was built, the row at the date of a pillar holds
    that pillar's quoted volatilities, bucket for bucket. *)
Theorem daily_grid_passes_through_pillars w grid p :
  build = (w, Ok grid) -> In p σ_pillar ->
  exists row, daily_loc grid (p_tenor_date p) = Some row /\ d_σ row = p_σ p.
Proof.
  intros Hb Hp.
  apply post_init_Δ_σ_daily_Ok in Hb as (lo & hi & Hlo & Hhi & Hs & -> & _).
  destruct Hwf as (Hnd & Hfin & _).
  destruct (asof_at_pillar σ_pillar p) as [Hlow Hup];
    [now apply keys_sorted_strict | assumption | ].
  destruct (bracket_on_grid lo hi _ p p Hlo Hhi Hlow Hup) as (Hin & _).
  exists (daily_row_of daycounter zero_rate_f zero_rate_d fx_forward σ_pillar
            (p_tenor_date p)).
  split; [now apply daily_loc_map|].
  unfold daily_row_of. cbn [d_σ]. rewrite Hlow, Hup. cbn [merged_years merged_σ].
  rewrite Forall_forall in Hfin.
  destruct (Hfin p (proj2 (list_elem_of_In _ _) Hp)) as [x ->].
  unfold fne. cbn [feq]. rewrite Reqb_true by reflexivity. reflexivity.
Qed.

(** C5. If on some grid date the brackets [a < b] and some bucket give a
    negative forward variance [s2² b - s1² a < 0], the construction
    raises the ValueError of the negative square root; it returns no
    grid. *)
Theorem daily_grid_rejects_negative_variance d p1 p2 (a b : R) (j : nat)
    (s1 s2 : R) :
  keys_sorted (map p_tenor_date σ_pillar) = true ->
  asof_backward σ_pillar d = Some p1 -> asof_forward σ_pillar d = Some p2 ->
  p_tenor_years p1 = Fin a -> p_tenor_years p2 = Fin b -> (a < b)%R ->
  p_σ p1 !! j = Some (Fin s1) -> p_σ p2 !! j = Some (Fin s2) ->
  (s2 * s2 * b - s1 * s1 * a < 0)%R ->
  build = ([warn_tau_zero], Raise (ValueError msg_negative_sqrt)).
Proof.
  intros Hs H1 H2 Ha Hb Hab Hs1 Hs2 Hneg.
  destruct (index_min (map p_tenor_date σ_pillar)) as [lo|] eqn:Hlo.
  2:{ apply asof_backward_Some in H1 as [Hin _].
      destruct σ_pillar; [destruct Hin | discriminate]. }
  destruct (index_max (map p_tenor_date σ_pillar)) as [hi|] eqn:Hhi.
  2:{ apply asof_backward_Some in H1 as [Hin _].
      destruct σ_pillar; [destruct Hin | discriminate]. }
  unfold build.
  rewrite (post_init_Δ_σ_daily_outcome _ _ _ _ _ lo hi Hwf Hlo Hhi Hs).
  destruct (bracket_on_grid lo hi d p1 p2 Hlo Hhi H1 H2) as (Hin & L1 & L2).
  replace (existsb _ (date_range lo hi)) with true; [reflexivity|].
  symmetry. apply existsb_exists. exists d. split; [exact Hin|].
  rewrite H1, H2. cbn [merged_years merged_σ]. rewrite Ha, Hb.
  apply existsb_exists. exists (Fin (forward_variance a s1 b s2)). split.
  - apply list_elem_of_In. apply (list_elem_of_lookup_2 _ j).
    apply forward_variance_row_entry; assumption.
  - cbn [flt fzero]. apply Rltb_true. unfold forward_variance.
    apply Rmult_neg_pos; [lra | apply Rinv_0_lt_compat; lra].
Qed.

End DailyGridClaims.

(** ** The example grid *)

Lemma example_pillars_wf (s1 s3 : R) :
  pillars_wf [example_pillar 1 s1; example_pillar 3 s3].
Proof.
  repeat split.
  - cbn [map example_pillar p_tenor_date].
    apply NoDup_cons. split; [ | apply NoDup_singleton ].
    intros H. apply list_elem_of_In in H. destruct H as [H|[]]. discriminate.
  - repeat constructor; eexists; reflexivity.
  - repeat constructor.
Qed.

Lemma example_asof (s1 s3 : R) :
  let df := [example_pillar 1 s1; example_pillar 3 s3] in
  asof_backward df 1 = Some (example_pillar 1 s1)
  /\ asof_forward df 1 = Some (example_pillar 1 s1)
  /\ asof_backward df 2 = Some (example_pillar 1 s1)
  /\ asof_forward df 2 = Some (example_pillar 3 s3)
  /\ asof_backward df 3 = Some (example_pillar 3 s3)
  /\ asof_forward df 3 = Some (example_pillar 3 s3).
Proof.
  cbv zeta. unfold asof_backward, asof_forward.
  repeat split;
    repeat first [ rewrite filter_cons_True by (cbn; lia)
                 | rewrite filter_cons_False by (cbn; lia) ];
    rewrite ?filter_nil; reflexivity.
Qed.

Lemma example_builds :
  post_init_Δ_σ_daily example_daycounter example_rate example_rate
    (fun _ => Fin 1%R) example_σ_pillar
  = ([warn_tau_zero], Ok example_Δ_σ_daily).
Proof.
  rewrite (post_init_Δ_σ_daily_outcome _ _ _ _ _ 1 3);
    [ | apply example_pillars_wf | reflexivity | reflexivity | reflexivity ].
  replace (existsb _ (date_range 1 3)) with false; [reflexivity|].
  symmetry. change (date_range 1 3) with [1%Z; 2%Z; 3%Z].
  destruct (example_asof (2/10) (2/10)) as (B1 & F1 & B2 & F2 & B3 & F3).
  cbn [existsb]. fold example_σ_pillar in B1, F1, B2, F2, B3, F3.
  rewrite B1, F1, B2, F2, B3, F3.
  unfold forward_variance_row, fsquare, example_daycounter.
  cbn [merged_years merged_σ example_pillar p_tenor_years p_σ example_daycounter
       bc_row map zip_with fmul fsub fdiv existsb flt fzero orb].
  Rbool.
  cbn [bc_row map zip_with fmul fsub fdiv existsb flt fzero orb].
  Rbool. reflexivity.
Qed.

(** The formula on the example grid: day 2 between the pillars of day 1
    and day 3, at-the-money bucket. *)
Lemma daily_grid_flat_forward_formula_witness :
  let V := forward_variance 1 (2/10) 3 (2/10) in
  let v := interp_variance 1 (2/10) 3 (2/10) 2 in
  (0 <= V)%R
  /\ forward_volatility [[Fin 1]] [[Fin (2/10)]] [[Fin 3]] [[Fin (2/10)]]
     = ([], Ok [[Fin (sqrt V)]])
  /\ (sqrt V * sqrt V = V)%R
  /\ exists row,
       daily_loc example_Δ_σ_daily 2 = Some row
       /\ d_σ row !! 1%nat = Some (fsqrt (Fin v))
       /\ ((0 <= v)%R ->
           d_σ row !! 1%nat = Some (Fin (sqrt v)) /\ (sqrt v * sqrt v = v)%R).
Proof.
  destruct (example_asof (2/10) (2/10)) as (_ & _ & B2 & F2 & _).
  apply (daily_grid_flat_forward_formula
           example_daycounter example_rate example_rate (fun _ => Fin 1%R)
           example_σ_pillar (example_pillars_wf _ _)
           [warn_tau_zero] example_Δ_σ_daily 2
           (example_pillar 1 (2/10)) (example_pillar 3 (2/10))
           1 3 2 1%nat (2/10) (2/10));
    [ exact example_builds | exact B2 | exact F2 | reflexivity | reflexivity
    | lra | reflexivity | lra | reflexivity | reflexivity ].
Defined.

(** The first pillar of the example on the example grid. *)
Lemma daily_grid_passes_through_pillars_witness :
  exists row,
    daily_loc example_Δ_σ_daily 1 = Some row
    /\ d_σ row = [Fin (2/10); Fin (2/10); Fin (2/10)].
Proof.
  apply (daily_grid_passes_through_pillars
           example_daycounter example_rate example_rate (fun _ => Fin 1%R)
           example_σ_pillar (example_pillars_wf _ _)
           [warn_tau_zero] example_Δ_σ_daily (example_pillar 1 (2/10)));
    [ exact example_builds | left; reflexivity ].
Defined.

(** Volatilities of 50% on day 1 and 10% on day 3: the construction
    raises. *)
Lemma daily_grid_rejects_negative_variance_witness :
  post_init_Δ_σ_daily example_daycounter example_rate example_rate
    (fun _ => Fin 1%R) arbitrage_σ_pillar
  = ([warn_tau_zero], Raise (ValueError msg_negative_sqrt)).
Proof.
  destruct (example_asof (5/10) (1/10)) as (_ & _ & B2 & F2 & _).
  apply (daily_grid_rejects_negative_variance
           example_daycounter example_rate example_rate (fun _ => Fin 1%R)
           arbitrage_σ_pillar (example_pillars_wf _ _) 2
           (example_pillar 1 (5/10)) (example_pillar 3 (1/10))
           1 3 1%nat (5/10) (1/10));
    [ reflexivity | exact B2 | exact F2 | reflexivity | reflexivity | lra
    | reflexivity | reflexivity | lra ].
Defined.

(** ** Equal bracket times: claim C6 *)















(** ** A batch with dates inside and outside the pillar range: claim C1 *)

Lemma select_length_le {A : Type} (mask : list bool) (x : list A) :
  (length (select mask x) <= length x)%nat.
Proof.
  revert x. induction mask as [|m mask IH]; intros [|v x]; cbn; try lia.
  specialize (IH x). destruct m; cbn; lia.
Qed.

Lemma select_length_lt {A : Type} (f : A -> bool) (x : list A) :
  (exists v, In v x /\ f v = false) ->
  (length (select (map f x) x) < length x)%nat.
Proof.
  induction x as [|v x IH]; intros [u [Hin Hu]]; [destruct Hin|].
  cbn [map select]. destruct (f v) eqn:Hv.
  - destruct Hin as [->|Hin]; [congruence|].
    cbn [length]. apply -> Nat.succ_lt_mono. apply IH. eauto.
  - pose proof (select_length_le (map f x) x). cbn [length]. lia.
Qed.

(** The filtered dates reach [interp_σ_surface] with the unfiltered [K]
    and [cp], and its first assertion fails. *)
Lemma price_fx_vanilla_european_mixed_batch (E : Collaborators)
    (self : FXVolatilitySurface) (expiry : list Z) (K cp : list float64)
    (greeks split : bool) :
  length expiry = length K -> length expiry = length cp ->
  (exists d, In d expiry /\ in_pillar_range self d = true) ->
  (exists d, In d expiry /\ in_pillar_range self d = false) ->
  price_fx_vanilla_european E self expiry K cp greeks split
  = Call self [] (Raise AssertionError).
Proof.
  intros HK Hcp Hin Hout. unfold price_fx_vanilla_european, interp_σ_surface.
  rewrite <- HK, <- Hcp, !Nat.eqb_refl. cbn [negb].
  assert (Hany : existsb (fun m => m) (map (in_pillar_range self) expiry) = true).
  { destruct Hin as [d [Hd Hr]]. apply existsb_exists. exists true.
    split; [ | reflexivity ]. rewrite <- Hr. now apply in_map. }
  rewrite Hany.
  pose proof (select_length_lt (in_pillar_range self) expiry Hout) as Hlt.
  replace (length (select (map (in_pillar_range self) expiry) expiry)
             =? length expiry)%nat with false
    by (symmetry; apply Nat.eqb_neq; lia).
  reflexivity.
Qed.

(** C1 on the example surface (pillars on days 1 and 3): a batch of the
    three expiry dates 1, 2 and 5, of which day 5 lies outside the pillar
    range, raises AssertionError; no volatility and no price is returned
    for the two dates in range. *)
Theorem price_fx_vanilla_european_partly_out_of_range :
  price_fx_vanilla_european (example_collaborators (Fin 0))
    (example_surface method_cubic_spline) [1; 2; 5]%Z
    [Fin 1; Fin 1; Fin 1] [Fin 1; Fin 1; Fin 1] false false
  = Call (example_surface method_cubic_spline) [] (Raise AssertionError).
Proof.
  apply price_fx_vanilla_european_mixed_batch; try reflexivity.
  - exists 1%Z. split; [now left | reflexivity].
  - exists 5%Z. split; [right; right; now left | reflexivity].
Qed.

(** ** The smile-fit cache *)

Lemma only_cache_grows_refl (self : FXVolatilitySurface) :
  only_cache_grows self self.
Proof. unfold only_cache_grows. repeat split; auto. Qed.

Lemma only_cache_grows_trans (s1 s2 s3 : FXVolatilitySurface) :
  only_cache_grows s1 s2 -> only_cache_grows s2 s3 -> only_cache_grows s1 s3.
Proof.
  unfold only_cache_grows.
  intros (A1&A2&A3&A4&A5&A6&A7&A8&A9&A10&A11&A12&A13&A14&A15)
         (B1&B2&B3&B4&B5&B6&B7&B8&B9&B10&B11&B12&B13&B14&B15).
  repeat split; try congruence. intros date fit H. apply B15, A15, H.
Qed.

Lemma only_cache_grows_set (self : FXVolatilitySurface) (date : Z) (fit : smile_fit) :
  K_σ_daily_smile_func self !! date = None ->
  only_cache_grows self (set_smile_func self date fit).
Proof.
  intros Hnone. unfold only_cache_grows, set_smile_func. cbn.
  repeat split; try reflexivity.
  intros d f H. rewrite lookup_insert_ne; [exact H | congruence].
Qed.

Lemma is_heston_not_spline (method : string) :
  is_heston method = true ->
  String.eqb method method_univariate_spline = false
  /\ String.eqb method method_cubic_spline = false.
Proof.
  intros H. split.
  - destruct (String.eqb_spec method method_univariate_spline) as [->|]; [discriminate | reflexivity].
  - destruct (String.eqb_spec method method_cubic_spline) as [->|]; [discriminate | reflexivity].
Qed.

(** What one pass of the first loop does, by cases. *)
Lemma fit_smile_cases (E : Collaborators) (self : FXVolatilitySurface)
    (row : daily_row) :
  let date := d_tenor_date row in
  let c := fit_smile E self row in
  (c = Call self [] (Ok tt))
  \/ (K_σ_daily_smile_func self !! date = None
      /\ fits_computed c = [date] /\ outcome_of c = Ok tt
      /\ exists fit, self_after c = set_smile_func self date fit)
  \/ (K_σ_daily_smile_func self !! date = None
      /\ exists e, c = Call self [date] (Raise e) /\ fit_error e date).
Proof.
  cbv zeta. unfold fit_smile.
  destruct (K_σ_daily_smile_func self !! d_tenor_date row) eqn:Hc; [now left|].
  destruct (String.eqb _ method_univariate_spline).
  { destruct (univariate_spline_init _ _ _) as [err|].
    - right; right. split; [reflexivity|]. eexists. split; [reflexivity|].
      right. eauto.
    - right; left; repeat split; eauto. }
  destruct (String.eqb _ method_cubic_spline).
  { destruct (cubic_spline_init _ _ _) as [err|].
    - right; right. split; [reflexivity|]. eexists. split; [reflexivity|].
      right. eauto.
    - right; left; repeat split; eauto. }
  destruct (is_heston _); [ | now left ].
  destruct (flt _ SSE_threshold) eqn:Hflt.
  - right; left; repeat split; eauto.
  - right; right; split; [reflexivity|]. eexists. split; [reflexivity|].
    left. eexists. split; [reflexivity | exact Hflt].
Qed.

Lemma fit_smile_frame (E : Collaborators) (self : FXVolatilitySurface)
    (row : daily_row) :
  only_cache_grows self (self_after (fit_smile E self row)).
Proof.
  destruct (fit_smile_cases E self row)
    as [-> | [(Hn & _ & _ & fit & ->) | (_ & e & -> & _)]];
    cbn [self_after];
    auto using only_cache_grows_refl, only_cache_grows_set.
Qed.

Lemma fit_loop_frame (E : Collaborators) (rows : list daily_row) :
  forall self, only_cache_grows self (self_after (fit_loop E self rows)).
Proof.
  induction rows as [|row rows IH]; intros self; cbn [fit_loop].
  - apply only_cache_grows_refl.
  - pose proof (fit_smile_frame E self row) as Hf.
    destruct (outcome_of (fit_smile E self row)); [ | exact Hf ].
    cbn [self_after]. eapply only_cache_grows_trans; [exact Hf | apply IH].
Qed.

Lemma interp_σ_surface_frame (E : Collaborators) (self : FXVolatilitySurface)
    (dates : list Z) (K cp : list float64) :
  only_cache_grows self (self_after (interp_σ_surface E self dates K cp)).
Proof.
  unfold interp_σ_surface.
  destruct (negb _); [apply only_cache_grows_refl|].
  destruct (negb _); [apply only_cache_grows_refl|].
  destruct (daily_loc_all _ dates); [ | apply only_cache_grows_refl ].
  destruct (daily_loc_all _ (set_iter E dates)) as [rows|];
    [ | apply only_cache_grows_refl ].
  pose proof (fit_loop_frame E rows self) as Hf.
  destruct (outcome_of (fit_loop E self rows)); exact Hf.
Qed.

Lemma price_fx_vanilla_european_frame (E : Collaborators)
    (self : FXVolatilitySurface) (expiry : list Z) (K cp : list float64)
    (greeks split : bool) :
  only_cache_grows self
    (self_after (price_fx_vanilla_european E self expiry K cp greeks split)).
Proof.
  unfold price_fx_vanilla_european.
  destruct (negb _); [apply only_cache_grows_refl|].
  destruct (negb _); [apply only_cache_grows_refl|].
  destruct (existsb _ _).
  - pose proof (interp_σ_surface_frame E self
                  (select (map (in_pillar_range self) expiry) expiry) K cp) as Hf.
    cbn [outcome_of self_after fits_computed].
    destruct (outcome_of (interp_σ_surface _ _ _ _ _)) as [values|e];
      [ destruct (mask_assign _ _ values) | ]; exact Hf.
  - cbn [outcome_of self_after]. apply only_cache_grows_refl.
Qed.

(** C9. A call of [interp_σ_surface] or of [price_fx_vanilla_european],
    whether it returns or raises, leaves every field of the surface as it
    was except the cache of smile fits, and every entry the cache held is
    still there, unchanged. *)
Theorem queries_only_grow_the_cache (E : Collaborators)
    (self : FXVolatilitySurface) (dates : list Z) (K cp : list float64)
    (greeks split : bool) :
  only_cache_grows self (self_after (interp_σ_surface E self dates K cp))
  /\ only_cache_grows self
       (self_after (price_fx_vanilla_european E self dates K cp greeks split)).
Proof.
  split; [apply interp_σ_surface_frame | apply price_fx_vanilla_european_frame].
Qed.

(** ** At most one fit per cached date: claim C8 *)

Lemma daily_loc_date (df : list daily_row) (d : Z) (row : daily_row) :
  daily_loc df d = Some row -> d_tenor_date row = d.
Proof.
  unfold daily_loc. intros H. apply find_some in H as [_ H]. now apply Z.eqb_eq.
Qed.

Lemma daily_loc_all_dates (df : list daily_row) (dates : list Z) :
  forall rows, daily_loc_all df dates = Ok rows -> map d_tenor_date rows = dates.
Proof.
  induction dates as [|d dates IH]; intros rows; cbn [daily_loc_all].
  - intros H. injection H as <-. reflexivity.
  - destruct (daily_loc df d) as [row|] eqn:Hrow; [ | discriminate ].
    destruct (daily_loc_all df dates) as [rows'|]; [ | discriminate ].
    intros H. injection H as <-. cbn [map].
    rewrite (daily_loc_date _ _ _ Hrow), (IH rows' eq_refl). reflexivity.
Qed.

Lemma fit_loop_fits (E : Collaborators) (rows : list daily_row) :
  forall self,
    let c := fit_loop E self rows in
    (forall d, In d (fits_computed c) ->
       K_σ_daily_smile_func self !! d = None
       /\ (is_Some (K_σ_daily_smile_func (self_after c) !! d)
           \/ (K_σ_daily_smile_func (self_after c) !! d = None
               /\ last (fits_computed c) = Some d
               /\ exists e, outcome_of c = Raise e /\ fit_error e d)))
    /\ NoDup (fits_computed c).
Proof.
  induction rows as [|row rows IH]; intros self; cbn [fit_loop].
  - cbn. split; [intros d [] | constructor].
  - cbv zeta.
    destruct (fit_smile_cases E self row)
      as [-> | [(Hn & Hf & Ho & fit & Hs) | (Hn & e & -> & He)]].
    + cbn [outcome_of self_after fits_computed app]. apply IH.
    + rewrite Ho, Hf, Hs. cbn [outcome_of self_after fits_computed app].
      destruct (IH (set_smile_func self (d_tenor_date row) fit)) as [IHd IHn].
      pose proof (fit_loop_frame E rows (set_smile_func self (d_tenor_date row) fit))
        as Hfr.
      assert (Hin : K_σ_daily_smile_func
                      (set_smile_func self (d_tenor_date row) fit)
                      !! d_tenor_date row = Some fit)
        by (cbn; apply lookup_insert_eq).
      split.
      * intros d [<-|Hd].
        -- split; [exact Hn|]. left. exists fit. apply Hfr, Hin.
        -- destruct (IHd d Hd) as [Hnone Hafter]. split.
           ++ destruct (K_σ_daily_smile_func self !! d) as [f|] eqn:Hc;
                [ | reflexivity ].
              pose proof (only_cache_grows_set self (d_tenor_date row) fit Hn) as Hg.
              apply Hg in Hc. congruence.
           ++ destruct Hafter as [Hsome|(Hno & Hlast & Hraise)]; [now left|].
              right. repeat split; try assumption.
              rewrite last_cons, Hlast. reflexivity.
      * apply NoDup_cons. split; [ | exact IHn ].
        intros Hd. apply list_elem_of_In in Hd.
        destruct (IHd _ Hd) as [Hnone _]. congruence.
    + cbn [outcome_of self_after fits_computed]. split.
      * intros d [<-|[]]. split; [exact Hn|]. right. eauto.
      * apply NoDup_singleton.
Qed.

(** One call of [interp_σ_surface]: it fits no date twice, it fits only
    dates that the cache did not hold, and a date it fitted is in the
    cache afterwards unless the fit of that date raised, which ended the
    call. *)
Lemma interp_σ_surface_fits (E : Collaborators) (self : FXVolatilitySurface)
    (dates : list Z) (K cp : list float64) :
  let c := interp_σ_surface E self dates K cp in
  (forall d, In d (fits_computed c) ->
     K_σ_daily_smile_func self !! d = None
     /\ (is_Some (K_σ_daily_smile_func (self_after c) !! d)
         \/ (K_σ_daily_smile_func (self_after c) !! d = None
             /\ last (fits_computed c) = Some d
             /\ exists e, outcome_of c = Raise e /\ fit_error e d)))
  /\ NoDup (fits_computed c).
Proof.
  cbv zeta. unfold interp_σ_surface.
  assert (Hnil : forall (s : FXVolatilitySurface) (r : result (list float64)),
             (forall d, In d (fits_computed (Call s [] r)) ->
                K_σ_daily_smile_func self !! d = None
                /\ (is_Some (K_σ_daily_smile_func (self_after (Call s [] r)) !! d)
                    \/ (K_σ_daily_smile_func (self_after (Call s [] r)) !! d = None
                        /\ last (fits_computed (Call s [] r)) = Some d
                        /\ exists e, outcome_of (Call s [] r) = Raise e
                                     /\ fit_error e d)))
             /\ NoDup (fits_computed (Call s [] r)))
    by (intros s r; split; [intros d [] | constructor]).
  destruct (negb _); [apply Hnil|]. destruct (negb _); [apply Hnil|].
  destruct (daily_loc_all _ dates); [ | apply Hnil ].
  destruct (daily_loc_all _ (set_iter E dates)) as [rows|]; [ | apply Hnil ].
  destruct (fit_loop_fits E rows self) as [Hd Hn].
  destruct (outcome_of (fit_loop E self rows)) as [[]|e] eqn:Ho;
    cbn [fits_computed self_after outcome_of]; (split; [ | exact Hn ]).
  - intros d Hin. destruct (Hd d Hin) as [Hnone [Hsome|(_ & _ & e & He & _)]].
    + split; [exact Hnone | now left].
    + discriminate.
  - intros d Hin. destruct (Hd d Hin) as [Hnone [Hsome|(Hno & Hlast & e' & He & Hfe)]].
    + split; [exact Hnone | now left].
    + split; [exact Hnone|]. right. repeat split; try assumption.
      exists e'. split; [congruence | exact Hfe].
Qed.

(** Once the cache holds a fit for [d], no later query fits [d] again and
    every later query leaves that entry as it is. *)
Lemma run_queries_cached (E : Collaborators) (d : Z) (fit : smile_fit)
    (qs : list query) :
  forall self,
    K_σ_daily_smile_func self !! d = Some fit ->
    forall c, In c (run_queries E self qs) ->
      K_σ_daily_smile_func (self_after c) !! d = Some fit
      /\ ~ In d (fits_computed c).
Proof.
  induction qs as [|q qs IH]; intros self Hc c Hin; [destruct Hin|].
  cbn [run_queries] in Hin.
  pose proof (interp_σ_surface_frame E self (q_dates q) (q_K q) (q_cp q)) as Hf.
  pose proof (interp_σ_surface_fits E self (q_dates q) (q_K q) (q_cp q)) as [Hd _].
  assert (Hc' : K_σ_daily_smile_func
                  (self_after (interp_σ_surface E self (q_dates q) (q_K q) (q_cp q)))
                  !! d = Some fit) by (apply Hf, Hc).
  destruct Hin as [<-|Hin].
  - split; [exact Hc'|]. intros Hfit. destruct (Hd d Hfit) as [Hnone _]. congruence.
  - exact (IH _ Hc' c Hin).
Qed.

Lemma run_queries_split (E : Collaborators) (qs : list query) :
  forall self pre c post,
    run_queries E self qs = pre ++ c :: post ->
    exists qs', post = run_queries E (self_after c) qs'.
Proof.
  induction qs as [|q qs IH]; intros self pre c post H; cbn [run_queries] in H.
  - destruct pre; discriminate.
  - destruct pre as [|c0 pre]; cbn [app] in H; injection H as H0 H.
    + subst c. exists qs. now rewrite H.
    + exact (IH _ pre c post H).
Qed.

Lemma run_queries_In (E : Collaborators) (qs : list query) :
  forall self c,
    In c (run_queries E self qs) ->
    exists self' dates K cp, c = interp_σ_surface E self' dates K cp.
Proof.
  induction qs as [|q qs IH]; intros self c Hin; [destruct Hin|].
  cbn [run_queries] in Hin. destruct Hin as [<-|Hin]; [eauto | exact (IH _ c Hin)].
Qed.

(** C8, as the code has it.  Over any run of implied-volatility queries on
    one surface: a date whose every fit is in the cache after the query
    that computed it is fitted at most once; a fit that is not in the cache
    after its query raised (the error of a poor Heston fit at that date, or
    the error of a spline constructor), which ended the query at that
    date; and once a query leaves a fit for a date in the cache, every
    later query finds that same entry and does not fit the date again. *)
Theorem smile_fit_at_most_once (E : Collaborators) (self : FXVolatilitySurface)
    (qs : list query) (d : Z) :
  let calls := run_queries E self qs in
  ((forall c, In c calls -> In d (fits_computed c) ->
      is_Some (K_σ_daily_smile_func (self_after c) !! d)) ->
   (count_occ Z.eq_dec (all_fits calls) d <= 1)%nat)
  /\ (forall c,
        In c calls -> In d (fits_computed c) ->
        is_Some (K_σ_daily_smile_func (self_after c) !! d)
        \/ (K_σ_daily_smile_func (self_after c) !! d = None
            /\ last (fits_computed c) = Some d
            /\ exists e, outcome_of c = Raise e /\ fit_error e d))
  /\ (forall pre c post fit,
        calls = pre ++ c :: post ->
        K_σ_daily_smile_func (self_after c) !! d = Some fit ->
        forall c', In c' post ->
          K_σ_daily_smile_func (self_after c') !! d = Some fit
          /\ ~ In d (fits_computed c')).
Proof.
  cbv zeta. split; [ | split ].
  - revert self. induction qs as [|q qs IH]; intros self Hok; [cbn; lia|].
    cbn [run_queries] in Hok |- *. unfold all_fits. cbn [map concat].
    set (c := interp_σ_surface E self (q_dates q) (q_K q) (q_cp q)) in *.
    rewrite count_occ_app. fold (all_fits (run_queries E (self_after c) qs)).
    destruct (interp_σ_surface_fits E self (q_dates q) (q_K q) (q_cp q))
      as [Hd Hn]. fold c in Hd, Hn.
    pose proof (proj1 (NoDup_count_occ Z.eq_dec (fits_computed c))
                  (proj1 (NoDup_ListNoDup _) Hn) d) as Hle.
    destruct (in_dec Z.eq_dec d (fits_computed c)) as [Hin|Hnin].
    + destruct (Hok c (or_introl eq_refl) Hin) as [fit Hfit].
      assert (Hrest : ~ In d (all_fits (run_queries E (self_after c) qs))).
      { unfold all_fits. intros Hc. apply in_concat in Hc as [l [Hl Hdl]].
        apply in_map_iff in Hl as [c' [<- Hc']].
        destruct (run_queries_cached E d fit qs _ Hfit c' Hc') as [_ Hno].
        contradiction. }
      apply (count_occ_not_In Z.eq_dec) in Hrest. lia.
    + apply (count_occ_not_In Z.eq_dec) in Hnin.
      assert (IH' : (count_occ Z.eq_dec (all_fits (run_queries E (self_after c) qs)) d
                     <= 1)%nat).
      { apply IH. intros c' Hc'. apply Hok. now right. }
      lia.
  - intros c Hc Hin.
    apply run_queries_In in Hc as (self' & dates & K & cp & ->).
    destruct (interp_σ_surface_fits E self' dates K cp) as [Hd _].
    exact (proj2 (Hd d Hin)).
  - intros pre c post fit Hsplit Hfit c' Hc'.
    apply run_queries_split in Hsplit as [qs' ->].
    exact (run_queries_cached E d fit qs' _ Hfit c' Hc').
Qed.

(** ** A query at a single date *)

Lemma set_iter_singleton (E : Collaborators) (date : Z) :
  set_iter_spec E -> set_iter E [date] = [date].
Proof.
  intros Hspec. destruct (Hspec [date]) as [Hnd Hin].
  destruct (set_iter E [date]) as [|d [|d' l]].
  - destruct (proj2 (Hin date) (or_introl eq_refl)).
  - destruct (proj1 (Hin d) (or_introl eq_refl)) as [->|[]]. reflexivity.
  - destruct (proj1 (Hin d) (or_introl eq_refl)) as [<-|[]].
    destruct (proj1 (Hin d') (or_intror (or_introl eq_refl))) as [<-|[]].
    apply NoDup_cons in Hnd as [Hnd _]. exfalso. apply Hnd. now left.
Qed.

Lemma interp_σ_surface_single (E : Collaborators) (self : FXVolatilitySurface)
    (date : Z) (row : daily_row) (K cp : float64) :
  set_iter E [date] = [date] ->
  daily_loc (Δ_σ_daily self) date = Some row ->
  interp_σ_surface E self [date] [K] [cp]
  = let c := fit_smile E self row in
    Call (self_after c) (fits_computed c)
         (match outcome_of c with
          | Raise e => Raise e
          | Ok _ =>
              match smile_σ E (self_after c) row K cp with
              | Raise e => Raise e
              | Ok o => Ok (match o with Some σ => [σ] | None => [] end)
              end
          end).
Proof.
  intros Hset Hrow. unfold interp_σ_surface. cbn [length Nat.eqb negb].
  rewrite Hset. cbn [daily_loc_all]. rewrite Hrow. cbn [fit_loop zip zip_with].
  destruct (fit_smile E self row) as [s f [[]|e]]; cbn [outcome_of self_after fits_computed];
    [ | reflexivity ].
  rewrite app_nil_r. cbn [smile_loop].
  destruct (smile_σ E s row K cp) as [[σ|]|e]; reflexivity.
Qed.

Lemma fit_smile_heston (E : Collaborators) (self : FXVolatilitySurface)
    (row : daily_row) :
  is_heston (smile_interpolation_method self) = true ->
  daily_loc (Δ_σ_daily self) (d_tenor_date row) = Some row ->
  K_σ_daily_smile_func self !! d_tenor_date row = None ->
  fit_smile E self row
  = if flt (SSE (calibration E self row)) SSE_threshold
    then Call (set_smile_func self (d_tenor_date row)
                 (HestonTuple (calibration E self row)))
              [d_tenor_date row] (Ok tt)
    else Call self [d_tenor_date row]
              (Raise (PoorHestonFit (SSE (calibration E self row))
                        (d_tenor_date row))).
Proof.
  intros Hh Hrow Hnone. unfold fit_smile. rewrite Hnone, Hrow.
  destruct (is_heston_not_spline _ Hh) as [-> ->]. rewrite Hh. reflexivity.
Qed.

Lemma smile_σ_not_poor (E : Collaborators) (self : FXVolatilitySurface)
    (row : daily_row) (K cp s : float64) (d : Z) :
  smile_σ E self row K cp <> Raise (PoorHestonFit s d).
Proof.
  unfold smile_σ.
  repeat first [ discriminate
               | match goal with
                 | |- context [if ?b then _ else _] => destruct b
                 | |- context [match ?x with _ => _ end] => destruct x
                 end ].
Qed.

Lemma interp_σ_surface_heston_single (E : Collaborators)
    (self : FXVolatilitySurface) (date : Z) (row : daily_row) (K cp : float64) :
  set_iter_spec E ->
  is_heston (smile_interpolation_method self) = true ->
  daily_loc (Δ_σ_daily self) date = Some row ->
  K_σ_daily_smile_func self !! date = None ->
  interp_σ_surface E self [date] [K] [cp]
  = if flt (SSE (calibration E self row)) SSE_threshold
    then
      let self' := set_smile_func self date (HestonTuple (calibration E self row)) in
      Call self' [date]
           (match smile_σ E self' row K cp with
            | Raise e => Raise e
            | Ok o => Ok (match o with Some σ => [σ] | None => [] end)
            end)
    else Call self [date]
              (Raise (PoorHestonFit (SSE (calibration E self row)) date)).
Proof.
  intros Hspec Hh Hrow Hnone.
  pose proof (daily_loc_date _ _ _ Hrow) as Hd.
  rewrite (interp_σ_surface_single E self date row K cp
             (set_iter_singleton E date Hspec) Hrow).
  cbv zeta. rewrite fit_smile_heston by (rewrite ?Hd; assumption).
  rewrite Hd. destruct (flt _ SSE_threshold); reflexivity.
Qed.

(** ** Acceptance of a Heston fit: claim C3 *)

(** C3, as the code has it.  A query at a date that the cache does not
    hold, under a Heston method: if the sum of squared errors of the
    calibration is not below the threshold (it is at least 0.001, or not a
    number), the call raises the error naming that date, after one
    calibration, with no result and nothing cached; if it is below the
    threshold, the fit is stored in the cache and the call does not raise
    that error.  For a finite sum of squared errors [x] the fit is rejected
    exactly when [x >= 1/1000]. *)
Theorem heston_fit_rejected_unless_below_threshold (E : Collaborators)
    (self : FXVolatilitySurface) (date : Z) (row : daily_row) (K cp : float64) :
  set_iter_spec E ->
  is_heston (smile_interpolation_method self) = true ->
  daily_loc (Δ_σ_daily self) date = Some row ->
  K_σ_daily_smile_func self !! date = None ->
  let h := calibration E self row in
  let c := interp_σ_surface E self [date] [K] [cp] in
  (flt (SSE h) SSE_threshold = false ->
   c = Call self [date] (Raise (PoorHestonFit (SSE h) date)))
  /\ (flt (SSE h) SSE_threshold = true ->
      self_after c = set_smile_func self date (HestonTuple h)
      /\ fits_computed c = [date]
      /\ forall s d, outcome_of c <> Raise (PoorHestonFit s d))
  /\ (forall x : R, SSE h = Fin x ->
      (flt (SSE h) SSE_threshold = false <-> (1 / 1000 <= x)%R)).
Proof.
  intros Hspec Hh Hrow Hnone h c.
  assert (Hc : c = interp_σ_surface E self [date] [K] [cp]) by reflexivity.
  rewrite (interp_σ_surface_heston_single E self date row K cp Hspec Hh Hrow Hnone)
    in Hc.
  fold h in Hc. cbv zeta in Hc.
  repeat split.
  - intros Hflt. rewrite Hflt in Hc. exact Hc.
  - rewrite H in Hc. rewrite Hc. reflexivity.
  - rewrite H in Hc. rewrite Hc. reflexivity.
  - rewrite H in Hc. rewrite Hc. cbn [outcome_of self_after].
    intros s d Hp.
    destruct (smile_σ E (set_smile_func self date (HestonTuple h)) row K cp)
      as [o|e] eqn:Hs; [discriminate|].
    injection Hp as ->. exact (smile_σ_not_poor _ _ _ _ _ _ _ Hs).
  - intros Hflt. rewrite H in Hflt. cbn [flt SSE_threshold] in Hflt.
    unfold Rltb in Hflt. destruct (Rlt_dec x (1 / 1000)); [discriminate | lra].
  - intros Hx. rewrite H. cbn [flt SSE_threshold]. apply Rltb_false. exact Hx.
Qed.

Lemma example_row_2 (method : string) :
  daily_loc (Δ_σ_daily (example_surface method)) 2
  = Some (daily_row_of example_daycounter example_rate example_rate
            (fun _ => Fin 1%R) example_σ_pillar 2).
Proof.
  cbn [Δ_σ_daily example_surface]. unfold example_Δ_σ_daily.
  apply daily_loc_map; [reflexivity|]. apply In_date_range. lia.
Qed.

Lemma example_set_iter_spec (sse : float64) :
  set_iter_spec (example_collaborators sse).
Proof.
  intros dates. cbn [set_iter example_collaborators]. split.
  - apply NoDup_remove_dups.
  - intros d. rewrite <- !list_elem_of_In. apply elem_of_remove_dups.
Qed.

(** A calibration with a sum of squared errors of 0.0005 on the example
    surface is accepted; one with 0.002 would be rejected. *)
Lemma heston_fit_rejected_unless_below_threshold_witness :
  let E := example_collaborators (Fin (5 / 10000)) in
  let self := example_surface method_heston_analytical_1993 in
  let row := daily_row_of example_daycounter example_rate example_rate
               (fun _ => Fin 1%R) example_σ_pillar 2 in
  let h := calibration E self row in
  let c := interp_σ_surface E self [2%Z] [Fin 1] [Fin 1] in
  (flt (SSE h) SSE_threshold = false ->
   c = Call self [2%Z] (Raise (PoorHestonFit (SSE h) 2)))
  /\ (flt (SSE h) SSE_threshold = true ->
      self_after c = set_smile_func self 2 (HestonTuple h)
      /\ fits_computed c = [2%Z]
      /\ forall s d, outcome_of c <> Raise (PoorHestonFit s d))
  /\ (forall x : R, SSE h = Fin x ->
      (flt (SSE h) SSE_threshold = false <-> (1 / 1000 <= x)%R)).
Proof.
  apply (heston_fit_rejected_unless_below_threshold
           (example_collaborators (Fin (5 / 10000)))
           (example_surface method_heston_analytical_1993) 2
           (daily_row_of example_daycounter example_rate example_rate
              (fun _ => Fin 1%R) example_σ_pillar 2) (Fin 1) (Fin 1));
    [ apply example_set_iter_spec | reflexivity | apply example_row_2
    | apply lookup_empty ].
Defined.

(** C3 as stated fails at the threshold itself: a calibration whose sum of
    squared errors is exactly 0.001 does not exceed 0.001, and it is
    rejected; nothing is cached. *)
Lemma heston_fit_at_threshold_is_rejected :
  let E := example_collaborators (Fin (1 / 1000)) in
  let self := example_surface method_heston_analytical_1993 in
  let c := interp_σ_surface E self [2%Z] [Fin 1] [Fin 1] in
  ~ (1 / 1000 < 1 / 1000)%R
  /\ outcome_of c = Raise (PoorHestonFit (Fin (1 / 1000)) 2)
  /\ K_σ_daily_smile_func (self_after c) !! 2%Z = None.
Proof.
  cbv zeta.
  rewrite (interp_σ_surface_heston_single
             (example_collaborators (Fin (1 / 1000)))
             (example_surface method_heston_analytical_1993) 2 _ (Fin 1) (Fin 1)
             (example_set_iter_spec _) eq_refl (example_row_2 _) (lookup_empty _)).
  replace (flt _ SSE_threshold) with false.
  - split; [lra|]. split; [reflexivity | apply lookup_empty].
  - symmetry.
    cbn [SSE calibration example_collaborators heston_fit_vanilla_fx_smile flt
         SSE_threshold]. apply Rltb_false. lra.
Qed.

(** ** One pass of the first loop under a spline method *)

Lemma fit_smile_cubic (E : Collaborators) (self : FXVolatilitySurface)
    (row : daily_row) :
  smile_interpolation_method self = method_cubic_spline ->
  daily_loc (Δ_σ_daily self) (d_tenor_date row) = Some row ->
  K_σ_daily_smile_func self !! d_tenor_date row = None ->
  fit_smile E self row
  = match cubic_spline_init E (strikes E (fx_spot_rate self) row) (d_σ row) with
    | Some err => Call self [d_tenor_date row] (Raise (raise_scipy err))
    | None =>
        Call (set_smile_func self (d_tenor_date row)
                (CubicSpline (strikes E (fx_spot_rate self) row) (d_σ row)))
             [d_tenor_date row] (Ok tt)
    end.
Proof.
  intros Hm Hrow Hnone. unfold fit_smile. rewrite Hnone, Hrow, Hm. reflexivity.
Qed.

Lemma fit_smile_univariate (E : Collaborators) (self : FXVolatilitySurface)
    (row : daily_row) :
  smile_interpolation_method self = method_univariate_spline ->
  daily_loc (Δ_σ_daily self) (d_tenor_date row) = Some row ->
  K_σ_daily_smile_func self !! d_tenor_date row = None ->
  fit_smile E self row
  = match univariate_spline_init E (strikes E (fx_spot_rate self) row) (d_σ row) with
    | Some err => Call self [d_tenor_date row] (Raise (raise_scipy err))
    | None =>
        Call (set_smile_func self (d_tenor_date row)
                (InterpolatedUnivariateSpline (strikes E (fx_spot_rate self) row)
                   (d_σ row)))
             [d_tenor_date row] (Ok tt)
    end.
Proof.
  intros Hm Hrow Hnone. unfold fit_smile. rewrite Hnone, Hrow, Hm. reflexivity.
Qed.

Lemma example_strikes_increasing : strictly_increasing example_strikes = true.
Proof.
  unfold example_strikes. cbn [strictly_increasing flt]. Rbool. reflexivity.
Qed.

(** ** Two queries at one date on the example surface *)

Lemma example_cubic_first_query (K : float64) :
  let self := example_surface method_cubic_spline in
  let σ := d_σ (daily_row_of example_daycounter example_rate example_rate
                  (fun _ => Fin 1%R) example_σ_pillar 2) in
  interp_σ_surface (example_collaborators (Fin 0)) self [2%Z] [K] [Fin 1]
  = Call (set_smile_func self 2 (CubicSpline example_strikes σ)) [2%Z]
         (Ok [Fin (2/10)]).
Proof.
  cbv zeta.
  rewrite (interp_σ_surface_single (example_collaborators (Fin 0))
             (example_surface method_cubic_spline) 2 _ K (Fin 1) eq_refl
             (example_row_2 _)).
  cbv zeta.
  rewrite fit_smile_cubic;
    [ | reflexivity | exact (example_row_2 _) | apply lookup_empty ].
  change (cubic_spline_init (example_collaborators (Fin 0))
            (strikes (example_collaborators (Fin 0))
               (fx_spot_rate (example_surface method_cubic_spline))
               (daily_row_of example_daycounter example_rate example_rate
                  (fun _ => Fin 1%R) example_σ_pillar 2)))
    with (example_cubic_spline_init example_strikes).
  unfold example_cubic_spline_init. rewrite example_strikes_increasing.
  reflexivity.
Qed.

Lemma example_cubic_second_query (K : float64) (x y : list float64) :
  let self := set_smile_func (example_surface method_cubic_spline) 2
                (CubicSpline x y) in
  interp_σ_surface (example_collaborators (Fin 0)) self [2%Z] [K] [Fin 1]
  = Call self [] (Ok [Fin (2/10)]).
Proof.
  cbv zeta.
  rewrite (interp_σ_surface_single (example_collaborators (Fin 0))
             (set_smile_func (example_surface method_cubic_spline) 2
                (CubicSpline x y)) 2 _ K (Fin 1) eq_refl
             (example_row_2 method_cubic_spline)).
  reflexivity.
Qed.

(** Two cubic-spline queries at day 2, at different strikes: the first
    fits and caches, the second finds the entry and does not fit. *)
Lemma smile_fit_at_most_once_witness :
  let self := example_surface method_cubic_spline in
  let σ := d_σ (daily_row_of example_daycounter example_rate example_rate
                  (fun _ => Fin 1%R) example_σ_pillar 2) in
  let calls :=
    run_queries (example_collaborators (Fin 0)) self
      [ {| q_dates := [2%Z]; q_K := [Fin 1]; q_cp := [Fin 1] |};
        {| q_dates := [2%Z]; q_K := [Fin 2]; q_cp := [Fin 1] |} ] in
  (count_occ Z.eq_dec (all_fits calls) 2%Z <= 1)%nat
  /\ (forall c, head calls = Some c ->
        is_Some (K_σ_daily_smile_func (self_after c) !! 2%Z)
        \/ (K_σ_daily_smile_func (self_after c) !! 2%Z = None
            /\ last (fits_computed c) = Some 2%Z
            /\ exists e, outcome_of c = Raise e /\ fit_error e 2))
  /\ (forall c', In c' (tail calls) ->
        K_σ_daily_smile_func (self_after c') !! 2%Z
        = Some (CubicSpline example_strikes σ)
        /\ ~ In 2%Z (fits_computed c')).
Proof.
  cbv zeta.
  destruct (smile_fit_at_most_once (example_collaborators (Fin 0))
              (example_surface method_cubic_spline)
              [ {| q_dates := [2%Z]; q_K := [Fin 1]; q_cp := [Fin 1] |};
                {| q_dates := [2%Z]; q_K := [Fin 2]; q_cp := [Fin 1] |} ] 2%Z)
    as (Hcount & Hstored & Hreuse).
  cbn [run_queries q_dates q_K q_cp] in Hcount, Hstored, Hreuse |- *.
  pose proof (example_cubic_first_query (Fin 1)) as H1. cbv zeta in H1.
  rewrite H1 in Hcount, Hstored, Hreuse |- *.
  cbn [self_after] in Hcount, Hstored, Hreuse |- *.
  pose proof (example_cubic_second_query (Fin 2)) as H2. cbv zeta in H2.
  rewrite H2 in Hcount, Hstored, Hreuse |- *. cbn [tail head].
  split; [ | split ].
  - apply Hcount. intros c [<-|[<-|[]]]; cbn [fits_computed self_after].
    + intros _. eexists. cbn. apply lookup_insert_eq.
    + intros [].
  - intros c Hc. injection Hc as <-.
    apply Hstored; [now left | now left].
  - apply (Hreuse [] _ _ _ eq_refl). cbn. apply lookup_insert_eq.
Defined.

(** C8 as stated fails for a date whose Heston fit is rejected: nothing is
    cached, and the second query at that date calibrates again. *)
Lemma rejected_heston_fit_is_computed_again :
  let calls :=
    run_queries (example_collaborators (Fin 1))
      (example_surface method_heston_analytical_1993)
      [ {| q_dates := [2%Z]; q_K := [Fin 1]; q_cp := [Fin 1] |};
        {| q_dates := [2%Z]; q_K := [Fin 2]; q_cp := [Fin 1] |} ] in
  all_fits calls = [2%Z; 2%Z]
  /\ ~ (count_occ Z.eq_dec (all_fits calls) 2%Z <= 1)%nat.
Proof.
  cbv zeta. cbn [run_queries q_dates q_K q_cp].
  assert (Hq : forall K,
             interp_σ_surface (example_collaborators (Fin 1))
               (example_surface method_heston_analytical_1993) [2%Z] [K] [Fin 1]
             = Call (example_surface method_heston_analytical_1993) [2%Z]
                    (Raise (PoorHestonFit (Fin 1) 2))).
  { intros K.
    rewrite (interp_σ_surface_heston_single
               (example_collaborators (Fin 1))
               (example_surface method_heston_analytical_1993) 2 _ K (Fin 1)
               (example_set_iter_spec _) eq_refl (example_row_2 _)
               (lookup_empty _)).
    replace (flt _ SSE_threshold) with false; [reflexivity|].
    symmetry.
    cbn [SSE calibration example_collaborators heston_fit_vanilla_fx_smile flt
         SSE_threshold]. apply Rltb_false. lra. }
  rewrite Hq. cbn [self_after]. rewrite Hq.
  split; [reflexivity|]. unfold all_fits. cbn. lia.
Qed.

(** ** The dispatch of [simulate_fx_rate_path]: claim C10 *)

(** C10. With a [method] other than ['geometric_brownian_motion'] the call
    returns [None], warns of nothing and raises nothing; and whenever the
    call returns a dictionary, the method was
    ['geometric_brownian_motion'] and the dictionary holds the simulation
    paths and the market-data diagnostics. *)
Theorem simulate_fx_rate_path_dispatch (E : Collaborators)
    (self : FXVolatilitySurface) (date_grid : option (list Z))
    (nb_of_simulations : option nat) (flag_apply_antithetic_variates : option bool)
    (method : string) :
  (method <> method_geometric_brownian_motion ->
   simulate_fx_rate_path E self date_grid nb_of_simulations
     flag_apply_antithetic_variates method = ([], Ok None))
  /\ (forall w results,
        simulate_fx_rate_path E self date_grid nb_of_simulations
          flag_apply_antithetic_variates method = (w, Ok (Some results)) ->
        method = method_geometric_brownian_motion
        /\ is_Some (results !! "fx_rate_simulation_paths")
        /\ is_Some (results !! "gbm_monte_carlo_market_data_inputs")).
Proof.
  unfold simulate_fx_rate_path. split.
  - intros Hne. destruct (String.eqb_spec method method_geometric_brownian_motion);
      [contradiction | reflexivity].
  - intros w results.
    destruct (String.eqb_spec method method_geometric_brownian_motion) as [->|Hne];
      [ | discriminate ].
    intros H. split; [reflexivity|].
    destruct (interp_fx_forward_curve E _ _ true) as [|f fs]; [discriminate|].
    match type of H with
    | wbind ?c _ = _ => destruct c as [w1 [σ_atm|e]]; cbn [wbind] in H;
                        [ | discriminate ]
    end.
    destruct σ_atm as [|σ0 σ_atm]; [discriminate|].
    match type of H with
    | (let '(_, _) := wbind ?c _ in _) = _ =>
        destruct c as [w2 [[|[|x xs] rest]|e]]; cbn [wbind wraise wret] in H;
        try discriminate
    end.
    injection H as _ <-. split.
    + rewrite lookup_insert_eq. eauto.
    + rewrite lookup_insert_ne by discriminate. rewrite lookup_insert_eq. eauto.
Qed.

Lemma example_daily_σ (d : Z) (s1 s3 : R) :
  (d = 1 \/ d = 3)%Z ->
  d_σ (daily_row_of example_daycounter example_rate example_rate
         (fun _ => Fin 1%R) [example_pillar 1 s1; example_pillar 3 s3] d)
  = if Z.eqb d 1 then [Fin s1; Fin s1; Fin s1] else [Fin s3; Fin s3; Fin s3].
Proof.
  destruct (example_asof s1 s3) as (B1 & F1 & _ & _ & B3 & F3).
  intros [->| ->]; unfold daily_row_of; cbn [d_σ].
  - rewrite B1, F1. cbn [merged_years merged_σ example_pillar p_tenor_years p_σ].
    unfold fne, example_daycounter. cbn [feq]. Rbool. reflexivity.
  - rewrite B3, F3. cbn [merged_years merged_σ example_pillar p_tenor_years p_σ].
    unfold fne, example_daycounter. cbn [feq]. Rbool. reflexivity.
Qed.

(** On the example surface the method ['geometric_brownian_motion'], with
    the default date grid (the pillar dates), returns a dictionary. *)
Lemma example_gbm_simulation :
  exists w results,
    simulate_fx_rate_path (example_collaborators (Fin 0))
      (example_surface method_cubic_spline) None None None
      method_geometric_brownian_motion = (w, Ok (Some results)).
Proof.
  unfold simulate_fx_rate_path. rewrite String.eqb_refl.
  cbn [σ_pillar example_surface example_σ_pillar map p_tenor_date example_pillar
       interp_fx_forward_curve example_collaborators daycounter curve_date
       tail removelast zip_with fx_spot_rate length repeat Δ_σ_daily].
  replace (in_pillar_range (example_surface method_cubic_spline) 1) with true
    by reflexivity.
  replace (in_pillar_range (example_surface method_cubic_spline) 3) with true
    by reflexivity.
  cbn [existsb orb select daily_loc_all].
  unfold example_Δ_σ_daily.
  rewrite !daily_loc_map by (try reflexivity; apply In_date_range; lia).
  cbn [map]. unfold σ_atmΔneutral. unfold example_σ_pillar.
  rewrite !example_daily_σ by auto. cbn [Z.eqb Pos.eqb nth].
  unfold mask_assign. cbn [length count_true Nat.eqb fill].
  cbn [wbind wret removelast]. unfold example_daycounter.
  np_unfold. Rbool. np_unfold. Rbool. np_unfold. Rbool.
  cbn [wbind wret removelast app].
  eexists. eexists. reflexivity.
Qed.

(** The dispatch on the example surface: the method ['heston'] returns
    [None]; the method ['geometric_brownian_motion'] returns a dictionary
    with the paths and the diagnostics. *)
Lemma simulate_fx_rate_path_dispatch_witness :
  simulate_fx_rate_path (example_collaborators (Fin 0))
    (example_surface method_cubic_spline) None None None "heston"
  = ([], Ok None)
  /\ exists w results,
       simulate_fx_rate_path (example_collaborators (Fin 0))
         (example_surface method_cubic_spline) None None None
         method_geometric_brownian_motion = (w, Ok (Some results))
       /\ is_Some (results !! "fx_rate_simulation_paths")
       /\ is_Some (results !! "gbm_monte_carlo_market_data_inputs").
Proof.
  split.
  - apply (simulate_fx_rate_path_dispatch (example_collaborators (Fin 0))
             (example_surface method_cubic_spline) None None None "heston").
    discriminate.
  - destruct example_gbm_simulation as (w & results & Hrun).
    exists w, results. split; [exact Hrun|].
    exact (proj2 (proj2 (simulate_fx_rate_path_dispatch
                           (example_collaborators (Fin 0))
                           (example_surface method_cubic_spline) None None None
                           method_geometric_brownian_motion) w results Hrun)).
Defined.

(** * Further properties of the numeric kernel *)

(** X5. On a batch of brackets with finite times, [forward_volatility]
    raises NameError (the undefined name [ValueErwarnings] of its branch
    for [t2 < t1]) exactly when some bracket has [t2 < t1] and no bracket
    has [t2 == t1], whatever the volatilities; a bracket with equal times
    anywhere in the batch hides the reversed ones. *)
Theorem forward_volatility_name_error_iff (ts : list (R * R))
    (σ_t1 σ_t2 : ndarray) :
  snd (forward_volatility (map (fun p => [Fin (fst p)]) ts) σ_t1
                          (map (fun p => [Fin (snd p)]) ts) σ_t2)
  = Raise (NameError "ValueErwarnings")
  <-> (forall p, In p ts -> fst p <> snd p)
      /\ (exists p, In p ts /\ (snd p < fst p)%R).
Proof.
  unfold forward_volatility, np_sub.
  rewrite (broadcast_map fsub (fun p : R * R => [Fin (snd p)])
             (fun p => [Fin (fst p)])).
  rewrite !np_any_map. cbn [bc_row map existsb fsub feq flt fzero].
  set (zero := existsb (fun p : R * R => Reqb (snd p - fst p) 0 || false) ts).
  set (neg := existsb (fun p : R * R => Rltb (snd p - fst p) 0 || false) ts).
  assert (Hzero : zero = true <-> exists p, In p ts /\ fst p = snd p).
  { unfold zero. rewrite existsb_exists. split; intros [p [Hin Hp]]; exists p;
      (split; [exact Hin|]).
    - rewrite orb_false_r in Hp. unfold Reqb in Hp.
      destruct (Req_dec_T (snd p - fst p) 0); [lra | discriminate].
    - rewrite orb_false_r. apply Reqb_true. lra. }
  assert (Hneg : neg = true <-> exists p, In p ts /\ (snd p < fst p)%R).
  { unfold neg. rewrite existsb_exists. split; intros [p [Hin Hp]]; exists p;
      (split; [exact Hin|]).
    - rewrite orb_false_r in Hp. unfold Rltb in Hp.
      destruct (Rlt_dec (snd p - fst p) 0); [lra | discriminate].
    - rewrite orb_false_r. apply Rltb_true. lra. }
  destruct zero.
  - cbn [wbind wwarn]. split.
    + intros H. destruct (np_any _ _); discriminate.
    + intros [Hne _]. destruct (proj1 Hzero eq_refl) as [p [Hin Hp]].
      destruct (Hne p Hin Hp).
  - destruct neg.
    + cbn [wbind wraise snd]. split; [ | reflexivity ].
      intros _. split; [ | now apply Hneg ].
      intros p Hin Hp.
      assert (false = true) by (apply Hzero; eauto). discriminate.
    + cbn [wbind wret]. split.
      * intros H. destruct (np_any _ _); discriminate.
      * intros [_ Hex]. apply Hneg in Hex. discriminate.
Qed.

(** Brackets (1, 3) and (4, 2): the second is reversed, none is flat. *)
Lemma forward_volatility_name_error_iff_witness :
  snd (forward_volatility [[Fin 1]; [Fin 4]] [[Fin (2/10)]; [Fin (2/10)]]
                          [[Fin 3]; [Fin 2]] [[Fin (3/10)]; [Fin (3/10)]])
  = Raise (NameError "ValueErwarnings").
Proof.
  apply (forward_volatility_name_error_iff [(1, 3); (4, 2)]%R). split.
  - intros p [<-|[<-|[]]]; cbn; lra.
  - exists (4, 2)%R. split; [right; now left | cbn; lra].
Defined.

(** * Further properties of the daily grid *)

(** X6. A grid that was built has exactly one row per calendar day from
    the first to the last pillar date, in date order; a date has a row if
    and only if it lies in that range; and the row of a date carries the
    year fraction of the date, the convention ['regular_forward_Δ'] and
    the rates of the two zero curves and of the forward curve at that
    date. *)
Theorem daily_grid_one_row_per_day
    (daycounter zero_rate_f zero_rate_d fx_forward : Z -> float64)
    (σ_pillar : list pillar_row) (w : list string) (grid : list daily_row) :
  post_init_Δ_σ_daily daycounter zero_rate_f zero_rate_d fx_forward σ_pillar
  = (w, Ok grid) ->
  exists lo hi,
    index_min (map p_tenor_date σ_pillar) = Some lo
    /\ index_max (map p_tenor_date σ_pillar) = Some hi
    /\ map d_tenor_date grid = date_range lo hi
    /\ length grid = Z.to_nat (hi - lo + 1)
    /\ (forall d, is_Some (daily_loc grid d) <-> (lo <= d <= hi)%Z)
    /\ (forall d row,
          daily_loc grid d = Some row ->
          d_tenor_date row = d
          /\ d_tenor_years row = daycounter d
          /\ d_Δ_convention row = regular_forward_Δ
          /\ d_foreign_ccy_continuously_compounded_zero_rate row = zero_rate_f d
          /\ d_domestic_ccy_continuously_compounded_zero_rate row = zero_rate_d d
          /\ d_fx_forward_rate row = fx_forward d).
Proof.
  intros Hb.
  apply post_init_Δ_σ_daily_Ok in Hb as (lo & hi & Hlo & Hhi & _ & -> & _).
  exists lo, hi. split; [exact Hlo|]. split; [exact Hhi|].
  set (g := daily_row_of daycounter zero_rate_f zero_rate_d fx_forward σ_pillar).
  assert (Hg : forall d, d_tenor_date (g d) = d) by reflexivity.
  assert (Hloc : forall d, In d (date_range lo hi) ->
                           daily_loc (map g (date_range lo hi)) d = Some (g d))
    by (intros d; now apply daily_loc_map).
  split; [ | split; [ | split ] ].
  - rewrite map_map. rewrite <- (map_id (date_range lo hi)) at 2.
    apply map_ext. exact Hg.
  - rewrite length_map. unfold date_range. now rewrite length_map, length_seq.
  - intros d. rewrite <- In_date_range. split.
    + intros [row Hrow]. pose proof (daily_loc_date _ _ _ Hrow) as Hd.
      unfold daily_loc in Hrow. apply find_some in Hrow as [Hin _].
      apply in_map_iff in Hin as [d' [<- Hin]]. rewrite Hg in Hd. now subst.
    + intros Hin. rewrite (Hloc d Hin). eauto.
  - intros d row Hrow.
    assert (Hin : In d (date_range lo hi)).
    { pose proof (daily_loc_date _ _ _ Hrow) as Hd.
      unfold daily_loc in Hrow. apply find_some in Hrow as [Hin _].
      apply in_map_iff in Hin as [d' [<- Hin]]. rewrite Hg in Hd. now subst. }
    rewrite (Hloc d Hin) in Hrow. injection Hrow as <-. repeat split.
Qed.

Lemma daily_grid_one_row_per_day_witness :
  exists lo hi,
    index_min (map p_tenor_date example_σ_pillar) = Some lo
    /\ index_max (map p_tenor_date example_σ_pillar) = Some hi
    /\ map d_tenor_date example_Δ_σ_daily = date_range lo hi
    /\ length example_Δ_σ_daily = Z.to_nat (hi - lo + 1)
    /\ (forall d, is_Some (daily_loc example_Δ_σ_daily d) <-> (lo <= d <= hi)%Z)
    /\ (forall d row,
          daily_loc example_Δ_σ_daily d = Some row ->
          d_tenor_date row = d
          /\ d_tenor_years row = example_daycounter d
          /\ d_Δ_convention row = regular_forward_Δ
          /\ d_foreign_ccy_continuously_compounded_zero_rate row = example_rate d
          /\ d_domestic_ccy_continuously_compounded_zero_rate row = example_rate d
          /\ d_fx_forward_rate row = Fin 1).
Proof.
  exact (daily_grid_one_row_per_day example_daycounter example_rate example_rate
           (fun _ => Fin 1%R) example_σ_pillar [warn_tau_zero] example_Δ_σ_daily
           example_builds).
Defined.

Lemma existsb_false_forall {A : Type} (p : A -> bool) (l : list A) :
  (forall x, In x l -> p x = false) -> existsb p l = false.
Proof.
  intros H. destruct (existsb p l) eqn:He; [ | reflexivity ].
  apply existsb_exists in He as [x [Hin Hx]]. rewrite (H x Hin) in Hx. discriminate.
Qed.

(** * Further properties of the query methods *)

Lemma daily_loc_all_missing (df : list daily_row) (dates : list Z) :
  (exists d, In d dates /\ daily_loc df d = None) ->
  daily_loc_all df dates = Raise KeyError.
Proof.
  induction dates as [|d0 dates IH]; intros [d [Hin Hd]]; [destruct Hin|].
  cbn [daily_loc_all]. destruct (daily_loc df d0) as [row|] eqn:H0; [ | reflexivity ].
  destruct Hin as [->|Hin]; [congruence|].
  rewrite IH by eauto. reflexivity.
Qed.

Lemma daily_loc_all_Ok (df : list daily_row) (dates : list Z) :
  (forall d, In d dates -> is_Some (daily_loc df d)) ->
  exists rows,
    daily_loc_all df dates = Ok rows
    /\ map d_tenor_date rows = dates
    /\ (forall row, In row rows -> daily_loc df (d_tenor_date row) = Some row).
Proof.
  induction dates as [|d dates IH]; intros Hall.
  - exists []. repeat split. intros row [].
  - destruct (Hall d (or_introl eq_refl)) as [row Hrow].
    destruct IH as (rows & Hrows & Hdates & Hloc); [intros; apply Hall; now right|].
    exists (row :: rows). cbn [daily_loc_all]. rewrite Hrow, Hrows.
    pose proof (daily_loc_date _ _ _ Hrow) as Hd.
    repeat split.
    + cbn [map]. now rewrite Hd, Hdates.
    + intros r [<-|Hr]; [now rewrite Hd | now apply Hloc].
Qed.

(** X8. A query with one date that has no row in the daily grid raises
    KeyError for the whole batch before anything is fitted: the surface
    is as it was, even if other dates of the batch are on the grid. *)
Theorem interp_sigma_surface_date_off_grid (E : Collaborators)
    (self : FXVolatilitySurface) (dates : list Z) (K cp : list float64) :
  length dates = length K -> length dates = length cp ->
  (exists d, In d dates /\ daily_loc (Δ_σ_daily self) d = None) ->
  interp_σ_surface E self dates K cp = Call self [] (Raise KeyError).
Proof.
  intros HK Hcp Hoff. unfold interp_σ_surface.
  rewrite <- HK, <- Hcp, Nat.eqb_refl. cbn [negb].
  rewrite (daily_loc_all_missing _ _ Hoff). reflexivity.
Qed.

Lemma interp_sigma_surface_date_off_grid_witness :
  interp_σ_surface (example_collaborators (Fin 0))
    (example_surface method_cubic_spline) [2; 7]%Z [Fin 1; Fin 1] [Fin 1; Fin 1]
  = Call (example_surface method_cubic_spline) [] (Raise KeyError).
Proof.
  apply interp_sigma_surface_date_off_grid; try reflexivity.
  exists 7%Z. split; [right; now left | reflexivity].
Defined.

Lemma fit_smile_without_fit (E : Collaborators) (self : FXVolatilitySurface)
    (row : daily_row) :
  method_without_fit (smile_interpolation_method self) ->
  fit_smile E self row = Call self [] (Ok tt).
Proof.
  intros (H1 & H2 & H3). unfold fit_smile.
  destruct (K_σ_daily_smile_func self !! d_tenor_date row); [reflexivity|].
  now rewrite H1, H2, H3.
Qed.

Lemma fit_loop_noop (E : Collaborators) (self : FXVolatilitySurface)
    (rows : list daily_row) :
  (forall row, In row rows -> fit_smile E self row = Call self [] (Ok tt)) ->
  fit_loop E self rows = Call self [] (Ok tt).
Proof.
  induction rows as [|row rows IH]; intros Hall; [reflexivity|].
  cbn [fit_loop]. rewrite (Hall row (or_introl eq_refl)).
  cbn [outcome_of self_after fits_computed app].
  rewrite IH by (intros; apply Hall; now right). reflexivity.
Qed.

Lemma smile_loop_without_fit (E : Collaborators) (self : FXVolatilitySurface)
    (rows : list (daily_row * (float64 * float64))) :
  method_without_fit (smile_interpolation_method self) ->
  smile_loop E self rows = Ok [].
Proof.
  intros (H1 & H2 & H3).
  induction rows as [|[row [K cp]] rows IH]; [reflexivity|].
  cbn [smile_loop]. unfold smile_σ. rewrite H1, H2, H3. cbn [orb].
  now rewrite IH.
Qed.

Lemma interp_σ_surface_no_branch (E : Collaborators)
    (self : FXVolatilitySurface) (dates : list Z) (K cp : list float64) :
  set_iter_spec E ->
  method_without_fit (smile_interpolation_method self) ->
  length dates = length K -> length dates = length cp ->
  (forall d, In d dates -> is_Some (daily_loc (Δ_σ_daily self) d)) ->
  interp_σ_surface E self dates K cp = Call self [] (Ok []).
Proof.
  intros Hspec Hm HK Hcp Hgrid. unfold interp_σ_surface.
  rewrite <- HK, <- Hcp, Nat.eqb_refl. cbn [negb].
  destruct (daily_loc_all_Ok _ _ Hgrid) as (df & -> & _ & _).
  destruct (daily_loc_all_Ok (Δ_σ_daily self) (set_iter E dates))
    as (rows & -> & _ & _).
  { intros d Hd. apply Hgrid. now apply (Hspec dates). }
  rewrite fit_loop_noop by (intros; now apply fit_smile_without_fit).
  cbn [outcome_of self_after fits_computed].
  now rewrite smile_loop_without_fit.
Qed.

(** X9. Under a smile method for which the code has no branch (for
    example ['sabr']), a query whose dates are on the grid does not
    raise: it returns an empty array, fits nothing and caches nothing. *)
Theorem interp_sigma_surface_method_without_fit (E : Collaborators)
    (self : FXVolatilitySurface) (dates : list Z) (K cp : list float64) :
  set_iter_spec E ->
  method_without_fit (smile_interpolation_method self) ->
  length dates = length K -> length dates = length cp ->
  (forall d, In d dates -> is_Some (daily_loc (Δ_σ_daily self) d)) ->
  interp_σ_surface E self dates K cp = Call self [] (Ok []).
Proof. exact (interp_σ_surface_no_branch E self dates K cp). Qed.

Lemma interp_sigma_surface_method_without_fit_witness :
  interp_σ_surface (example_collaborators (Fin 0)) (example_surface "sabr")
    [1; 2]%Z [Fin 1; Fin 1] [Fin 1; Fin 1]
  = Call (example_surface "sabr") [] (Ok []).
Proof.
  apply interp_sigma_surface_method_without_fit; try reflexivity.
  - apply example_set_iter_spec.
  - repeat split.
  - intros d [<-|[<-|[]]]; eexists;
      apply (daily_loc_map _ (date_range 1 3)); try reflexivity;
      apply In_date_range; lia.
Defined.

Lemma cache_of_splines_set (self : FXVolatilitySurface) (date : Z)
    (fit : smile_fit) :
  cache_of_splines self ->
  (exists x y, fit = InterpolatedUnivariateSpline x y \/ fit = CubicSpline x y) ->
  cache_of_splines (set_smile_func self date fit).
Proof.
  intros Hc Hfit d f. cbn [K_σ_daily_smile_func set_smile_func].
  rewrite lookup_insert. destruct (decide (date = d)) as [->|Hne].
  - intros H. injection H as <-. exact Hfit.
  - apply Hc.
Qed.

(** Under ['cubic_spline'] one pass of the first loop at a row whose
    strikes the constructor accepts does not raise, leaves the date in the
    cache and keeps the cache callable. *)
Lemma fit_smile_cubic_accepted (E : Collaborators) (self : FXVolatilitySurface)
    (row : daily_row) :
  smile_interpolation_method self = method_cubic_spline ->
  cache_of_splines self ->
  daily_loc (Δ_σ_daily self) (d_tenor_date row) = Some row ->
  cubic_spline_init E (strikes E (fx_spot_rate self) row) (d_σ row) = None ->
  let c := fit_smile E self row in
  outcome_of c = Ok tt
  /\ cache_of_splines (self_after c)
  /\ is_Some (K_σ_daily_smile_func (self_after c) !! d_tenor_date row).
Proof.
  intros Hm Hc Hrow Hacc. cbv zeta.
  destruct (K_σ_daily_smile_func self !! d_tenor_date row) as [f|] eqn:Hf.
  - unfold fit_smile. rewrite Hf. cbn [outcome_of self_after]. rewrite Hf. eauto.
  - rewrite fit_smile_cubic by assumption. rewrite Hacc.
    cbn [outcome_of self_after]. repeat split.
    + apply cache_of_splines_set; eauto.
    + cbn. rewrite lookup_insert_eq. eauto.
Qed.

Lemma fit_loop_cubic_accepted (E : Collaborators) (rows : list daily_row) :
  forall self,
    smile_interpolation_method self = method_cubic_spline ->
    cache_of_splines self ->
    (forall row, In row rows ->
       daily_loc (Δ_σ_daily self) (d_tenor_date row) = Some row
       /\ cubic_spline_init E (strikes E (fx_spot_rate self) row) (d_σ row) = None) ->
    let c := fit_loop E self rows in
    outcome_of c = Ok tt
    /\ cache_of_splines (self_after c)
    /\ (forall row, In row rows ->
          is_Some (K_σ_daily_smile_func (self_after c) !! d_tenor_date row)).
Proof.
  induction rows as [|row rows IH]; intros self Hm Hc Hacc; cbn [fit_loop].
  - cbn. repeat split; [exact Hc | intros row []].
  - cbv zeta.
    destruct (Hacc row (or_introl eq_refl)) as [Hrow Hinit].
    destruct (fit_smile_cubic_accepted E self row Hm Hc Hrow Hinit)
      as (Ho & Hc1 & Hin1).
    rewrite Ho. cbn [outcome_of self_after].
    set (s1 := self_after (fit_smile E self row)) in *.
    destruct (fit_smile_frame E self row)
      as (_&_&_&_&_&_&_&Hspot&_&_&Hgrid&_&_&Hmeth&_).
    fold s1 in Hspot, Hgrid, Hmeth.
    destruct (IH s1) as (Ho' & Hc' & Hin').
    { now rewrite Hmeth. }
    { exact Hc1. }
    { intros r Hr. rewrite Hgrid, Hspot. apply Hacc. now right. }
    repeat split; try assumption.
    intros r [<-|Hr]; [ | now apply Hin' ].
    destruct Hin1 as [f Hf]. exists f.
    now apply (fit_loop_frame E rows s1).
Qed.

Lemma smile_loop_spline (E : Collaborators) (self : FXVolatilitySurface)
    (rows : list (daily_row * (float64 * float64))) :
  spline_method (smile_interpolation_method self) ->
  cache_of_splines self ->
  (forall r, In r rows ->
     is_Some (K_σ_daily_smile_func self !! d_tenor_date (fst r))) ->
  exists σ, smile_loop E self rows = Ok σ /\ length σ = length rows.
Proof.
  intros Hm Hc. induction rows as [|[row [K cp]] rows IH]; intros Hall.
  - exists []. split; reflexivity.
  - destruct IH as (σ & Hσ & Hlen); [intros; apply Hall; now right|].
    destruct (Hall _ (or_introl eq_refl)) as [f Hf]. cbn [fst] in Hf.
    cbn [smile_loop]. unfold smile_σ.
    replace (String.eqb (smile_interpolation_method self) method_univariate_spline
             || String.eqb (smile_interpolation_method self) method_cubic_spline)
      with true.
    2:{ symmetry. destruct Hm as [->| ->]; [reflexivity|].
        apply orb_true_r. }
    rewrite Hf. destruct (Hc _ _ Hf) as (x & y & [-> | ->]); rewrite Hσ;
      eexists; (split; [reflexivity | cbn [length]; now rewrite Hlen]).
Qed.

Lemma zip_rows_In (df : list daily_row) (Kcp : list (float64 * float64))
    (r : daily_row * (float64 * float64)) :
  In r (zip df Kcp) -> In (fst r) df.
Proof.
  revert Kcp. induction df as [|row df IH]; intros [|kc Kcp] Hin;
    try (destruct Hin; fail).
  destruct Hin as [<-|Hin]; [now left | right; eapply IH; eauto].
Qed.

Lemma zip_length {A B : Type} (l : list A) (k : list B) :
  length l = length k -> length (zip l k) = length l.
Proof.
  revert k. induction l as [|a l IH]; intros [|b k] H; try discriminate;
    [reflexivity|]. cbn. f_equal. apply IH. now injection H.
Qed.

Lemma interp_σ_surface_cubic_outcome (E : Collaborators)
    (self : FXVolatilitySurface) (dates : list Z) (K cp : list float64) :
  set_iter_spec E ->
  smile_interpolation_method self = method_cubic_spline ->
  cache_of_splines self ->
  length dates = length K -> length dates = length cp ->
  (forall d, In d dates -> is_Some (daily_loc (Δ_σ_daily self) d)) ->
  (forall d row,
     In d dates -> daily_loc (Δ_σ_daily self) d = Some row ->
     cubic_spline_init E (strikes E (fx_spot_rate self) row) (d_σ row) = None) ->
  let c := interp_σ_surface E self dates K cp in
  (exists σ, outcome_of c = Ok σ /\ length σ = length dates)
  /\ (forall d, In d dates -> is_Some (K_σ_daily_smile_func (self_after c) !! d))
  /\ cache_of_splines (self_after c).
Proof.
  intros Hspec Hm Hc HK Hcp Hgrid Hacc. cbv zeta. unfold interp_σ_surface.
  rewrite <- HK, <- Hcp, Nat.eqb_refl. cbn [negb].
  destruct (daily_loc_all_Ok _ _ Hgrid) as (df & -> & Hdf & _).
  destruct (daily_loc_all_Ok (Δ_σ_daily self) (set_iter E dates))
    as (rows & -> & Hrows & Hloc).
  { intros d Hd. apply Hgrid. now apply (Hspec dates). }
  destruct (fit_loop_cubic_accepted E rows self Hm Hc) as (Ho & Hc1 & Hin1).
  { intros row Hrow. split; [now apply Hloc|].
    apply (Hacc (d_tenor_date row)); [ | now apply Hloc ].
    apply (Hspec dates). rewrite <- Hrows. now apply in_map. }
  rewrite Ho. cbn [outcome_of self_after].
  set (s1 := self_after (fit_loop E self rows)) in *.
  assert (Hcached : forall d, In d dates -> is_Some (K_σ_daily_smile_func s1 !! d)).
  { intros d Hd. apply (Hspec dates) in Hd. rewrite <- Hrows in Hd.
    apply in_map_iff in Hd as [row [<- Hrow]]. now apply Hin1. }
  assert (Hm1 : spline_method (smile_interpolation_method s1)).
  { destruct (fit_loop_frame E rows self)
      as (_&_&_&_&_&_&_&_&_&_&_&_&_&Hmeth&_).
    fold s1 in Hmeth. rewrite Hmeth, Hm. now right. }
  repeat split; try assumption.
  destruct (smile_loop_spline E s1 (zip df (zip K cp)) Hm1 Hc1) as (σ & Hσ & Hlen).
  { intros r Hr. apply zip_rows_In in Hr. apply Hcached. rewrite <- Hdf.
    now apply in_map. }
  exists σ. split; [exact Hσ|]. rewrite Hlen.
  assert (Hl : length df = length dates) by (rewrite <- Hdf; now rewrite length_map).
  rewrite zip_length; [exact Hl|].
  rewrite zip_length by lia. lia.
Qed.

(** X10. Under ['cubic_spline'], on a surface whose cache holds only
    spline objects (a new surface has an empty cache), a query of equal
    length arrays whose dates are on the grid, at each of which
    [CubicSpline] accepts the solved strikes, does not raise: it returns
    one volatility per entry, every queried date is in the cache
    afterwards, and the cache still holds only spline objects. *)
Theorem interp_sigma_surface_spline_returns (E : Collaborators)
    (self : FXVolatilitySurface) (dates : list Z) (K cp : list float64) :
  set_iter_spec E ->
  smile_interpolation_method self = method_cubic_spline ->
  cache_of_splines self ->
  length dates = length K -> length dates = length cp ->
  (forall d, In d dates -> is_Some (daily_loc (Δ_σ_daily self) d)) ->
  (forall d row,
     In d dates -> daily_loc (Δ_σ_daily self) d = Some row ->
     cubic_spline_init E (strikes E (fx_spot_rate self) row) (d_σ row) = None) ->
  let c := interp_σ_surface E self dates K cp in
  (exists σ, outcome_of c = Ok σ /\ length σ = length dates)
  /\ (forall d, In d dates -> is_Some (K_σ_daily_smile_func (self_after c) !! d))
  /\ cache_of_splines (self_after c).
Proof. exact (interp_σ_surface_cubic_outcome E self dates K cp). Qed.

Lemma example_on_grid (method : string) (d : Z) :
  (1 <= d <= 3)%Z -> is_Some (daily_loc (Δ_σ_daily (example_surface method)) d).
Proof.
  intros Hd. eexists. apply (daily_loc_map _ (date_range 1 3)); [reflexivity|].
  now apply In_date_range.
Qed.

(** On the example surface [CubicSpline] accepts the strikes of every
    row: they are 0.9, 1.0 and 1.1. *)
Lemma example_cubic_accepts (sse : float64) (self : FXVolatilitySurface)
    (row : daily_row) :
  cubic_spline_init (example_collaborators sse)
    (strikes (example_collaborators sse) (fx_spot_rate self) row) (d_σ row)
  = None.
Proof.
  change (example_cubic_spline_init example_strikes (d_σ row) = None).
  unfold example_cubic_spline_init. now rewrite example_strikes_increasing.
Qed.

Lemma interp_sigma_surface_spline_returns_witness :
  let c := interp_σ_surface (example_collaborators (Fin 0))
             (example_surface method_cubic_spline) [1; 2; 2]%Z
             [Fin 1; Fin 1; Fin 2] [Fin 1; Fin 1; Fin 1] in
  (exists σ, outcome_of c = Ok σ /\ length σ = 3%nat)
  /\ (forall d, In d [1; 2; 2]%Z ->
        is_Some (K_σ_daily_smile_func (self_after c) !! d))
  /\ cache_of_splines (self_after c).
Proof.
  apply (interp_sigma_surface_spline_returns (example_collaborators (Fin 0))
           (example_surface method_cubic_spline) [1; 2; 2]%Z).
  - apply example_set_iter_spec.
  - reflexivity.
  - intros d f H. cbn in H. rewrite lookup_empty in H. discriminate.
  - reflexivity.
  - reflexivity.
  - intros d [<-|[<-|[<-|[]]]]; apply example_on_grid; lia.
  - intros d row _ _. apply example_cubic_accepts.
Defined.

(** A pass of the first loop that does not raise either leaves the date
    in the cache or runs under a method without a fit. *)
Lemma fit_smile_Ok_cases (E : Collaborators) (self : FXVolatilitySurface)
    (row : daily_row) :
  outcome_of (fit_smile E self row) = Ok tt ->
  is_Some (K_σ_daily_smile_func (self_after (fit_smile E self row))
             !! d_tenor_date row)
  \/ method_without_fit (smile_interpolation_method self).
Proof.
  unfold fit_smile.
  destruct (K_σ_daily_smile_func self !! d_tenor_date row) as [f|] eqn:Hf.
  - cbn [self_after]. rewrite Hf. eauto.
  - destruct (String.eqb _ method_univariate_spline) eqn:H1.
    { destruct (univariate_spline_init _ _ _); [discriminate|].
      intros _. left. cbn. rewrite lookup_insert_eq. eauto. }
    destruct (String.eqb _ method_cubic_spline) eqn:H2.
    { destruct (cubic_spline_init _ _ _); [discriminate|].
      intros _. left. cbn. rewrite lookup_insert_eq. eauto. }
    destruct (is_heston _) eqn:H3.
    + destruct (flt _ SSE_threshold); [ | discriminate ].
      intros _. left. cbn. rewrite lookup_insert_eq. eauto.
    + intros _. right. repeat split; assumption.
Qed.

Lemma fit_smile_settled (E : Collaborators) (self : FXVolatilitySurface)
    (row : daily_row) :
  is_Some (K_σ_daily_smile_func self !! d_tenor_date row)
  \/ method_without_fit (smile_interpolation_method self) ->
  fit_smile E self row = Call self [] (Ok tt).
Proof.
  intros [[f Hf]|Hm]; [ | now apply fit_smile_without_fit ].
  unfold fit_smile. now rewrite Hf.
Qed.

Lemma fit_loop_second_pass (E : Collaborators) (rows : list daily_row) :
  forall self,
    outcome_of (fit_loop E self rows) = Ok tt ->
    forall row, In row rows ->
      fit_smile E (self_after (fit_loop E self rows)) row
      = Call (self_after (fit_loop E self rows)) [] (Ok tt).
Proof.
  induction rows as [|row rows IH]; intros self Ho r Hr; [destruct Hr|].
  cbn [fit_loop] in Ho |- *.
  destruct (outcome_of (fit_smile E self row)) as [[]|e] eqn:Ho1.
  2:{ rewrite Ho1 in Ho. discriminate. }
  cbn [outcome_of self_after] in Ho |- *.
  set (s1 := self_after (fit_smile E self row)) in *.
  pose proof (fit_loop_frame E rows s1) as Hfr.
  destruct Hr as [<-|Hr]; [ | now apply IH ].
  apply fit_smile_settled.
  destruct (fit_smile_Ok_cases E self row Ho1) as [[f Hf]|Hm].
  - left. exists f. fold s1 in Hf.
    destruct Hfr as (_&_&_&_&_&_&_&_&_&_&_&_&_&_&Hcache). now apply Hcache.
  - right.
    destruct (fit_smile_frame E self row) as (_&_&_&_&_&_&_&_&_&_&_&_&_&Hm1&_).
    destruct Hfr as (_&_&_&_&_&_&_&_&_&_&_&_&_&Hm2&_).
    fold s1 in Hm1. now rewrite Hm2, Hm1.
Qed.

(** X11. A query that returned can be repeated: the same query on the
    surface it left returns the same volatilities, fits nothing and leaves
    the surface as it is. *)
Theorem interp_sigma_surface_repeat (E : Collaborators) (self : FXVolatilitySurface)
    (dates : list Z) (K cp σ : list float64) :
  outcome_of (interp_σ_surface E self dates K cp) = Ok σ ->
  interp_σ_surface E (self_after (interp_σ_surface E self dates K cp)) dates K cp
  = Call (self_after (interp_σ_surface E self dates K cp)) [] (Ok σ).
Proof.
  intros H.
  pose proof (interp_σ_surface_frame E self dates K cp) as Hfr.
  destruct Hfr as (_&_&_&_&_&_&_&_&_&_&Hgrid&_).
  unfold interp_σ_surface at 1. rewrite Hgrid.
  unfold interp_σ_surface in H |- *.
  destruct (negb (length dates =? length K)%nat); [discriminate|].
  destruct (negb (length dates =? length cp)%nat); [discriminate|].
  destruct (daily_loc_all (Δ_σ_daily self) dates) as [df|]; [ | discriminate ].
  destruct (daily_loc_all (Δ_σ_daily self) (set_iter E dates)) as [rows|];
    [ | discriminate ].
  destruct (outcome_of (fit_loop E self rows)) as [[]|e] eqn:Ho; [ | discriminate ].
  cbn [outcome_of self_after] in H |- *.
  rewrite (fit_loop_noop E _ rows (fit_loop_second_pass E rows self Ho)).
  cbn [outcome_of self_after fits_computed]. now rewrite H.
Qed.

Lemma interp_sigma_surface_repeat_witness :
  let self := example_surface method_cubic_spline in
  let c := interp_σ_surface (example_collaborators (Fin 0)) self
             [2%Z] [Fin 1] [Fin 1] in
  interp_σ_surface (example_collaborators (Fin 0)) (self_after c)
    [2%Z] [Fin 1] [Fin 1]
  = Call (self_after c) [] (Ok [Fin (2/10)]).
Proof.
  cbv zeta.
  apply (interp_sigma_surface_repeat (example_collaborators (Fin 0))
           (example_surface method_cubic_spline) [2%Z] [Fin 1] [Fin 1]).
  pose proof (example_cubic_first_query (Fin 1)) as H. cbv zeta in H.
  rewrite H. reflexivity.
Defined.

(** ** Batches entirely outside or entirely inside the pillar range *)

Lemma mask_none {A : Type} (f : A -> bool) (x : list A) :
  (forall v, In v x -> f v = false) -> existsb (fun m => m) (map f x) = false.
Proof.
  intros H. apply existsb_false_forall. intros m Hm.
  apply in_map_iff in Hm as [v [<- Hv]]. now apply H.
Qed.

Lemma mask_all {A : Type} (f : A -> bool) (x : list A) :
  (forall v, In v x -> f v = true) ->
  select (map f x) x = x
  /\ count_true (map f x) = length x
  /\ (x <> [] -> existsb (fun m => m) (map f x) = true).
Proof.
  induction x as [|v x IH]; intros H; [repeat split; congruence|].
  destruct IH as (Hs & Hc & _); [intros; apply H; now right|].
  cbn [map select count_true existsb length].
  rewrite (H v (or_introl eq_refl)), Hs, Hc. repeat split.
Qed.

Lemma fill_all {A : Type} (f : A -> bool) (d : list A) :
  (forall v, In v d -> f v = true) ->
  forall x values : list float64,
    length x = length d -> length values = length d ->
    fill (map f d) x values = values.
Proof.
  intros H. induction d as [|v d IH]; intros x values Hx Hv.
  - destruct x; [ | discriminate ]. destruct values; [reflexivity | discriminate].
  - destruct x as [|x0 x]; [discriminate|].
    destruct values as [|w values]; [discriminate|].
    cbn [map fill]. rewrite (H v (or_introl eq_refl)). f_equal.
    apply IH; [intros; apply H; now right | now injection Hx | now injection Hv].
Qed.

(** X12. A batch whose dates all lie outside the pillar range is priced
    without raising and without a look at the smile surface: nothing is
    fitted, the surface is as it was, the Garman-Kohlhagen pricer receives
    a not-a-number volatility for every entry, and the returned dictionary
    reports those volatilities under ['market_data_inputs']. *)
Theorem price_fx_vanilla_european_out_of_range (E : Collaborators)
    (self : FXVolatilitySurface) (expiry : list Z) (K cp : list float64)
    (greeks split : bool) :
  length expiry = length K -> length expiry = length cp ->
  (forall d, In d expiry -> in_pillar_range self d = false) ->
  let σ := repeat NaN (length expiry) in
  let r_f := map (foreign_zero_curve self) expiry in
  let r_d := map (domestic_zero_curve self) expiry in
  let F := interp_fx_forward_curve E (fx_forward_curve self) expiry true in
  price_fx_vanilla_european E self expiry K cp greeks split
  = Call self []
      (Ok (<["market_data_inputs" :=
               PyFrame [] [("σ", σ); ("r_f", r_f); ("r_d", r_d); ("F", F)]]>
             (gk_price E (fx_spot_rate self)
                (map (daycounter self (curve_date self)) expiry)
                r_f r_d cp K σ F greeks split))).
Proof.
  intros HK Hcp Hout. cbv zeta. unfold price_fx_vanilla_european.
  rewrite <- HK, <- Hcp, Nat.eqb_refl. cbn [negb].
  rewrite (mask_none _ _ Hout). reflexivity.
Qed.

Lemma price_fx_vanilla_european_out_of_range_witness :
  let E := example_collaborators (Fin 0) in
  let self := example_surface method_cubic_spline in
  price_fx_vanilla_european E self [0; 5]%Z [Fin 1; Fin 1] [Fin 1; Fin 1] false false
  = Call self []
      (Ok (<["market_data_inputs" :=
               PyFrame [] [("σ", [NaN; NaN]); ("r_f", [Fin 0; Fin 0]);
                           ("r_d", [Fin 0; Fin 0]); ("F", [Fin 1; Fin 1])]]>
             (gk_price E (Fin 1) [Fin 0; Fin 5] [Fin 0; Fin 0] [Fin 0; Fin 0]
                [Fin 1; Fin 1] [Fin 1; Fin 1] [NaN; NaN] [Fin 1; Fin 1]
                false false))).
Proof.
  cbv zeta.
  apply (price_fx_vanilla_european_out_of_range (example_collaborators (Fin 0))
           (example_surface method_cubic_spline) [0; 5]%Z);
    try reflexivity.
  intros d [<-|[<-|[]]]; reflexivity.
Defined.

(** On a surface whose grid was built from its pillars, every date of the
    pillar range has a row in the grid. *)
Lemma grid_of_pillars_on_grid (self : FXVolatilitySurface) (d : Z) :
  grid_of_pillars self -> in_pillar_range self d = true ->
  is_Some (daily_loc (Δ_σ_daily self) d).
Proof.
  intros (w & fx & Hb) Hr.
  apply post_init_Δ_σ_daily_Ok in Hb as (lo & hi & Hlo & Hhi & _ & Hgrid & _).
  unfold in_pillar_range in Hr. rewrite Hlo, Hhi in Hr.
  apply andb_true_iff in Hr as [H1 H2]. apply Z.leb_le in H1, H2.
  rewrite Hgrid. eexists. apply daily_loc_map; [reflexivity|].
  apply In_date_range. lia.
Qed.

Lemma mask_assign_all {A : Type} (f : A -> bool) (d : list A)
    (values : list float64) :
  (forall v, In v d -> f v = true) ->
  length values = length d ->
  mask_assign (map f d) (repeat NaN (length d)) values = Ok values.
Proof.
  intros H Hlen. unfold mask_assign.
  destruct (mask_all f d H) as (_ & -> & _).
  rewrite Hlen, Nat.eqb_refl.
  rewrite (fill_all f d H); [reflexivity | apply repeat_length | exact Hlen].
Qed.

(** X13. On a surface whose grid was built from its pillars, under
    ['cubic_spline'] and with a cache of spline objects, a batch of equal
    length arrays whose dates all lie in the pillar range, at each of which
    [CubicSpline] accepts the solved strikes, is priced without raising:
    the volatilities are those that [interp_σ_surface] returns for the
    whole batch, one per entry, they are what the Garman-Kohlhagen pricer
    receives and what the dictionary reports, and the surface and the fits
    are those of that query. *)
Theorem price_fx_vanilla_european_in_range (E : Collaborators)
    (self : FXVolatilitySurface) (expiry : list Z) (K cp : list float64)
    (greeks split : bool) :
  set_iter_spec E -> grid_of_pillars self ->
  smile_interpolation_method self = method_cubic_spline ->
  cache_of_splines self ->
  length expiry = length K -> length expiry = length cp ->
  (forall d, In d expiry -> in_pillar_range self d = true) ->
  (forall d row,
     In d expiry -> daily_loc (Δ_σ_daily self) d = Some row ->
     cubic_spline_init E (strikes E (fx_spot_rate self) row) (d_σ row) = None) ->
  let q := interp_σ_surface E self expiry K cp in
  let c := price_fx_vanilla_european E self expiry K cp greeks split in
  let r_f := map (foreign_zero_curve self) expiry in
  let r_d := map (domestic_zero_curve self) expiry in
  let F := interp_fx_forward_curve E (fx_forward_curve self) expiry true in
  exists σ,
    outcome_of q = Ok σ /\ length σ = length expiry
    /\ self_after c = self_after q /\ fits_computed c = fits_computed q
    /\ outcome_of c
       = Ok (<["market_data_inputs" :=
                 PyFrame [] [("σ", σ); ("r_f", r_f); ("r_d", r_d); ("F", F)]]>
               (gk_price E (fx_spot_rate self)
                  (map (daycounter self (curve_date self)) expiry)
                  r_f r_d cp K σ F greeks split)).
Proof.
  intros Hspec Hgrid Hm Hc HK Hcp Hin Hacc. cbv zeta.
  assert (Hon : forall d, In d expiry -> is_Some (daily_loc (Δ_σ_daily self) d))
    by (intros d Hd; apply grid_of_pillars_on_grid; auto).
  destruct (interp_σ_surface_cubic_outcome E self expiry K cp
              Hspec Hm Hc HK Hcp Hon Hacc) as ((σ & Hσ & Hlen) & _ & _).
  exists σ. split; [exact Hσ|]. split; [exact Hlen|].
  destruct (interp_σ_surface_frame E self expiry K cp)
    as (F1&_&F3&F4&F5&F6&_&F8&_).
  unfold price_fx_vanilla_european.
  rewrite <- HK, <- Hcp, Nat.eqb_refl. cbn [negb].
  destruct (mask_all (in_pillar_range self) expiry Hin) as (Hsel & _ & Hany).
  destruct expiry as [|d0 expiry'] eqn:He.
  - (* the empty batch: no call of [interp_σ_surface] *)
    cbn [map existsb outcome_of self_after fits_computed length repeat].
    destruct K; [ | discriminate ]. destruct cp; [ | discriminate ].
    assert (Hq : interp_σ_surface E self [] [] [] = Call self [] (Ok [])).
    { unfold interp_σ_surface. cbn [length Nat.eqb negb daily_loc_all].
      destruct (Hspec []) as [_ Hset].
      destruct (set_iter E []) as [|x l];
        [reflexivity | destruct (proj1 (Hset x) (or_introl eq_refl))]. }
    rewrite Hq in Hσ |- *. cbn [outcome_of] in Hσ. injection Hσ as <-.
    repeat split.
  - rewrite <- He in *. rewrite Hany by (rewrite He; discriminate).
    rewrite Hsel. cbn [outcome_of self_after fits_computed].
    rewrite Hσ. rewrite (mask_assign_all _ _ σ Hin Hlen).
    cbn [outcome_of self_after fits_computed].
    rewrite F1, F3, F4, F5, F6, F8. repeat split.
Qed.

Lemma example_grid_of_pillars (method : string) :
  grid_of_pillars (example_surface method).
Proof. exists [warn_tau_zero], (fun _ => Fin 1%R). exact example_builds. Qed.

Lemma example_cache_of_splines (method : string) :
  cache_of_splines (example_surface method).
Proof. intros d f H. cbn in H. rewrite lookup_empty in H. discriminate. Qed.

Lemma price_fx_vanilla_european_in_range_witness :
  let E := example_collaborators (Fin 0) in
  let self := example_surface method_cubic_spline in
  let expiry := [1; 2]%Z in
  let K := [Fin 1; Fin 1] in
  let cp := [Fin 1; Fin 1] in
  let q := interp_σ_surface E self expiry K cp in
  let c := price_fx_vanilla_european E self expiry K cp false false in
  let r_f := map (foreign_zero_curve self) expiry in
  let r_d := map (domestic_zero_curve self) expiry in
  let F := interp_fx_forward_curve E (fx_forward_curve self) expiry true in
  exists σ,
    outcome_of q = Ok σ /\ length σ = length expiry
    /\ self_after c = self_after q /\ fits_computed c = fits_computed q
    /\ outcome_of c
       = Ok (<["market_data_inputs" :=
                 PyFrame [] [("σ", σ); ("r_f", r_f); ("r_d", r_d); ("F", F)]]>
               (gk_price E (fx_spot_rate self)
                  (map (daycounter self (curve_date self)) expiry)
                  r_f r_d cp K σ F false false)).
Proof.
  cbv zeta.
  apply (price_fx_vanilla_european_in_range (example_collaborators (Fin 0))
           (example_surface method_cubic_spline) [1; 2]%Z
           [Fin 1; Fin 1] [Fin 1; Fin 1] false false).
  - apply example_set_iter_spec.
  - apply example_grid_of_pillars.
  - reflexivity.
  - apply example_cache_of_splines.
  - reflexivity.
  - reflexivity.
  - intros d [<-|[<-|[]]]; reflexivity.
  - intros d row _ _. apply example_cubic_accepts.
Defined.

(** X14. Under a smile method for which the code has no branch, on a
    surface whose grid was built from its pillars, a non-empty batch whose
    dates all lie in the pillar range cannot be priced: the empty array
    that [interp_σ_surface] returns does not fit the mask, the assignment
    [σ[mask] = ...] raises ValueError, and nothing was fitted. *)
Theorem price_fx_vanilla_european_method_without_fit (E : Collaborators)
    (self : FXVolatilitySurface) (expiry : list Z) (K cp : list float64)
    (greeks split : bool) :
  set_iter_spec E -> grid_of_pillars self ->
  method_without_fit (smile_interpolation_method self) ->
  length expiry = length K -> length expiry = length cp ->
  expiry <> [] ->
  (forall d, In d expiry -> in_pillar_range self d = true) ->
  price_fx_vanilla_european E self expiry K cp greeks split
  = Call self [] (Raise (ValueError (msg_mask_assign 0 (length expiry)))).
Proof.
  intros Hspec Hgrid Hm HK Hcp Hne Hin.
  assert (Hon : forall d, In d expiry -> is_Some (daily_loc (Δ_σ_daily self) d))
    by (intros d Hd; apply grid_of_pillars_on_grid; auto).
  pose proof (interp_σ_surface_no_branch E self expiry K cp Hspec Hm HK Hcp Hon)
    as Hq.
  unfold price_fx_vanilla_european.
  rewrite <- HK, <- Hcp, Nat.eqb_refl. cbn [negb].
  destruct (mask_all (in_pillar_range self) expiry Hin) as (Hsel & Hcount & Hany).
  rewrite (Hany Hne), Hsel, Hq. cbn [outcome_of self_after fits_computed].
  unfold mask_assign. rewrite Hcount.
  destruct expiry as [|d expiry']; [contradiction|]. reflexivity.
Qed.

Lemma price_fx_vanilla_european_method_without_fit_witness :
  price_fx_vanilla_european (example_collaborators (Fin 0))
    (example_surface "sabr") [1; 2]%Z [Fin 1; Fin 1] [Fin 1; Fin 1] false false
  = Call (example_surface "sabr") []
      (Raise (ValueError
                "NumPy boolean array indexing assignment cannot assign 0 input values to the 2 output values where the mask is true")).
Proof.
  apply price_fx_vanilla_european_method_without_fit; try reflexivity.
  - apply example_set_iter_spec.
  - apply example_grid_of_pillars.
  - repeat split.
  - discriminate.
  - intros d [<-|[<-|[]]]; reflexivity.
Defined.

(** ** What a rejected Heston fit leaves behind *)

Lemma fit_smile_Raise (E : Collaborators) (self : FXVolatilitySurface)
    (row : daily_row) (e : exn) :
  outcome_of (fit_smile E self row) = Raise e ->
  K_σ_daily_smile_func self !! d_tenor_date row = None
  /\ fit_smile E self row = Call self [d_tenor_date row] (Raise e)
  /\ fit_error e (d_tenor_date row).
Proof.
  destruct (fit_smile_cases E self row)
    as [-> | [(_ & _ & -> & _) | (Hn & e' & -> & He)]];
    cbn [outcome_of]; try discriminate.
  intros H. injection H as <-. auto.
Qed.

Lemma smile_loop_not_poor (E : Collaborators) (self : FXVolatilitySurface)
    (rows : list (daily_row * (float64 * float64))) (s : float64) (d : Z) :
  smile_loop E self rows <> Raise (PoorHestonFit s d).
Proof.
  induction rows as [|[row [K cp]] rows IH]; cbn [smile_loop]; [discriminate|].
  destruct (smile_σ E self row K cp) as [o|e] eqn:Hs.
  - destruct (smile_loop E self rows) as [r|e]; [discriminate|].
    intros H. apply IH. exact H.
  - intros H. injection H as ->. exact (smile_σ_not_poor _ _ _ _ _ _ _ Hs).
Qed.

Lemma fit_loop_Raise (E : Collaborators) (rows : list daily_row) :
  forall self e,
    outcome_of (fit_loop E self rows) = Raise e ->
    exists d,
      fit_error e d
      /\ K_σ_daily_smile_func (self_after (fit_loop E self rows)) !! d = None
      /\ last (fits_computed (fit_loop E self rows)) = Some d
      /\ In d (map d_tenor_date rows).
Proof.
  induction rows as [|row rows IH]; intros self e; cbn [fit_loop];
    [discriminate|].
  destruct (outcome_of (fit_smile E self row)) as [[]|e1] eqn:Ho1.
  - cbn [outcome_of self_after fits_computed]. intros Ho.
    destruct (IH _ _ Ho) as (d & He & Hnone & Hlast & Hin).
    exists d. repeat split; try assumption.
    + rewrite last_app, Hlast. reflexivity.
    + now right.
  - intros Ho. rewrite Ho1 in Ho. injection Ho as <-.
    destruct (fit_smile_Raise E self row e1 Ho1) as (Hnone & Hc & He).
    exists (d_tenor_date row). rewrite Hc. cbn [self_after fits_computed].
    repeat split; try assumption. now left.
Qed.

Lemma daily_loc_all_Raise (df : list daily_row) (dates : list Z) (e : exn) :
  daily_loc_all df dates = Raise e -> e = KeyError.
Proof.
  induction dates as [|d dates IH]; cbn [daily_loc_all]; [discriminate|].
  destruct (daily_loc df d); [ | intros H; now injection H ].
  destruct (daily_loc_all df dates); [discriminate|].
  intros H. injection H as <-. now apply IH.
Qed.

(** X15. When a query raises the error of a poor Heston fit at a date, the
    sum of squared errors it reports is not below the threshold, that date
    is one of the queried dates and is not in the cache afterwards, it is
    the last date that was fitted, and every date fitted before it in the
    same call stays in the cache: the fits accepted before the failure
    are kept. *)
Theorem interp_sigma_surface_rejection_keeps_earlier_fits (E : Collaborators)
    (self : FXVolatilitySurface) (dates : list Z) (K cp : list float64)
    (s : float64) (d : Z) :
  set_iter_spec E ->
  let c := interp_σ_surface E self dates K cp in
  outcome_of c = Raise (PoorHestonFit s d) ->
  In d dates
  /\ flt s SSE_threshold = false
  /\ K_σ_daily_smile_func (self_after c) !! d = None
  /\ last (fits_computed c) = Some d
  /\ (forall d', In d' (fits_computed c) -> d' <> d ->
        is_Some (K_σ_daily_smile_func (self_after c) !! d')).
Proof.
  intros Hspec c. unfold c, interp_σ_surface.
  destruct (negb (length dates =? length K)%nat); [discriminate|].
  destruct (negb (length dates =? length cp)%nat); [discriminate|].
  destruct (daily_loc_all (Δ_σ_daily self) dates) as [df|e0] eqn:Hdf.
  2:{ rewrite (daily_loc_all_Raise _ _ _ Hdf). discriminate. }
  destruct (daily_loc_all (Δ_σ_daily self) (set_iter E dates)) as [rows|e0] eqn:Hrows.
  2:{ rewrite (daily_loc_all_Raise _ _ _ Hrows). discriminate. }
  destruct (outcome_of (fit_loop E self rows)) as [[]|e] eqn:Ho;
    cbn [outcome_of self_after fits_computed].
  - intros Hout. destruct (smile_loop_not_poor _ _ _ _ _ Hout).
  - intros Hout. injection Hout as ->.
    destruct (fit_loop_Raise E rows self _ Ho) as (d' & He & Hnone & Hlast & Hin).
    assert (Hd : d' = d /\ flt s SSE_threshold = false).
    { destruct He as [(s' & Heq & Hflt)|(err & Heq)].
      - injection Heq as -> ->. auto.
      - destruct err; discriminate. }
    destruct Hd as [-> Hflt].
    rewrite (daily_loc_all_dates _ _ _ Hrows) in Hin.
    repeat split; try assumption.
    + now apply (Hspec dates).
    + intros d' Hd' Hne.
      destruct (fit_loop_fits E rows self) as [Hfits _].
      destruct (Hfits d' Hd') as [_ [Hsome|(_ & Hlast' & _)]]; [exact Hsome|].
      congruence.
Qed.

Lemma sloped_SSE (self : FXVolatilitySurface) (d : Z) :
  SSE (calibration sloped_collaborators self
         (daily_row_of example_daycounter example_rate example_rate
            (fun _ => Fin 1%R) example_σ_pillar d))
  = Fin (IZR d * (4 / 10000)).
Proof. reflexivity. Qed.

(** Days 1 and 3 under a Heston method whose calibration is good on day 1
    (0.0004) and poor on day 3 (0.0012). *)
Lemma sloped_query :
  interp_σ_surface sloped_collaborators
    (example_surface method_heston_analytical_1993) [1; 3]%Z
    [Fin 1; Fin 1] [Fin 1; Fin 1]
  = Call (set_smile_func (example_surface method_heston_analytical_1993) 1
            (HestonTuple
               (calibration sloped_collaborators
                  (example_surface method_heston_analytical_1993)
                  (daily_row_of example_daycounter example_rate example_rate
                     (fun _ => Fin 1%R) example_σ_pillar 1))))
         [1; 3]%Z (Raise (PoorHestonFit (Fin (3 * (4 / 10000))) 3)).
Proof.
  unfold interp_σ_surface. cbn [length Nat.eqb negb].
  change (set_iter sloped_collaborators [1%Z; 3%Z]) with [1%Z; 3%Z].
  cbn [daily_loc_all Δ_σ_daily example_surface]. unfold example_Δ_σ_daily.
  rewrite !daily_loc_map by (try reflexivity; apply In_date_range; lia).
  cbn [fit_loop].
  rewrite fit_smile_heston;
    [ | reflexivity
      | cbn [Δ_σ_daily example_surface]; unfold example_Δ_σ_daily;
        apply daily_loc_map; [reflexivity | apply In_date_range; cbn; lia]
      | apply lookup_empty ].
  rewrite sloped_SSE. cbn [flt SSE_threshold]. rewrite Rltb_true by lra.
  cbn [outcome_of self_after fits_computed].
  rewrite fit_smile_heston;
    [ | reflexivity
      | cbn [Δ_σ_daily example_surface set_smile_func]; unfold example_Δ_σ_daily;
        apply daily_loc_map; [reflexivity | apply In_date_range; cbn; lia]
      | cbn; rewrite lookup_insert_ne by discriminate; apply lookup_empty ].
  rewrite sloped_SSE. cbn [flt SSE_threshold]. rewrite Rltb_false by lra.
  reflexivity.
Qed.

Lemma sloped_set_iter_spec : set_iter_spec sloped_collaborators.
Proof.
  intros dates. cbn [set_iter sloped_collaborators]. split.
  - apply NoDup_remove_dups.
  - intros d. rewrite <- !list_elem_of_In. apply elem_of_remove_dups.
Qed.

Lemma interp_sigma_surface_rejection_keeps_earlier_fits_witness :
  let c := interp_σ_surface sloped_collaborators
             (example_surface method_heston_analytical_1993) [1; 3]%Z
             [Fin 1; Fin 1] [Fin 1; Fin 1] in
  In 3%Z [1; 3]%Z
  /\ flt (Fin (3 * (4 / 10000))) SSE_threshold = false
  /\ K_σ_daily_smile_func (self_after c) !! 3%Z = None
  /\ last (fits_computed c) = Some 3%Z
  /\ (forall d', In d' (fits_computed c) -> d' <> 3%Z ->
        is_Some (K_σ_daily_smile_func (self_after c) !! d')).
Proof.
  apply (interp_sigma_surface_rejection_keeps_earlier_fits sloped_collaborators
           (example_surface method_heston_analytical_1993) [1; 3]%Z
           [Fin 1; Fin 1] [Fin 1; Fin 1] (Fin (3 * (4 / 10000))) 3).
  - exact sloped_set_iter_spec.
  - rewrite sloped_query. reflexivity.
Defined.

(** * Further properties of [simulate_fx_rate_path] *)

Lemma forward_volatility_exceptions (t1 σ_t1 t2 σ_t2 : ndarray)
    (w : list string) (e : exn) :
  forward_volatility t1 σ_t1 t2 σ_t2 = (w, Raise e) ->
  e = NameError "ValueErwarnings" \/ e = ValueError msg_negative_sqrt.
Proof.
  unfold forward_volatility.
  destruct (np_any (fun x => feq x fzero) (np_sub t2 t1)).
  - cbn [wbind wwarn]. destruct (np_any _ _); cbn [wraise wret];
      intros H; injection H as _ H; [now right | discriminate].
  - destruct (np_any (fun x => flt x fzero) (np_sub t2 t1)).
    + cbn [wbind wraise]. intros H. injection H as _ <-. now left.
    + cbn [wbind wret]. destruct (np_any _ _); cbn [wraise wret];
        intros H; injection H as _ H; [now right | discriminate].
Qed.

Lemma select_In {A : Type} (f : A -> bool) (x : list A) (v : A) :
  In v (select (map f x) x) -> In v x /\ f v = true.
Proof.
  induction x as [|u x IH]; cbn [map select]; [intros []|].
  destruct (f u) eqn:Hu.
  - intros [<-|Hin]; [split; [now left | exact Hu]|].
    destruct (IH Hin). split; [now right | assumption].
  - intros Hin. destruct (IH Hin). split; [now right | assumption].
Qed.

Lemma select_length_count {A : Type} (f : A -> bool) (x : list A) :
  length (select (map f x) x) = count_true (map f x).
Proof.
  induction x as [|u x IH]; [reflexivity|]. cbn [map select count_true].
  destruct (f u); cbn [length]; now rewrite IH.
Qed.

Lemma bc_row_length (f : float64 -> float64 -> float64) (r1 r2 : list float64) :
  length r2 = length r1 -> length (bc_row f r1 r2) = length r1.
Proof.
  intros H. unfold bc_row.
  destruct r1 as [|a [|a' r1]]; destruct r2 as [|b [|b' r2]];
    try discriminate; try reflexivity.
  rewrite length_zip_with. lia.
Qed.

Lemma removelast_length {A : Type} (l : list A) :
  length (removelast l) = pred (length l).
Proof.
  induction l as [|a [|b l] IH]; try reflexivity.
  change (removelast (a :: b :: l)) with (a :: removelast (b :: l)).
  cbn [length] in *. now rewrite IH.
Qed.

Lemma fill_length (mask : list bool) (x values : list float64) :
  length (fill mask x values) = length x.
Proof.
  revert x values. induction mask as [|m mask IH]; intros [|v x] values;
    try reflexivity.
  cbn [fill]. destruct m; [destruct values|]; cbn [length]; now rewrite IH.
Qed.

(** On one-dimensional arrays of one length, [forward_volatility] returns
    an array of that length. *)
Lemma forward_volatility_1d_shape (t1 σ_t1 t2 σ_t2 : list float64)
    (w : list string) (out : ndarray) :
  length σ_t1 = length t1 -> length t2 = length t1 -> length σ_t2 = length t1 ->
  forward_volatility [t1] [σ_t1] [t2] [σ_t2] = (w, Ok out) ->
  exists row, out = [row] /\ length row = length t1.
Proof.
  intros H1 H2 H3. unfold forward_volatility.
  assert (Hout : exists row,
             np_sqrt (np_div (np_sub (np_mul (np_square [σ_t2]) [t2])
                                (np_mul (np_square [σ_t1]) [t1]))
                        (np_sub [t2] [t1])) = [row]
             /\ length row = length t1).
  { eexists. split; [reflexivity|].
    rewrite length_map.
    assert (Hτ : length (bc_row fsub t2 t1) = length t1)
      by (rewrite bc_row_length; congruence).
    assert (Ha : length (bc_row fmul (map fsquare σ_t2) t2) = length t1)
      by (rewrite bc_row_length; rewrite !length_map; congruence).
    assert (Hb : length (bc_row fmul (map fsquare σ_t1) t1) = length t1)
      by (rewrite bc_row_length; rewrite !length_map; congruence).
    assert (Hn : length (bc_row fsub (bc_row fmul (map fsquare σ_t2) t2)
                           (bc_row fmul (map fsquare σ_t1) t1)) = length t1)
      by (rewrite bc_row_length; congruence).
    rewrite bc_row_length; congruence. }
  destruct Hout as (row & Hrow & Hlen). rewrite Hrow.
  destruct (np_any (fun x => feq x fzero) (np_sub [t2] [t1])).
  - cbn [wbind wwarn]. destruct (np_any _ _); cbn [wraise wret];
      intros H; injection H as _ H; [discriminate|].
    subst out. eauto.
  - destruct (np_any (fun x => flt x fzero) (np_sub [t2] [t1])).
    + cbn [wbind wraise]. discriminate.
    + cbn [wbind wret]. destruct (np_any _ _); cbn [wraise wret];
        intros H; injection H as _ H; [discriminate|].
      subst out. eauto.
Qed.

(** X16. On a surface whose grid was built from its pillars, with a
    forward curve that gives one rate per date, [simulate_fx_rate_path]
    raises nothing but an IndexError, and that only on an empty date
    grid, the NameError of [forward_volatility] or the ValueError of a
    negative forward variance: a date of the grid that lies outside the
    pillar range is no error (its volatility is not-a-number), and no date
    of the grid is missed in the daily grid. *)
Theorem simulate_fx_rate_path_exceptions (E : Collaborators)
    (self : FXVolatilitySurface) (date_grid : option (list Z))
    (nb_of_simulations : option nat) (flag_apply_antithetic_variates : option bool)
    (method : string) (w : list string) (e : exn) :
  grid_of_pillars self ->
  (forall dates,
     length (interp_fx_forward_curve E (fx_forward_curve self) dates true)
     = length dates) ->
  simulate_fx_rate_path E self date_grid nb_of_simulations
    flag_apply_antithetic_variates method = (w, Raise e) ->
  (e = IndexError
   /\ match date_grid with
      | Some g => g
      | None => map p_tenor_date (σ_pillar self)
      end = [])
  \/ e = NameError "ValueErwarnings"
  \/ e = ValueError msg_negative_sqrt.
Proof.
  intros Hgrid Hfwd. unfold simulate_fx_rate_path.
  destruct (String.eqb method method_geometric_brownian_motion); [ | discriminate ].
  set (g := match date_grid with
            | Some g => g
            | None => map p_tenor_date (σ_pillar self)
            end).
  specialize (Hfwd g).
  destruct (interp_fx_forward_curve E (fx_forward_curve self) g true) as [|f fs].
  { intros H. injection H as _ <-. left. split; [reflexivity|].
    destruct g; [reflexivity | discriminate]. }
  assert (Hσ : exists σ_atm,
             (if existsb (fun m => m) (map (in_pillar_range self) g)
              then
                match daily_loc_all (Δ_σ_daily self)
                        (select (map (in_pillar_range self) g) g) with
                | Ok rows =>
                    match mask_assign (map (in_pillar_range self) g)
                            (repeat NaN (length g)) (map σ_atmΔneutral rows) with
                    | Ok σ_atm => wret σ_atm
                    | Raise e => wraise e
                    end
                | Raise e => wraise e
                end
              else wret (repeat NaN (length g))) = ([], Ok σ_atm)
             /\ length σ_atm = length g).
  { destruct (existsb _ _); [ | eexists; split; [reflexivity | apply repeat_length] ].
    destruct (daily_loc_all_Ok (Δ_σ_daily self)
                (select (map (in_pillar_range self) g) g))
      as (rows & -> & Hdates & _).
    { intros d Hd. apply select_In in Hd as [_ Hr].
      now apply grid_of_pillars_on_grid. }
    unfold mask_assign.
    replace (length (map σ_atmΔneutral rows))
      with (count_true (map (in_pillar_range self) g)).
    - rewrite Nat.eqb_refl. eexists. split; [reflexivity|].
      rewrite fill_length. apply repeat_length.
    - rewrite length_map, <- (length_map d_tenor_date rows), Hdates.
      symmetry. apply select_length_count. }
  destruct Hσ as (σ_atm & -> & Hlen). cbn [wbind].
  destruct σ_atm as [|σ0 σ_atm].
  { destruct g; discriminate. }
  destruct (forward_volatility _ _ _ _) as [w2 [σ_forward|e2]] eqn:Hfv.
  - apply forward_volatility_1d_shape in Hfv as (row & -> & Hrow).
    + cbn [wbind]. destruct row as [|x xs]; [ | discriminate ].
      rewrite removelast_length in Hrow. cbn [length] in Hrow.
      rewrite length_map in Hrow. destruct g; discriminate.
    + cbn [length]. rewrite !removelast_length. cbn [length].
      rewrite length_map. cbn [length] in Hlen. lia.
    + rewrite removelast_length. reflexivity.
    + rewrite removelast_length. cbn [length tail]. rewrite length_map.
      cbn [length] in Hlen. lia.
  - cbn [wbind]. intros H. injection H as _ <-. right.
    exact (forward_volatility_exceptions _ _ _ _ _ _ Hfv).
Qed.

Lemma simulate_fx_rate_path_exceptions_witness :
  grid_of_pillars (example_surface method_cubic_spline)
  /\ simulate_fx_rate_path (example_collaborators (Fin 0))
       (example_surface method_cubic_spline) (Some []) None None
       method_geometric_brownian_motion = ([], Raise IndexError)
  /\ ((IndexError = IndexError /\ @nil Z = [])
      \/ IndexError = NameError "ValueErwarnings"
      \/ IndexError = ValueError msg_negative_sqrt).
Proof.
  split; [apply example_grid_of_pillars|].
  split; [reflexivity|].
  apply (simulate_fx_rate_path_exceptions (example_collaborators (Fin 0))
           (example_surface method_cubic_spline) (Some []) None None
           method_geometric_brownian_motion []).
  - apply example_grid_of_pillars.
  - intros dates. apply length_map.
  - reflexivity.
Defined.

(** * The univariate spline on the three buckets of a smile *)

Lemma fit_loop_univariate (E : Collaborators) (self : FXVolatilitySurface)
    (rows : list daily_row) :
  univariate_needs_four_points E ->
  smile_interpolation_method self = method_univariate_spline ->
  (forall row, In row rows ->
     daily_loc (Δ_σ_daily self) (d_tenor_date row) = Some row
     /\ (length (d_σ row) <= 3)%nat) ->
  (exists row, In row rows
               /\ K_σ_daily_smile_func self !! d_tenor_date row = None) ->
  exists d err,
    In d (map d_tenor_date rows)
    /\ K_σ_daily_smile_func self !! d = None
    /\ fit_loop E self rows = Call self [d] (Raise (raise_scipy err)).
Proof.
  intros Hscipy Hm. induction rows as [|row rows IH]; intros Hrows Hnew.
  - destruct Hnew as (r & [] & _).
  - destruct (Hrows row (or_introl eq_refl)) as [Hrow Hlen].
    cbn [fit_loop map].
    destruct (K_σ_daily_smile_func self !! d_tenor_date row) as [f|] eqn:Hc.
    + assert (Hfit : fit_smile E self row = Call self [] (Ok tt))
        by (unfold fit_smile; now rewrite Hc).
      rewrite Hfit. cbn [outcome_of self_after fits_computed app].
      destruct IH as (d & err & Hd & Hnone & ->).
      * intros r Hr. apply Hrows. now right.
      * destruct Hnew as (r & [<-|Hr] & Hr'); [congruence | eauto].
      * exists d, err. repeat split; [now right | exact Hnone].
    + rewrite (fit_smile_univariate E self row Hm Hrow Hc).
      destruct (univariate_spline_init E _ (d_σ row)) as [err|] eqn:Hinit.
      * exists (d_tenor_date row), err. repeat split; [now left | exact Hc].
      * destruct (Hscipy _ _ Hlen Hinit).
Qed.

(** X17. Under ['univariate_spline'] no smile is ever fitted on a daily
    grid of three buckets, given that the constructor needs more than
    three points, as scipy's does: a query of equal length arrays, on
    dates of the grid of which one is not in the cache, raises the error
    of the constructor at one of its dates that the cache does not hold,
    after that one attempt, and leaves the surface as it was. *)
Theorem interp_sigma_surface_univariate_spline_raises (E : Collaborators)
    (self : FXVolatilitySurface) (dates : list Z) (K cp : list float64) :
  set_iter_spec E ->
  univariate_needs_four_points E ->
  smile_interpolation_method self = method_univariate_spline ->
  length dates = length K -> length dates = length cp ->
  (forall d, In d dates ->
     exists row, daily_loc (Δ_σ_daily self) d = Some row
                 /\ (length (d_σ row) <= 3)%nat) ->
  (exists d, In d dates /\ K_σ_daily_smile_func self !! d = None) ->
  exists d err,
    In d dates
    /\ K_σ_daily_smile_func self !! d = None
    /\ interp_σ_surface E self dates K cp
       = Call self [d] (Raise (raise_scipy err)).
Proof.
  intros Hspec Hscipy Hm HK Hcp Hgrid (d0 & Hd0 & Hnone0).
  unfold interp_σ_surface.
  rewrite <- HK, <- Hcp, Nat.eqb_refl. cbn [negb].
  assert (Hon : forall d, In d dates -> is_Some (daily_loc (Δ_σ_daily self) d)).
  { intros d Hd. destruct (Hgrid d Hd) as (row & -> & _). eauto. }
  destruct (daily_loc_all_Ok _ _ Hon) as (df & -> & _ & _).
  destruct (daily_loc_all_Ok (Δ_σ_daily self) (set_iter E dates))
    as (rows & -> & Hrows & Hloc).
  { intros d Hd. apply Hon. now apply (Hspec dates). }
  destruct (fit_loop_univariate E self rows Hscipy Hm) as (d & err & Hd & Hnone & ->).
  - intros row Hrow. split; [now apply Hloc|].
    assert (Hin : In (d_tenor_date row) dates).
    { apply (Hspec dates). rewrite <- Hrows. now apply in_map. }
    destruct (Hgrid _ Hin) as (row' & Hrow' & Hlen).
    rewrite (Hloc row Hrow) in Hrow'. now injection Hrow' as <-.
  - assert (Hin : In d0 (map d_tenor_date rows)).
    { rewrite Hrows. now apply (Hspec dates). }
    apply in_map_iff in Hin as (row & <- & Hrow). eauto.
  - exists d, err. cbn [outcome_of self_after fits_computed].
    repeat split; [ | exact Hnone ].
    apply (Hspec dates). now rewrite <- Hrows.
Qed.

Lemma example_univariate_needs_four_points (sse : float64) :
  univariate_needs_four_points (example_collaborators sse).
Proof.
  intros x y Hy. cbn [univariate_spline_init example_collaborators].
  unfold example_univariate_spline_init.
  destruct (Nat.eqb_spec (length x) (length y)) as [Heq|Hne]; cbn [negb];
    [ | discriminate ].
  replace (Nat.leb (length x) 3) with true; [discriminate|].
  symmetry. apply Nat.leb_le. lia.
Qed.

Lemma example_three_buckets (method : string) (d : Z) :
  (d = 1 \/ d = 3)%Z ->
  exists row,
    daily_loc (Δ_σ_daily (example_surface method)) d = Some row
    /\ (length (d_σ row) <= 3)%nat.
Proof.
  intros Hd. eexists. split.
  - apply (daily_loc_map _ (date_range 1 3)); [reflexivity|].
    apply In_date_range. lia.
  - unfold example_σ_pillar. rewrite (example_daily_σ d _ _ Hd).
    destruct (Z.eqb d 1); cbn [length]; lia.
Qed.

(** On the example surface under ['univariate_spline'] a query at days 1
    and 3 raises FITPACK's error and caches nothing. *)
Lemma interp_sigma_surface_univariate_spline_raises_witness :
  exists d err,
    In d [1; 3; 1]%Z
    /\ K_σ_daily_smile_func (example_surface method_univariate_spline) !! d = None
    /\ interp_σ_surface (example_collaborators (Fin 0))
         (example_surface method_univariate_spline) [1; 3; 1]%Z
         [Fin 1; Fin 1; Fin 2] [Fin 1; Fin 1; Fin 1]
       = Call (example_surface method_univariate_spline) [d]
              (Raise (raise_scipy err)).
Proof.
  apply (interp_sigma_surface_univariate_spline_raises
           (example_collaborators (Fin 0))
           (example_surface method_univariate_spline) [1; 3; 1]%Z).
  - apply example_set_iter_spec.
  - apply example_univariate_needs_four_points.
  - reflexivity.
  - reflexivity.
  - reflexivity.
  - intros d [<-|[<-|[<-|[]]]]; apply example_three_buckets; auto.
  - exists 1%Z. split; [now left | apply lookup_empty].
Defined.
